(** * Anony3.0v: the peer-pairing and session-state engine

    A shallow embedding of the session engine of the Anonymous_Chats bot
    (random_connection.py, private_connection.py, private_link_verifier.py,
    otp_clean.py, anony_number.py, create_broadcasting.py,
    process_broadcasting.py, controls_anonybot.py), of the registration of
    a user (telegram_db_manager.py) and of the routing of text messages
    (message_sender.py), with the properties its specification states about
    it and further properties of the code.

    Conventions of the embedding:
    - the [users] table is a finite map from USER_ID (INTEGER PRIMARY KEY)
      to a row; TEXT columns that the code reads through Python truthiness
      are [option string], [None] standing for SQL NULL;
    - Python [str] values are Rocq strings and are taken to be ASCII, so a
      character is a byte;
    - every random draw ([random.randint], [random.choice]) is an explicit
      argument of the function that makes it;
    - the Telegram client is an oracle telling which calls return and which
      raise;
    - a TEXT compared with the INTEGER key [USER_ID] is read by
      [Sql.integer_of_text], which is the comparison of SQLite on the
      [Sql.decided] texts: the literals of integers and the texts that are
      never numeric;
    - the database itself is taken to be available: the [sqlite3.Error]
      branches are not part of the embedding, and neither are log lines nor
      the user-facing ['message'] texts of result dictionaries. *)

From Stdlib Require Import ZArith NArith Ascii String List Bool.
From stdpp Require Import gmap strings list pretty.

Local Open Scope string_scope.
Local Open Scope Z_scope.

(** ** Python strings *)

Module Py.

(** [s[n:]] for [n >= 0] *)
Fixpoint drop (n : nat) (s : string) : string :=
  match n, s with
  | O, _ => s
  | S _, EmptyString => EmptyString
  | S n', String _ s' => drop n' s'
  end.

(** [s[:n]] for [n >= 0] *)
Fixpoint take (n : nat) (s : string) : string :=
  match n, s with
  | O, _ => EmptyString
  | S _, EmptyString => EmptyString
  | S n', String c s' => String c (take n' s')
  end.

(** Python normalises a slice bound: a negative bound counts from the
    end, and the result is clamped to [0, len s]. *)
Definition bound (len : nat) (i : Z) : nat :=
  let j := if i <? 0 then i + Z.of_nat len else i in
  Z.to_nat (Z.min (Z.max j 0) (Z.of_nat len)).

(** [s[lo:hi]] *)
Definition slice (lo hi : Z) (s : string) : string :=
  let n := String.length s in
  let a := bound n lo in
  let b := bound n hi in
  take (b - a) (drop a s).

(** [s[lo:]] *)
Definition slice_from (lo : Z) (s : string) : string :=
  drop (bound (String.length s) lo) s.

(** [s.startswith(p)] *)
Fixpoint startswith (p s : string) : bool :=
  match p, s with
  | EmptyString, _ => true
  | String _ _, EmptyString => false
  | String a p', String b s' => Ascii.eqb a b && startswith p' s'
  end.

Definition code (c : ascii) : N := N_of_ascii c.

(** [c.isdigit()], on ASCII *)
Definition isdigit (c : ascii) : bool :=
  ((48 <=? code c) && (code c <=? 57))%N.

Definition isupper (c : ascii) : bool :=
  ((65 <=? code c) && (code c <=? 90))%N.

Definition islower (c : ascii) : bool :=
  ((97 <=? code c) && (code c <=? 122))%N.

(** [c.isalnum()], on ASCII *)
Definition isalnum (c : ascii) : bool :=
  isdigit c || isupper c || islower c.

(** [c.isspace()], on ASCII: tab, line feed, vertical tab, form feed,
    carriage return, the four separators 28..31 and the space. *)
Definition isspace (c : ascii) : bool :=
  (((9 <=? code c) && (code c <=? 13))
   || ((28 <=? code c) && (code c <=? 32)))%N.

Definition upper_char (c : ascii) : ascii :=
  if islower c then ascii_of_N (code c - 32) else c.

(** [s.upper()] *)
Fixpoint upper (s : string) : string :=
  match s with
  | EmptyString => EmptyString
  | String c s' => String (upper_char c) (upper s')
  end.

Fixpoint lstrip (s : string) : string :=
  match s with
  | EmptyString => EmptyString
  | String c s' => if isspace c then lstrip s' else s
  end.

Fixpoint rev_onto (s acc : string) : string :=
  match s with
  | EmptyString => acc
  | String c s' => rev_onto s' (String c acc)
  end.

Definition rev (s : string) : string := rev_onto s EmptyString.

(** [s.strip()] *)
Definition strip (s : string) : string := rev (lstrip (rev (lstrip s))).

(** Truthiness of a [str]: the empty string is false. *)
Definition nonempty (s : string) : bool :=
  match s with EmptyString => false | String _ _ => true end.

(** Truthiness of a TEXT cell fetched from the table: [None] (SQL NULL)
    and [''] are false. *)
Definition truthy (cell : option string) : bool :=
  match cell with None => false | Some s => nonempty s end.

(** [str(n)] for an [int] *)
Definition str (n : Z) : string := pretty n.

(** The longest prefix of [s] made of digits. *)
Fixpoint digit_run (s : string) : string :=
  match s with
  | EmptyString => EmptyString
  | String c s' => if isdigit c then String c (digit_run s') else EmptyString
  end.

(** [s.isdigit()], on ASCII: not empty, and made of digits *)
Definition isdigit_str (s : string) : bool :=
  nonempty s && forallb isdigit (list_ascii_of_string s).

(** [\w] of a regular expression, on ASCII *)
Definition isword (c : ascii) : bool := isalnum c || Ascii.eqb c "_"%char.

(** The longest prefix of [s] made of word characters. *)
Fixpoint word_run (s : string) : string :=
  match s with
  | EmptyString => EmptyString
  | String c s' => if isword c then String c (word_run s') else EmptyString
  end.

(** [s.split(sep)] for a separator of one character *)
Fixpoint split (sep : ascii) (s : string) : list string :=
  match s with
  | EmptyString => [EmptyString]
  | String c s' =>
      if Ascii.eqb c sep then EmptyString :: split sep s'
      else
        match split sep s' with
        | piece :: pieces => String c piece :: pieces
        | [] => [String c EmptyString]
        end
  end.

(** The digits of an integer literal: at least one digit, and single
    underscores between digits.  [after_digit] tells whether the character
    before was a digit. *)
Fixpoint int_digits (s : string) (acc : N) (after_digit : bool) : option N :=
  match s with
  | EmptyString => if after_digit then Some acc else None
  | String c s' =>
      if isdigit c then int_digits s' (10 * acc + (code c - 48))%N true
      else if Ascii.eqb c "_"%char && after_digit then int_digits s' acc false
      else None
  end.

(** [int(s)] for a [str], on ASCII: white space around the literal is
    dropped and a sign may come first; [None] stands for [ValueError]. *)
Definition int (s : string) : option Z :=
  match strip s with
  | EmptyString => None
  | String c s' =>
      if Ascii.eqb c "-"%char then
        match int_digits s' 0%N false with
        | Some n => Some (- Z.of_N n)
        | None => None
        end
      else if Ascii.eqb c "+"%char then
        match int_digits s' 0%N false with
        | Some n => Some (Z.of_N n)
        | None => None
        end
      else
        match int_digits (String c s') 0%N false with
        | Some n => Some (Z.of_N n)
        | None => None
        end
  end.

End Py.

(** ** SQLite: an INTEGER key compared with a TEXT value

    [USER_ID] is an INTEGER PRIMARY KEY while [PEER_ID] is TEXT, and the
    engine passes [PEER_ID] values (and the issuer id cut out of a private
    link) as the parameter of [WHERE USER_ID = ?].  SQLite applies numeric
    affinity to the text before it compares: a text that reads as a number
    equals the key of that value, any other text equals no key.

    [integer_of_text] reads the integer literals: an optional minus sign
    and decimal digits, which include every text the engine itself writes
    into [PEER_ID] for a user.  SQLite also reads as numbers the texts with
    a plus sign, white space around the literal, a fraction or an exponent
    (['+30000'], [' 30000'], ['30000.0'], ['3e4'], ['2050e0']), through a
    conversion to floating point that the embedding does not describe; for
    these [integer_of_text] answers [None] although SQLite may find a row.
    [decided] tells the texts for which [integer_of_text] is what SQLite
    does, and the properties that let a key text free assume it. *)

Module Sql.

Definition digit_value (c : ascii) : option N :=
  if Py.isdigit c then Some (Py.code c - 48)%N else None.

Fixpoint digits_value (s : string) (acc : N) : option N :=
  match s with
  | EmptyString => Some acc
  | String c s' =>
      match digit_value c with
      | Some d => digits_value s' (10 * acc + d)%N
      | None => None
      end
  end.

Definition integer_of_text (t : string) : option Z :=
  match t with
  | EmptyString => None
  | String c s' =>
      if Ascii.eqb c "-"%char then
        if Py.nonempty s' then
          match digits_value s' 0%N with
          | Some n => Some (- Z.of_N n)
          | None => None
          end
        else None
      else
        match digits_value t 0%N with
        | Some n => Some (Z.of_N n)
        | None => None
        end
  end.

(** The characters that a numeric literal of SQLite can hold, and the white
    space allowed around it. *)
Definition numeric_char (c : ascii) : bool :=
  Py.isdigit c || Py.isspace c
  || existsb (Ascii.eqb c) ["+"; "-"; "."; "e"; "E"]%char.

(** A text that numeric affinity leaves a TEXT: it is empty, or holds a
    character that no numeric literal holds.  It equals no INTEGER key. *)
Definition never_numeric (t : string) : bool :=
  negb (Py.nonempty t)
  || negb (forallb numeric_char (list_ascii_of_string t)).

(** The texts on which [integer_of_text] is the comparison of SQLite: the
    literals of the 64-bit integers, and the texts that are never
    numeric. *)
Definition decided (t : string) : bool :=
  match integer_of_text t with
  | Some k => (- 2 ^ 63 <=? k) && (k <? 2 ^ 63)
  | None => never_numeric t
  end.

End Sql.

(** ** MD5 (RFC 1321)

    [hashlib.md5(data).hexdigest()], the digest the short broadcast code is
    cut from.  Words are 32-bit integers held in [Z], with the wrap-around
    written out. *)

Module MD5.

Definition mask32 (x : Z) : Z := Z.land x 4294967295.

Definition add32 (a b : Z) : Z := mask32 (a + b).

Definition not32 (x : Z) : Z := Z.lxor x 4294967295.

Definition rotl32 (x c : Z) : Z :=
  mask32 (Z.lor (Z.shiftl x c) (Z.shiftr x (32 - c))).

Definition shifts : list Z :=
  [ 7; 12; 17; 22;  7; 12; 17; 22;  7; 12; 17; 22;  7; 12; 17; 22;
    5;  9; 14; 20;  5;  9; 14; 20;  5;  9; 14; 20;  5;  9; 14; 20;
    4; 11; 16; 23;  4; 11; 16; 23;  4; 11; 16; 23;  4; 11; 16; 23;
    6; 10; 15; 21;  6; 10; 15; 21;  6; 10; 15; 21;  6; 10; 15; 21 ].

(** [K[i] = floor(2^32 * abs(sin(i + 1)))] *)
Definition sines : list Z :=
  [ 3614090360; 3905402710; 606105819; 3250441966;
    4118548399; 1200080426; 2821735955; 4249261313;
    1770035416; 2336552879; 4294925233; 2304563134;
    1804603682; 4254626195; 2792965006; 1236535329;
    4129170786; 3225465664; 643717713; 3921069994;
    3593408605; 38016083; 3634488961; 3889429448;
    568446438; 3275163606; 4107603335; 1163531501;
    2850285829; 4243563512; 1735328473; 2368359562;
    4294588738; 2272392833; 1839030562; 4259657740;
    2763975236; 1272893353; 4139469664; 3200236656;
    681279174; 3936430074; 3572445317; 76029189;
    3654602809; 3873151461; 530742520; 3299628645;
    4096336452; 1126891415; 2878612391; 4237533241;
    1700485571; 2399980690; 4293915773; 2240044497;
    1873313359; 4264355552; 2734768916; 1309151649;
    4149444226; 3174756917; 718787259; 3951481745 ].

Record state := { wa : Z; wb : Z; wc : Z; wd : Z }.

Definition initial : state :=
  {| wa := 1732584193; wb := 4023233417; wc := 2562383102; wd := 271733878 |}.

(** The mixing function of operation [i] and the index of the message
    word it reads. *)
Definition mix (i : nat) (b c d : Z) : Z * nat :=
  if (i <? 16)%nat then
    (Z.lor (Z.land b c) (Z.land (not32 b) d), i)
  else if (i <? 32)%nat then
    (Z.lor (Z.land d b) (Z.land (not32 d) c), ((5 * i + 1) mod 16)%nat)
  else if (i <? 48)%nat then
    (Z.lxor b (Z.lxor c d), ((3 * i + 5) mod 16)%nat)
  else
    (Z.lxor c (Z.lor b (not32 d)), ((7 * i) mod 16)%nat).

Definition operation (block : list Z) (st : state) (i : nat) : state :=
  let '(f, g) := mix i (wb st) (wc st) (wd st) in
  let f' := add32 (add32 (add32 f (wa st)) (nth i sines 0)) (nth g block 0) in
  {| wa := wd st;
     wb := add32 (wb st) (rotl32 f' (nth i shifts 0));
     wc := wb st;
     wd := wc st |}.

Definition compress (st : state) (block : list Z) : state :=
  let st' := fold_left (operation block) (seq 0 64) st in
  {| wa := add32 (wa st) (wa st');
     wb := add32 (wb st) (wb st');
     wc := add32 (wc st) (wc st');
     wd := add32 (wd st) (wd st') |}.

(** [n] little-endian bytes of [x] *)
Fixpoint le_bytes (n : nat) (x : Z) : list Z :=
  match n with
  | O => []
  | S n' => Z.land x 255 :: le_bytes n' (Z.shiftr x 8)
  end.

Fixpoint le_word (bytes : list Z) : Z :=
  match bytes with
  | [] => 0
  | b :: rest => b + 256 * le_word rest
  end.

(** The message, a single 1 bit, zeros up to 56 modulo 64 bytes, and the
    bit length on 64 bits. *)
Definition pad (msg : list Z) : list Z :=
  let len := Z.of_nat (length msg) in
  msg ++ [128] ++ repeat 0 (Z.to_nat ((55 - len) mod 64))
      ++ le_bytes 8 (Z.land (8 * len) 18446744073709551615).

(** Cut a list into consecutive groups of [k] elements. *)
Fixpoint groups (fuel k : nat) {A} (l : list A) : list (list A) :=
  match fuel with
  | O => []
  | S fuel' =>
      match l with
      | [] => []
      | _ => firstn k l :: groups fuel' k (skipn k l)
      end
  end.

Definition blocks (bytes : list Z) : list (list Z) :=
  map (fun chunk => map le_word (groups 16 4 chunk))
      (groups (length bytes) 64 bytes).

Definition digest (msg : list Z) : list Z :=
  let st := fold_left compress (blocks (pad msg)) initial in
  le_bytes 4 (wa st) ++ le_bytes 4 (wb st)
    ++ le_bytes 4 (wc st) ++ le_bytes 4 (wd st).

Definition hex_char (n : Z) : ascii :=
  if n <? 10 then ascii_of_N (Z.to_N (48 + n))
  else ascii_of_N (Z.to_N (87 + n)).

Fixpoint hex (bytes : list Z) : string :=
  match bytes with
  | [] => EmptyString
  | b :: rest =>
      String (hex_char (Z.shiftr b 4))
             (String (hex_char (Z.land b 15)) (hex rest))
  end.

(** [s.encode()] of an ASCII string *)
Fixpoint encode (s : string) : list Z :=
  match s with
  | EmptyString => []
  | String c s' => Z.of_N (N_of_ascii c) :: encode s'
  end.

(** [hashlib.md5(s.encode()).hexdigest()] *)
Definition hexdigest (s : string) : string := hex (digest (encode s)).

End MD5.

(** ** Random draws *)

Module Random.

(** [random.randint(a, b)]: some integer of [a..b], selected by the
    draw. *)
Definition randint (a b : Z) (draw : Z) : Z := a + draw mod (b - a + 1).

(** [random.choice(seq)]: the element at some index below [len(seq)],
    selected by the draw; [None] stands for the [IndexError] on an empty
    sequence. *)
Definition choice {A} (seq : list A) (draw : nat) : option A :=
  seq !! (draw mod length seq)%nat.

End Random.

(** ** create_broadcasting.py *)

Module create_broadcasting.

(** [string.ascii_letters + string.digits] *)
Definition characters : string :=
  "abcdefghijklmnopqrstuvwxyzABCDEFGHIJKLMNOPQRSTUVWXYZ0123456789".

(** [draws i] selects the character of the [i]-th [random.choice]. *)
Definition generate_random_alphanumeric (length : nat) (draws : nat -> nat)
  : string :=
  string_of_list_ascii
    (omap (fun i => Random.choice (list_ascii_of_string characters) (draws i))
          (seq 0 length)).

Definition create_broadcasting_channel_id
    (user_id : Z) (anony_name : string) (draws1 draws2 draws3 : nat -> nat)
  : string :=
  let random_part1 := Py.upper (generate_random_alphanumeric 2 draws1) in
  let random_part2 := Py.upper (generate_random_alphanumeric 3 draws2) in
  let random_part3 := Py.upper (generate_random_alphanumeric 4 draws3) in
  "/BCST" ++ random_part1 ++ Py.str user_id ++ random_part2
          ++ anony_name ++ random_part3.

Definition validate_listener_channel_id (channel_id : string) : bool :=
  if negb (Py.nonempty channel_id) then false
  else Py.startswith "/BCST" (Py.strip channel_id).

(** A match of [/BCST:.{5}(\d+)] starting exactly at the head of [s]; the
    result is group 1.  [.] matches any character but a line feed, and
    [\d+] is greedy. *)
Definition match_here (s : string) : option string :=
  if Py.startswith "/BCST:" s then
    let rest := Py.drop 6 s in
    let any5 := Py.take 5 rest in
    if (String.length any5 =? 5)%nat
       && forallb (fun c => negb (Ascii.eqb c "010"%char))
                  (list_ascii_of_string any5)
    then
      let digits := Py.digit_run (Py.drop 5 rest) in
      if Py.nonempty digits then Some digits else None
    else None
  else None.

(** [re.search(r'/BCST:.{5}(\d+)', s)]: the leftmost match. *)
Fixpoint re_search (s : string) : option string :=
  match match_here s with
  | Some group1 => Some group1
  | None =>
      match s with
      | EmptyString => None
      | String _ s' => re_search s'
      end
  end.

(** The loop of the alternate method: skip to the first digit, collect
    digits, stop at the first character after them that is not one. *)
Fixpoint first_digit_sequence (content : string) (digit_sequence : string)
  : string :=
  match content with
  | EmptyString => digit_sequence
  | String char content' =>
      if Py.isdigit char then
        first_digit_sequence content' (digit_sequence ++ String char EmptyString)
      else if Py.nonempty digit_sequence then digit_sequence
      else first_digit_sequence content' digit_sequence
  end.

Definition extract_broadcaster_id (channel_id : string) : option string :=
  if negb (Py.startswith "/BCST" channel_id) then None
  else
    match re_search channel_id with
    | Some user_id => Some user_id
    | None =>
        if (11 <? String.length channel_id)%nat then
          let content := Py.slice_from 11 channel_id in
          let digit_sequence := first_digit_sequence content EmptyString in
          if Py.nonempty digit_sequence then Some digit_sequence else None
        else None
    end.

(** One round of the loop over the first six characters of the digest. *)
Definition fixed_char (char : ascii) : ascii :=
  if negb (Py.isalnum char) then ascii_of_N (97 + (Py.code char) mod 26)%N
  else char.

Definition convert_to_fixed_code (channel_id : string) : string :=
  let hash_input :=
    match extract_broadcaster_id channel_id with
    | Some broadcaster_id =>
        if Py.nonempty broadcaster_id then broadcaster_id else channel_id
    | None => channel_id
    end in
  let hash_hex := MD5.hexdigest hash_input in
  string_of_list_ascii
    (map fixed_char (list_ascii_of_string (Py.take 6 hash_hex))).

End create_broadcasting.

(** ** The [users] table *)

Record user_row := {
  PEER_ID : option string;
  STATUS : string;
  TIMER : Z;
  OTP : option string;
  OTP_EXP : option string;
  ANONY_NAME : string
}.

Definition set_PEER_ID (v : option string) (r : user_row) : user_row :=
  {| PEER_ID := v; STATUS := STATUS r; TIMER := TIMER r; OTP := OTP r;
     OTP_EXP := OTP_EXP r; ANONY_NAME := ANONY_NAME r |}.

Definition set_STATUS (v : string) (r : user_row) : user_row :=
  {| PEER_ID := PEER_ID r; STATUS := v; TIMER := TIMER r; OTP := OTP r;
     OTP_EXP := OTP_EXP r; ANONY_NAME := ANONY_NAME r |}.

Definition set_TIMER (v : Z) (r : user_row) : user_row :=
  {| PEER_ID := PEER_ID r; STATUS := STATUS r; TIMER := v; OTP := OTP r;
     OTP_EXP := OTP_EXP r; ANONY_NAME := ANONY_NAME r |}.

Definition set_OTP (v : option string) (r : user_row) : user_row :=
  {| PEER_ID := PEER_ID r; STATUS := STATUS r; TIMER := TIMER r; OTP := v;
     OTP_EXP := OTP_EXP r; ANONY_NAME := ANONY_NAME r |}.

Definition set_OTP_EXP (v : option string) (r : user_row) : user_row :=
  {| PEER_ID := PEER_ID r; STATUS := STATUS r; TIMER := TIMER r; OTP := OTP r;
     OTP_EXP := v; ANONY_NAME := ANONY_NAME r |}.

Abbreviation users := (gmap Z user_row).

(** [UPDATE users SET ... WHERE USER_ID = ?] with an integer parameter: a
    missing row is not an error, nothing is updated. *)
Definition update_where_user_id (f : user_row -> user_row) (user_id : Z)
    (db : users) : users :=
  alter f user_id db.

(** The same statement with a TEXT parameter: the statement of SQLite for
    every [Sql.decided] text. *)
Definition update_where_user_id_text (f : user_row -> user_row)
    (user_id : string) (db : users) : users :=
  match Sql.integer_of_text user_id with
  | Some k => alter f k db
  | None => db
  end.

(** [SELECT ... FROM users WHERE USER_ID = ?] with a TEXT parameter,
    followed by [fetchone()]: the statement of SQLite for every
    [Sql.decided] text. *)
Definition select_where_user_id_text (user_id : string) (db : users)
    : option user_row :=
  match Sql.integer_of_text user_id with
  | Some k => db !! k
  | None => None
  end.

(** [x in [...]] on status names *)
Definition status_in (status : string) (names : list string) : bool :=
  existsb (String.eqb status) names.

(** ** private_connection.py *)

Module private_connection.

Definition generate_otp (draw : Z) : string :=
  Py.str (Random.randint 1000 9999 draw).

Definition generate_random_number (digits : Z) (draw : Z) : string :=
  let min_val := 10 ^ (digits - 1) in
  let max_val := 10 ^ digits - 1 in
  Py.str (Random.randint min_val max_val draw).

(** The two draws of one call. *)
Record padding := { six_draw : Z; five_draw : Z }.

Definition generate_connection_string (otp : string) (user_id : Z)
    (rnd : padding) : string :=
  let six_digit := generate_random_number 6 (six_draw rnd) in
  let five_digit := generate_random_number 5 (five_draw rnd) in
  "/92" ++ six_digit ++ otp ++ Py.str user_id ++ five_digit.

Definition keeps_otp : list string :=
  ["RANDOM"; "PRIVATE"; "CONNECTED"; "CLOSED"; "AI"].

(** The body of [_clean_task], once its ten seconds of sleep are over. *)
Definition clean_otp_directly (db : users) (user_id : Z) : users :=
  match db !! user_id with
  | None => db
  | Some status_data =>
      let user_status := STATUS status_data in
      if status_in user_status keeps_otp then db
      else
        update_where_user_id
          (fun r => set_OTP_EXP (Some "") (set_OTP (Some "") r)) user_id db
  end.

(** The result dictionary, without its ['message']. *)
Record result := {
  status : string;
  otp : option string;
  connection_string : option string
}.

(** The draws of one call: the OTP, and the padding of the link. *)
Record draws := { otp_draw : Z; link_draws : padding }.

Definition check_user_status (db : users) (user_id : Z) (rnd : draws)
  : result * users :=
  match db !! user_id with
  | None =>
      ({| status := "error"; otp := None; connection_string := None |}, db)
  | Some user_data =>
      let peer_id := PEER_ID user_data in
      let status_ := STATUS user_data in
      let existing_otp := OTP user_data in
      (* Case 1: the user is already in a private connection *)
      if Py.truthy peer_id && String.eqb status_ "PRIVATE" then
        ({| status := "already_connected"; otp := None;
            connection_string := None |}, db)
      else if Py.truthy existing_otp
              && Py.nonempty (Py.strip (default "" existing_otp)) then
        (* Case 2: the user already has an OTP *)
        let existing := default "" existing_otp in
        ({| status := "otp_exists"; otp := Some existing;
            connection_string :=
              Some (generate_connection_string existing user_id
                      (link_draws rnd)) |}, db)
      else
        (* Case 3: a new OTP *)
        let new_otp := generate_otp (otp_draw rnd) in
        let db' :=
          update_where_user_id
            (fun r => set_OTP (Some new_otp)
                        (set_TIMER 5760 (set_STATUS "PRIVATE" r)))
            user_id db in
        ({| status := "success"; otp := Some new_otp;
            connection_string :=
              Some (generate_connection_string new_otp user_id
                      (link_draws rnd)) |}, db')
  end.

Definition handle_private_connection_request := check_user_status.

End private_connection.

(** ** otp_clean.py *)

Module otp_clean.

(** [clean_otp], once its ten seconds of sleep are over. *)
Definition clean_otp (db : users) (user_id : Z) : users :=
  match db !! user_id with
  | None => db
  | Some user_data =>
      let user_status := STATUS user_data in
      if status_in user_status
           ["RANDOM"; "PRIVATE"; "CONNECTED"; "CLOSED"; "AI"]
      then db
      else
        update_where_user_id
          (fun r => set_OTP_EXP (Some "") (set_OTP (Some "") r)) user_id db
  end.

End otp_clean.

(** ** private_link_verifier.py *)

Module private_link_verifier.

Record result := { status : string; peer_id : option string }.

Definition error : result := {| status := "error"; peer_id := None |}.

(** The first steps of [verify_private_link]: drop the [/92] marker, refuse
    a text of fewer than 20 characters, cut the OTP and the issuer id out
    of the rest. *)
Definition extract_parts (link_text : string) : option (string * string) :=
  let link_text :=
    if Py.startswith "/92" link_text then Py.slice_from 3 link_text
    else link_text in
  if (String.length link_text <? 20)%nat then None
  else
    let otp_from_link := Py.slice 6 10 link_text in
    let peer_id_from_link := Py.slice 10 (-5) link_text in
    Some (otp_from_link, peer_id_from_link).

(** The function returns at its [confirmation_needed] result; the
    statements that follow that [return] in the source never run. *)
Definition verify_private_link (db : users) (link_text : string)
    (user_id : Z) : result * users :=
  match extract_parts link_text with
  | None => (error, db)
  | Some (otp_from_link, peer_id_from_link) =>
      if String.eqb (Py.str user_id) peer_id_from_link then (error, db)
      else
        match select_where_user_id_text peer_id_from_link db with
        | None => (error, db)
        | Some peer_data =>
            let peer_otp := OTP peer_data in
            match peer_otp with
            | Some o =>
                if negb (Py.nonempty o) || negb (String.eqb o otp_from_link)
                then (error, db)
                else
                  ({| status := "confirmation_needed";
                      peer_id := Some peer_id_from_link |}, db)
            | None => (error, db)
            end
        end
  end.

End private_link_verifier.

(** ** random_connection.py *)

Module random_connection.

Record result := { status : string; partner_id : option Z }.

(** [SELECT USER_ID FROM users WHERE STATUS = 'OPEN' AND USER_ID != ?];
    SQLite promises no order without ORDER BY, and the embedding takes the
    order of the map. *)
Definition available_users (db : users) (user_id : Z) : list Z :=
  List.filter
    (fun k =>
       match db !! k with
       | Some r => String.eqb (STATUS r) "OPEN" && negb (k =? user_id)
       | None => false
       end)
    (map_to_list db).*1.

Definition find_random_partner (db : users) (user_id : Z) (draw : nat)
  : result * users :=
  match db !! user_id with
  | None => ({| status := "error"; partner_id := None |}, db)
  | Some user_data =>
      let user_status := STATUS user_data in
      if negb (status_in user_status ["OPEN"; "IDLE"]) then
        ({| status := "error"; partner_id := None |}, db)
      else
        let available := available_users db user_id in
        match available with
        | [] =>
            ({| status := "waiting"; partner_id := None |},
             if negb (String.eqb user_status "OPEN")
             then update_where_user_id (set_STATUS "OPEN") user_id db
             else db)
        | first :: _ =>
            let partner := default first (Random.choice available draw) in
            let db1 :=
              update_where_user_id
                (fun r => set_STATUS "RANDOM"
                            (set_PEER_ID (Some (Py.str partner)) r))
                user_id db in
            let db2 :=
              update_where_user_id
                (fun r => set_STATUS "RANDOM"
                            (set_PEER_ID (Some (Py.str user_id)) r))
                partner db1 in
            ({| status := "success"; partner_id := Some partner |}, db2)
        end
  end.

End random_connection.

(** ** The Telegram client

    A call of the client either returns or raises; the oracle tells which.
    [send_message] is asked with the chat id as the code passes it, an
    [int] being written in decimal. *)

Record bot := {
  send_message : string -> bool;
  answer_callback_query : bool
}.

(** ** anony_number.py *)

Module anony_number.

Definition closes_peer : user_row -> user_row :=
  fun r => set_PEER_ID None (set_STATUS "CLOSED" r).

(** One of the two blocks "if ... is already connected to someone": the
    notification comes first, and the UPDATE of the old peer is skipped
    when the notification raises. *)
Definition disconnect_current_peer (b : bot) (data : option user_row)
    (db : users) : users :=
  match data with
  | Some row =>
      if status_in (STATUS row) ["CONNECTED"; "PRIVATE"; "RANDOM"]
         && Py.truthy (PEER_ID row) then
        let current_peer_id := default "" (PEER_ID row) in
        if send_message b current_peer_id then
          update_where_user_id_text closes_peer current_peer_id db
        else db
      else db
  | None => db
  end.

(** [action] and [requester_id] are the fields [data[0]] and
    [int(data[2])] of the callback data, [responder_id] is
    [call.from_user.id]. *)
Definition handle_an_connection_response (b : bot) (db : users)
    (action : string) (requester_id responder_id : Z) : users :=
  if String.eqb action "decline" then db
  else
    let responder_data := db !! responder_id in
    let requester_data := db !! requester_id in
    let db1 := disconnect_current_peer b responder_data db in
    let db2 := disconnect_current_peer b requester_data db1 in
    let db3 :=
      update_where_user_id
        (fun r => set_PEER_ID (Some (Py.str responder_id))
                    (set_STATUS "CONNECTED" r))
        requester_id db2 in
    update_where_user_id
      (fun r => set_PEER_ID (Some (Py.str requester_id))
                  (set_STATUS "CONNECTED" r))
      responder_id db3.

(** [get_user_info]: the row of the user, if there is one. *)
Definition get_user_info (db : users) (user_id : Z) : option user_row :=
  db !! user_id.

(** What [show_anony_number] sends when the client delivers: the anonymous
    number, and the callback data of the button "Yes" when the question
    about sharing is asked.  [None]: the user gets an apology instead. *)
Definition show_anony_number (db : users) (user_id : Z)
  : option (string * option string) :=
  if Py.startswith "5768243722" (Py.str user_id) then None
  else
    match get_user_info db user_id with
    | None => None
    | Some user_info =>
        let anony_name := ANONY_NAME user_info in
        let status := STATUS user_info in
        if negb (Py.nonempty anony_name) then None
        else
          let anony_number := "/AN" ++ anony_name in
          Some (anony_number,
                if status_in status ["RANDOM"; "PRIVATE"]
                then Some ("share_yes_" ++ anony_name) else None)
    end.

(** What [handle_share_decision] sends to the partner: the chat it writes
    to and the callback data of the button "View".  [data] is [call.data],
    [user_id] is [call.from_user.id]; [None]: nothing is sent to the
    partner (the user declined, the data has no third field, or no partner
    is on record). *)
Definition handle_share_decision (db : users) (data : string) (user_id : Z)
  : option (string * string) :=
  if String.eqb data "share_no" then None
  else
    match Py.split "_" data !! 2%nat with
    | None => None
    | Some anony_name =>
        match get_user_info db user_id with
        | None => None
        | Some user_info =>
            if negb (Py.truthy (PEER_ID user_info)) then None
            else
              let peer_id := default "" (PEER_ID user_info) in
              Some (peer_id,
                    "save_yes_" ++ Py.str user_id ++ "_" ++ anony_name)
        end
    end.

(** What [handle_save_decision] reads in the callback data
    [save_yes_<user_id>_<anony_name>]: the user to notify and the anonymous
    number shown to the partner.  [None]: the partner dismissed the
    question, or the data cannot be read ([IndexError], [ValueError]). *)
Definition handle_save_decision (data : string) : option (Z * string) :=
  if String.eqb data "save_no" then None
  else
    let data_parts := Py.split "_" data in
    match data_parts !! 2%nat, data_parts !! 3%nat with
    | Some id_part, Some anony_name =>
        match Py.int id_part with
        | Some original_user_id =>
            Some (original_user_id, "/AN" ++ anony_name)
        | None => None
        end
    | _, _ => None
    end.

(** The outcomes of [handle_an_command]; a request carries the chat it is
    sent to, the callback data of its two buttons and the anonymous name it
    shows. *)
Inductive an_command_result :=
| invalid_format
| unknown_number
| connect_to_yourself
| profile_not_found
| request_sent (target_user_id : Z) (accept_data decline_data : string)
               (requester_anony_name : string).

(** [re.match(r'/AN(\w+)', message_text)]: group 1 *)
Definition match_an (message_text : string) : option string :=
  if Py.startswith "/AN" message_text then
    let name := Py.word_run (Py.drop 3 message_text) in
    if Py.nonempty name then Some name else None
  else None.

(** [SELECT USER_ID, STATUS FROM users WHERE ANONY_NAME = ?] followed by
    [fetchone()]: the first row in the order of the map. *)
Definition select_where_anony_name (anony_name : string) (db : users)
  : option (Z * user_row) :=
  List.find (fun row => String.eqb (ANONY_NAME row.2) anony_name)
            (map_to_list db).

(** [user_id] is [message.from_user.id].  The handler writes no row. *)
Definition handle_an_command (db : users) (message_text : string)
    (user_id : Z) : an_command_result :=
  match match_an message_text with
  | None => invalid_format
  | Some anony_name =>
      match select_where_anony_name anony_name db with
      | None => unknown_number
      | Some (target_user_id, _) =>
          if target_user_id =? user_id then connect_to_yourself
          else
            match db !! user_id with
            | None => profile_not_found
            | Some user_data =>
                request_sent target_user_id
                  ("accept_an_" ++ Py.str user_id)
                  ("decline_an_" ++ Py.str user_id)
                  (ANONY_NAME user_data)
            end
      end
  end.

(** [handle_an_connection_response] from the callback itself: [data] is
    [call.data]; a callback whose data has no third field or whose third
    field is no integer raises before any statement on the table. *)
Definition handle_an_connection_response_call (b : bot) (db : users)
    (data : string) (responder_id : Z) : users :=
  let data := Py.split "_" data in
  match data !! 0%nat, data !! 2%nat with
  | Some action, Some id_part =>
      match Py.int id_part with
      | Some requester_id =>
          handle_an_connection_response b db action requester_id responder_id
      | None => db
      end
  | _, _ => db
  end.

End anony_number.

(** ** process_broadcasting.py *)

Module process_broadcasting.

(** [text] is [message.text]; the messages sent to the listener and to the
    broadcaster change no row. *)
Definition process_broadcasting_channel_id (db : users) (text : string)
    (user_id : Z) : users :=
  let channel_id := Py.strip text in
  if negb (create_broadcasting.validate_listener_channel_id channel_id)
  then db
  else
    let fixed_code := create_broadcasting.convert_to_fixed_code channel_id in
    if negb (Py.nonempty fixed_code) then db
    else
      update_where_user_id
        (fun r => set_STATUS "LISTENER" (set_PEER_ID (Some fixed_code) r))
        user_id db.

End process_broadcasting.

(** ** controls_anonybot.py *)

Module controls_anonybot.

Definition get_user_status (db : users) (user_id : Z) : option string :=
  STATUS <$> db !! user_id.

(** Returns [True] whether or not a row was updated. *)
Definition update_user_status (db : users) (user_id : Z)
    (new_status : string) : bool * users :=
  (true, update_where_user_id (set_STATUS new_status) user_id db).

(** [user_id] is [call.from_user.id] and [chat_id] is
    [call.message.chat.id].  The notifications of the listeners and of the
    broadcaster sit in their own [try]/[except Exception] and change no
    row.  Any other call of the client that raises ends the handler where
    it stands, the exception not being a [sqlite3.Error]. *)
Definition handle_stop_button (b : bot) (db : users) (user_id chat_id : Z)
  : users :=
  let current_status := get_user_status db user_id in
  if bool_decide (current_status = Some "CLOSED") then db
  else
    match db !! user_id with
    | None => db
    | Some user_data =>
        let peer_id := PEER_ID user_data in
        let status := STATUS user_data in
        let '(success, db1) := update_user_status db user_id "CLOSED" in
        if success then
          if negb (answer_callback_query b) then db1
          else if negb (send_message b (Py.str chat_id)) then db1
          else
            if negb (String.eqb status "BROADCASTER") && Py.truthy peer_id
            then
              let peer := default "" peer_id in
              let db2 :=
                update_where_user_id_text
                  (fun r => set_PEER_ID None (set_STATUS "CLOSED" r))
                  peer db1 in
              if negb (send_message b peer) then db2
              else update_where_user_id (set_PEER_ID None) user_id db2
            else update_where_user_id (set_PEER_ID None) user_id db1
        else db1
    end.

(** The answers sent after the update change no row. *)
Definition handle_forward_button (db : users) (user_id : Z) : users :=
  let current_status := get_user_status db user_id in
  if bool_decide (current_status = Some "RANDOM") then
    let '(success, db1) := update_user_status db user_id "OPEN" in
    db1
  else db.

End controls_anonybot.

(** ** telegram_db_manager.py

    The row of a new user; the columns TYPE, ANONY_PEER and CREATED_AT are
    not part of [user_row]. *)

Module telegram_db_manager.

Definition prefixes : list string :=
  ["Anonymous"; "Unknown"; "Hidden"; "Secret"; "Mysterious"].

(** [string.ascii_uppercase + string.digits] *)
Definition suffix_characters : string :=
  "ABCDEFGHIJKLMNOPQRSTUVWXYZ0123456789".

(** The draws of one name: the prefix, and the four characters of
    [random.choices(..., k=4)]. *)
Record name_draws := { prefix_draw : nat; suffix_draws : nat -> nat }.

Definition ANONY_NAME (rnd : name_draws) : string :=
  let prefix := default "" (Random.choice prefixes (prefix_draw rnd)) in
  let suffix :=
    string_of_list_ascii
      (omap (fun i =>
               Random.choice (list_ascii_of_string suffix_characters)
                             (suffix_draws rnd i))
            (seq 0 4)) in
  prefix ++ suffix.

Definition add_user_to_users_table (db : users) (user_id : Z)
    (rnd : name_draws) : bool * users :=
  match db !! user_id with
  | Some existing_user => (true, db)
  | None =>
      let anony_name := ANONY_NAME rnd in
      (true,
       <[user_id := Build_user_row (Some "") "OPEN" 120 (Some "") None
                                   anony_name]> db)
  end.

End telegram_db_manager.

(** ** message_sender.py

    The router, for messages whose content type is ['text'].  What the
    client is asked to send is kept as a list of pairs of a chat and a
    text, in the order of the calls. *)

Module message_sender.

(** The dictionary of [get_peer_info]; the key ['listeners'] is there for
    a broadcaster only. *)
Record peer_info := {
  status : string;
  peer_id : option string;
  listeners : option (list Z)
}.

(** [PEER_ID = ?] in SQL: never true of NULL. *)
Definition peer_id_is (cell param : option string) : bool :=
  match cell, param with
  | Some a, Some b => String.eqb a b
  | _, _ => false
  end.

(** [user_id] is an [int]: the queries that follow the first one in the
    source ask for the same key written as a text, and find no other
    row. *)
Definition get_peer_info (db : users) (user_id : Z) : option peer_info :=
  match db !! user_id with
  | None => None
  | Some user_data =>
      let status_ := STATUS user_data in
      let peer_id_ := PEER_ID user_data in
      if negb (status_in status_
                 ["CONNECTED"; "AI"; "PRIVATE"; "RANDOM"; "BROADCASTER";
                  "LISTENER"])
      then None
      else if String.eqb status_ "LISTENER" then
        Some {| status := "LISTENER"; peer_id := peer_id_;
                listeners := None |}
      else if String.eqb status_ "BROADCASTER" then
        let listeners_ :=
          List.filter
            (fun k =>
               match db !! k with
               | Some r =>
                   peer_id_is (PEER_ID r) peer_id_
                   && String.eqb (STATUS r) "LISTENER"
                   && negb (k =? user_id)
               | None => false
               end)
            (map_to_list db).*1 in
        Some {| status := "BROADCASTER"; peer_id := peer_id_;
                listeners := Some listeners_ |}
      else
        match peer_id_ with
        | None => None
        | Some p =>
            if negb (Py.nonempty (Py.strip p)) then None
            else
              Some {| status := status_; peer_id := Some p;
                      listeners := None |}
        end
  end.

(** The message the user replies to: its text when its content type is
    ['text']. *)
Record message := {
  from_user : Z;
  text : string;
  reply_to_message : option (option string)
}.

(** The chat [send_text_message] writes to: a [peer_id] made of digits is
    turned into an [int] first. *)
Definition chat_of (peer_id : string) : string :=
  if Py.isdigit_str peer_id then
    match Py.int peer_id with
    | Some peer_id_int => Py.str peer_id_int
    | None => peer_id
    end
  else peer_id.

Definition quotation_mark : string := String (ascii_of_nat 34) EmptyString.

Definition line_feed : string := String (ascii_of_nat 10) EmptyString.

(** [reply_text], truncated "if too long" *)
Definition quoted (reply_text : string) : string :=
  if (50 <? String.length reply_text)%nat
  then Py.take 47 reply_text ++ "..." else reply_text.

Definition send_text_message (b : bot) (peer_id : string) (text_ : string)
    (message_ : message) : bool * list (string * string) :=
  let chat := chat_of peer_id in
  let formatted_message :=
    match reply_to_message message_ with
    | Some (Some reply_text) =>
        "↩️ Reply to: " ++ quotation_mark ++ quoted reply_text
          ++ quotation_mark ++ line_feed ++ line_feed ++ text_
    | _ => text_
    end in
  (send_message b chat, [(chat, formatted_message)]).

(** [user_id] is the optional override of the sender, [None] when it is
    left out. *)
Definition handle_message (b : bot) (db : users) (message_ : message)
    (user_id : option Z) : bool * list (string * string) :=
  let user_id :=
    match user_id with
    | Some u => if u =? 0 then from_user message_ else u
    | None => from_user message_
    end in
  match get_peer_info db user_id with
  | None => (false, [])
  | Some info =>
      if String.eqb (status info) "LISTENER" then (true, [])
      else if String.eqb (status info) "BROADCASTER" then
        match listeners info with
        | Some (first :: others) =>
            let listeners_ := first :: others in
            let success_count :=
              length (List.filter
                        (fun listener_id =>
                           send_message b (Py.str listener_id))
                        listeners_) in
            ((0 <? success_count)%nat,
             map (fun listener_id => (Py.str listener_id, text message_))
                 listeners_)
        | _ => (false, [])
        end
      else
        send_text_message b (default "" (peer_id info)) (text message_)
                          message_
  end.

End message_sender.

(** ** The operations of the engine *)

Inductive operation :=
| RequestRandomMatch (user : Z) (draw : nat)
| IssuePrivateLink (user : Z) (rnd : private_connection.draws)
| VerifyPrivateLink (claimant : Z) (token : string)
| ExpireOtp (user : Z)
| AnswerAnonymousNumberConnect (action : string) (requester responder : Z)
| JoinBroadcast (listener : Z) (text : string)
| Disconnect (user chat : Z)
| ResumeFromClosed (user : Z).

Definition run (b : bot) (db : users) (o : operation) : users :=
  match o with
  | RequestRandomMatch user draw =>
      (random_connection.find_random_partner db user draw).2
  | IssuePrivateLink user rnd =>
      (private_connection.check_user_status db user rnd).2
  | VerifyPrivateLink claimant token =>
      (private_link_verifier.verify_private_link db token claimant).2
  | ExpireOtp user => otp_clean.clean_otp db user
  | AnswerAnonymousNumberConnect action requester responder =>
      anony_number.handle_an_connection_response b db action requester responder
  | JoinBroadcast listener text =>
      process_broadcasting.process_broadcasting_channel_id db text listener
  | Disconnect user chat => controls_anonybot.handle_stop_button b db user chat
  | ResumeFromClosed user => controls_anonybot.handle_forward_button db user
  end.

(** ** The invariants of the specification *)

(** The user a [PEER_ID] designates: the row that [WHERE USER_ID = ?] finds
    for it. *)
Definition peer_of (r : user_row) : option Z :=
  match PEER_ID r with
  | Some t => Sql.integer_of_text t
  | None => None
  end.

(** The statuses of an active bilateral connection: [RANDOM], [CONNECTED],
    and [PRIVATE] once it has a peer. *)
Definition bilateral (r : user_row) : bool :=
  String.eqb (STATUS r) "RANDOM"
  || String.eqb (STATUS r) "CONNECTED"
  || (String.eqb (STATUS r) "PRIVATE" && Py.truthy (PEER_ID r)).

Definition symmetric_pairing (db : users) : Prop :=
  forall (A B : Z) (ra rb : user_row),
    db !! A = Some ra -> db !! B = Some rb ->
    bilateral ra = true -> peer_of ra = Some B ->
    peer_of rb = Some A /\ bilateral rb = true /\ STATUS rb = STATUS ra.

Definition live_otp_is_private (db : users) : Prop :=
  forall (u : Z) (r : user_row),
    db !! u = Some r -> Py.truthy (OTP r) = true -> STATUS r = "PRIVATE".

(** ** Vocabulary of the properties *)

(** What is left of a link once the marker is dropped. *)
Definition body (otp : string) (user_id : Z)
    (rnd : private_connection.padding) : string :=
  private_connection.generate_random_number 6 (private_connection.six_draw rnd)
    ++ otp ++ Py.str user_id
    ++ private_connection.generate_random_number 5
         (private_connection.five_draw rnd).

(** The test [existing_otp and existing_otp.strip()] of
    [check_user_status]. *)
Definition holds_otp (r : user_row) : bool :=
  Py.truthy (OTP r) && Py.nonempty (Py.strip (default "" (OTP r))).

(** The update of the OTP cleanup. *)
Definition cleared : user_row -> user_row :=
  fun r => set_OTP_EXP (Some "") (set_OTP (Some "") r).

(** The update that pairs a row with [peer] on an accepted request. *)
Definition connects_to (peer : Z) : user_row -> user_row :=
  fun r => set_PEER_ID (Some (Py.str peer)) (set_STATUS "CONNECTED" r).

(** The operations that leave the rule "a live OTP means status PRIVATE"
    in force. *)
Definition keeps_otp_rule (o : operation) : bool :=
  match o with
  | RequestRandomMatch _ _ | IssuePrivateLink _ _ | VerifyPrivateLink _ _
  | ExpireOtp _ | ResumeFromClosed _ => true
  | AnswerAnonymousNumberConnect action _ _ => String.eqb action "decline"
  | JoinBroadcast _ _ | Disconnect _ _ => false
  end.



(** Every character of [s] passes the test [p]. *)
Definition every (p : ascii -> bool) (s : string) : bool :=
  forallb p (list_ascii_of_string s).

(** A digit of lower-case hexadecimal notation. *)
Definition is_hex_digit (c : ascii) : bool :=
  Py.isdigit c || ((97 <=? Py.code c) && (Py.code c <=? 102))%N.

(** The user whose row a stop closes besides the caller's, when the
    client delivers. *)
Definition stopped_partner (row : user_row) : option Z :=
  if negb (String.eqb (STATUS row) "BROADCASTER") && Py.truthy (PEER_ID row)
  then peer_of row else None.

(** The column [col] has the same value in every row of both tables, and
    the tables hold the same users. *)
Definition keeps {A} (col : user_row -> A) (db db' : users) : Prop :=
  forall v, col <$> db' !! v = col <$> db !! v.

(** The operations that write TIMER, and those that write OTP or
    OTP_EXP. *)
Definition writes_timer (o : operation) : bool :=
  match o with IssuePrivateLink _ _ => true | _ => false end.

Definition writes_otp (o : operation) : bool :=
  match o with IssuePrivateLink _ _ | ExpireOtp _ => true | _ => false end.

(** The user whose message [handle_message] handles: the override, unless
    it is left out or falsy. *)
Definition sender (message_ : message_sender.message) (user_id : option Z)
  : Z :=
  match user_id with
  | Some u => if u =? 0 then message_sender.from_user message_ else u
  | None => message_sender.from_user message_
  end.


(** * Properties *)

(** ** Test vectors *)

Example md5_empty : MD5.hexdigest "" = "d41d8cd98f00b204e9800998ecf8427e".
Proof. vm_compute. reflexivity. Qed.

Example md5_abc : MD5.hexdigest "abc" = "900150983cd24fb0d6963f7d28e17f72".
Proof. vm_compute. reflexivity. Qed.

Example md5_two_blocks :
  MD5.hexdigest
    "12345678901234567890123456789012345678901234567890123456789012345678901234567890"
  = "57edf4a22be3c955ac49da2e2107b67a".
Proof. vm_compute. reflexivity. Qed.

Example str_examples :
  Py.str 123456789 = "123456789" /\ Py.str 0 = "0" /\ Py.str (-12) = "-12".
Proof. vm_compute. by repeat split. Qed.

Example slice_examples :
  Py.slice 6 10 "0123456789abcdefghij" = "6789"
  /\ Py.slice 10 (-5) "0123456789abcdefghij" = "abcde"
  /\ Py.slice 10 (-5) "0123456789abc" = ""
  /\ Py.strip "  /BCSTab " = "/BCSTab".
Proof. vm_compute. by repeat split. Qed.

(** ** Strings *)

Section string_facts.

Lemma length_app (a b : string) :
  String.length (a ++ b) = (String.length a + String.length b)%nat.
Proof. induction a as [|c a IH]; simpl; [done | by rewrite IH]. Qed.

Lemma drop_app (a b : string) : Py.drop (String.length a) (a ++ b) = b.
Proof. induction a as [|c a IH]; simpl; [by destruct b | done]. Qed.

Lemma take_app (a b : string) : Py.take (String.length a) (a ++ b) = a.
Proof. induction a as [|c a IH]; simpl; [done | by rewrite IH]. Qed.

Lemma drop_app_length (n : nat) (a b : string) :
  String.length a = n -> Py.drop n (a ++ b) = b.
Proof. intros <-. apply drop_app. Qed.

Lemma take_app_length (n : nat) (a b : string) :
  String.length a = n -> Py.take n (a ++ b) = a.
Proof. intros <-. apply take_app. Qed.

Lemma app_assoc (a b c : string) : (a ++ b) ++ c = a ++ b ++ c.
Proof.
  induction a as [|x a IH]; [done|].
  change (String x ((a ++ b) ++ c) = String x (a ++ b ++ c)).
  by rewrite IH.
Qed.

Lemma take_all (a : string) : Py.take (String.length a) a = a.
Proof. induction a as [|c a IH]; simpl; [done | by rewrite IH]. Qed.

Lemma drop_0 (a : string) : Py.drop 0 a = a.
Proof. by destruct a. Qed.

Lemma bound_in (len : nat) (i : nat) :
  (i <= len)%nat -> Py.bound len (Z.of_nat i) = i.
Proof. unfold Py.bound. intros. case_match; lia. Qed.

Lemma bound_from_end (len : nat) (i : nat) :
  (0 < i <= len)%nat -> Py.bound len (- Z.of_nat i) = (len - i)%nat.
Proof. unfold Py.bound. intros. case_match; lia. Qed.

End string_facts.

(** ** Decimal numerals *)

Section decimal.

Lemma digit_value_char (d : N) :
  (d < 10)%N -> Sql.digit_value (pretty_N_char d) = Some d.
Proof.
  intros Hd.
  assert (d = 0 \/ d = 1 \/ d = 2 \/ d = 3 \/ d = 4 \/ d = 5 \/ d = 6
          \/ d = 7 \/ d = 8 \/ d = 9)%N as Hcases by lia.
  destruct Hcases as [->|[->|[->|[->|[->|[->|[->|[->|[->| ->]]]]]]]]];
    reflexivity.
Qed.

(** Reading back the digits that [pretty_N_go] writes in front of [s]. *)
Lemma digits_value_go (x : N) :
  forall s : string, exists m : N, forall acc : N,
    Sql.digits_value (pretty_N_go x s) acc
    = Sql.digits_value s (acc * m + x)%N.
Proof.
  induction (N.lt_wf_0 x) as [x _ IH]. intros s.
  destruct (decide (x = 0)%N) as [->|Hx].
  - exists 1%N. intros acc. rewrite pretty_N_go_0. f_equal. lia.
  - assert (0 < x)%N as Hpos by lia.
    destruct (IH (x `div` 10)%N (N.div_lt x 10 Hpos eq_refl)
                (String (pretty_N_char (x `mod` 10)) s)) as [m Hm].
    exists (10 * m)%N. intros acc.
    rewrite pretty_N_go_step by done. rewrite Hm. simpl.
    rewrite digit_value_char by (apply N.mod_lt; lia).
    f_equal. pose proof (N.div_mod x 10). lia.
Qed.

Lemma digits_value_pretty_pos (p : positive) :
  Sql.digits_value (pretty_N_go (N.pos p) "") 0 = Some (N.pos p).
Proof.
  destruct (digits_value_go (N.pos p) "") as [m Hm].
  rewrite Hm. simpl. f_equal.
Qed.

(** The text written for a user id designates that user. *)
Lemma integer_of_text_str (z : Z) : Sql.integer_of_text (Py.str z) = Some z.
Proof.
  destruct z as [|p|p]; [reflexivity | |].
  - unfold Py.str, pretty, pretty_Z, pretty, pretty_positive, pretty, pretty_N.
    pose proof (digits_value_pretty_pos p) as Hd.
    destruct (decide (N.pos p = 0%N)) as [|_]; [lia|].
    destruct (pretty_N_go (N.pos p) "") as [|c t] eqn:Ht; [discriminate|].
    unfold Sql.integer_of_text.
    destruct (Ascii.eqb_spec c "-"%char) as [->|Hc].
    + simpl in Hd. discriminate.
    + rewrite Hd. reflexivity.
  - unfold Py.str, pretty, pretty_Z, pretty, pretty_positive, pretty, pretty_N.
    pose proof (digits_value_pretty_pos p) as Hd.
    destruct (decide (N.pos p = 0%N)) as [|_]; [lia|].
    destruct (pretty_N_go (N.pos p) "") as [|c t] eqn:Ht; [discriminate|].
    change ("-" +:+ String c t) with (String "-"%char (String c t)).
    unfold Sql.integer_of_text.
    change (Ascii.eqb "-" "-") with true. cbn [Py.nonempty].
    rewrite Hd. reflexivity.
Qed.

Lemma str_inj (a b : Z) : Py.str a = Py.str b -> a = b.
Proof.
  intros H. apply (f_equal Sql.integer_of_text) in H.
  rewrite !integer_of_text_str in H. congruence.
Qed.

Lemma length_go (k : nat) :
  forall (x : N) (s : string),
    (10 ^ N.of_nat k <= x < 10 ^ N.of_nat (S k))%N ->
    String.length (pretty_N_go x s) = (S k + String.length s)%nat.
Proof.
  induction k as [|k IH]; intros x s [Hlo Hhi].
  - change (10 ^ N.of_nat 0)%N with 1%N in Hlo.
    change (10 ^ N.of_nat 1)%N with 10%N in Hhi.
    rewrite pretty_N_go_step by lia.
    rewrite (N.div_small x 10) by lia. by rewrite pretty_N_go_0.
  - rewrite pretty_N_go_step
      by (pose proof (N.pow_nonzero 10 (N.of_nat (S k))); lia).
    rewrite Nat2N.inj_succ, N.pow_succ_r' in Hlo.
    rewrite (Nat2N.inj_succ (S k)), N.pow_succ_r' in Hhi.
    rewrite IH; [simpl; lia|]. split.
    + apply N.div_le_lower_bound; lia.
    + apply N.Div0.div_lt_upper_bound; lia.
Qed.

(** A number of [10^k .. 10^(k+1) - 1] is written with [k + 1] digits. *)
Lemma length_str (k : nat) (z : Z) :
  10 ^ Z.of_nat k <= z < 10 ^ Z.of_nat (S k) ->
  String.length (Py.str z) = S k.
Proof.
  intros [Hlo Hhi].
  assert (0 < z) as Hz by (pose proof (Z.pow_pos_nonneg 10 (Z.of_nat k)); lia).
  destruct z as [|p|p]; try lia.
  unfold Py.str, pretty, pretty_Z, pretty, pretty_positive, pretty, pretty_N.
  destruct (decide (N.pos p = 0%N)) as [|_]; [lia|].
  rewrite (length_go k); [simpl; lia|].
  split.
  - apply N2Z.inj_le. rewrite N2Z.inj_pow, nat_N_Z. simpl. lia.
  - apply N2Z.inj_lt. rewrite N2Z.inj_pow, nat_N_Z. simpl.
    change (Z.of_nat (S k)) with (Z.of_nat (S k)) in Hhi. lia.
Qed.

Lemma randint_range (a b draw : Z) :
  a <= b -> a <= Random.randint a b draw <= b.
Proof.
  intros Hab. unfold Random.randint.
  pose proof (Z.mod_pos_bound draw (b - a + 1)). lia.
Qed.

End decimal.

(** ** The key texts that the embedding decides *)

Section key_texts.

Example decided_examples :
  Sql.decided "200" = true /\ Sql.decided "-1001234567890" = true
  /\ Sql.decided "" = true /\ Sql.decided "099ebe" = true
  /\ Sql.decided "2050e0" = false /\ Sql.decided "30000.0" = false
  /\ Sql.decided "+30000" = false /\ Sql.decided " 30000" = false
  /\ Sql.decided "200 " = false /\ Sql.decided "3e4" = false.
Proof. vm_compute. by repeat split. Qed.

(** The text the engine writes for a user id is decided. *)
Lemma decided_str (z : Z) :
  - 2 ^ 63 <= z < 2 ^ 63 -> Sql.decided (Py.str z) = true.
Proof.
  intros [Hlo Hhi]. unfold Sql.decided. rewrite integer_of_text_str.
  apply andb_true_iff. split; [by apply Z.leb_le | by apply Z.ltb_lt].
Qed.

(** A text that is never numeric designates no user. *)
Lemma never_numeric_no_key (t : string) :
  Sql.never_numeric t = true -> Sql.integer_of_text t = None.
Proof.
  assert (forall s acc n,
            Sql.digits_value s acc = Some n ->
            forallb Sql.numeric_char (list_ascii_of_string s) = true) as Hd.
  { induction s as [|c s IH]; intros acc n; [done|].
    cbn [Sql.digits_value list_ascii_of_string forallb].
    unfold Sql.digit_value, Sql.numeric_char.
    destruct (Py.isdigit c); [|done]. intros Hn. cbn [orb andb].
    by apply (IH _ n Hn). }
  unfold Sql.never_numeric. intros Hnever.
  destruct (Sql.integer_of_text t) as [k|] eqn:Hk; [exfalso|done].
  destruct t as [|c s]; [discriminate Hk|].
  cbn [Py.nonempty negb orb] in Hnever. apply negb_true_iff in Hnever.
  unfold Sql.integer_of_text in Hk.
  destruct (Ascii.eqb_spec c "-"%char) as [->|Hc].
  - destruct (Py.nonempty s); [|discriminate Hk].
    destruct (Sql.digits_value s 0) as [n|] eqn:Hn; [|discriminate Hk].
    cbn [list_ascii_of_string forallb] in Hnever.
    rewrite (Hd s _ n Hn) in Hnever. discriminate Hnever.
  - destruct (Sql.digits_value (String c s) 0) as [n|] eqn:Hn;
      [|discriminate Hk].
    rewrite (Hd _ _ n Hn) in Hnever. discriminate Hnever.
Qed.

End key_texts.

(** ** The private link *)

Section private_link.

Import private_connection.

Lemma length_generate_random_number_6 (draw : Z) :
  String.length (generate_random_number 6 draw) = 6%nat.
Proof.
  unfold generate_random_number. apply (length_str 5).
  pose proof (randint_range (10 ^ (6 - 1)) (10 ^ 6 - 1) draw).
  change (10 ^ (6 - 1)) with 100000 in *. change (10 ^ 6) with 1000000 in *.
  change (10 ^ Z.of_nat 5) with 100000.
  change (10 ^ Z.of_nat 6) with 1000000. lia.
Qed.

Lemma length_generate_random_number_5 (draw : Z) :
  String.length (generate_random_number 5 draw) = 5%nat.
Proof.
  unfold generate_random_number. apply (length_str 4).
  pose proof (randint_range (10 ^ (5 - 1)) (10 ^ 5 - 1) draw).
  change (10 ^ (5 - 1)) with 10000 in *. change (10 ^ 5) with 100000 in *.
  change (10 ^ Z.of_nat 4) with 10000.
  change (10 ^ Z.of_nat 5) with 100000. lia.
Qed.

Lemma length_generate_otp (draw : Z) :
  String.length (generate_otp draw) = 4%nat.
Proof.
  unfold generate_otp. apply (length_str 3).
  pose proof (randint_range 1000 9999 draw).
  change (10 ^ Z.of_nat 3) with 1000.
  change (10 ^ Z.of_nat 4) with 10000. lia.
Qed.

Lemma generate_connection_string_body otp user_id rnd :
  generate_connection_string otp user_id rnd
  = String "/" (String "9" (String "2" (body otp user_id rnd))).
Proof. reflexivity. Qed.

Lemma length_body otp user_id rnd :
  String.length otp = 4%nat ->
  String.length (body otp user_id rnd)
  = (15 + String.length (Py.str user_id))%nat.
Proof.
  intros Hotp. unfold body. rewrite !length_app, Hotp.
  rewrite length_generate_random_number_6, length_generate_random_number_5.
  lia.
Qed.

Lemma slice_otp otp user_id rnd :
  String.length otp = 4%nat -> Py.slice 6 10 (body otp user_id rnd) = otp.
Proof.
  intros Hotp. unfold Py.slice. rewrite (length_body _ _ _ Hotp).
  rewrite (bound_in _ 6), (bound_in _ 10) by lia.
  change (10 - 6)%nat with 4%nat. unfold body.
  rewrite drop_app_length by apply length_generate_random_number_6.
  by apply take_app_length.
Qed.

Lemma slice_peer_id otp user_id rnd :
  String.length otp = 4%nat ->
  Py.slice 10 (-5) (body otp user_id rnd) = Py.str user_id.
Proof.
  intros Hotp. unfold Py.slice. rewrite (length_body _ _ _ Hotp).
  rewrite (bound_in _ 10) by lia.
  rewrite (bound_from_end _ 5) by lia.
  replace (15 + String.length (Py.str user_id) - 5 - 10)%nat
    with (String.length (Py.str user_id)) by lia.
  unfold body. rewrite <- app_assoc.
  rewrite drop_app_length
    by (rewrite length_app, length_generate_random_number_6; lia).
  apply take_app.
Qed.

End private_link.

Section private_link_claims.

Import private_connection.

(** C9.  For every 4-character OTP, every issuer id and every padding, the
    extraction rules of [verify_private_link], applied to the generated link
    without its marker, give back the two fields: characters 6..10 are the
    OTP, and what lies between character 10 and the last five is the
    decimal text of the issuer id, which designates the issuer.  When that
    text has at least 5 characters the link also passes the length test
    that [verify_private_link] makes first, so its first steps as a whole
    return the two fields. *)
Theorem connection_token_round_trip
    (otp : string) (user_id : Z) (rnd : padding) :
  String.length otp = 4%nat ->
  let token := generate_connection_string otp user_id rnd in
  let rest := Py.slice_from 3 token in
  Py.slice 6 10 rest = otp
  /\ Py.slice 10 (-5) rest = Py.str user_id
  /\ Sql.integer_of_text (Py.slice 10 (-5) rest) = Some user_id
  /\ ((5 <= String.length (Py.str user_id))%nat ->
      private_link_verifier.extract_parts token = Some (otp, Py.str user_id)).
Proof.
  intros Hotp token rest.
  assert (rest = body otp user_id rnd) as Hrest.
  { unfold rest, token. rewrite generate_connection_string_body.
    unfold Py.slice_from. cbn [String.length].
    by rewrite (bound_in _ 3) by lia. }
  assert (Py.startswith "/92" token = true) as Hstart by reflexivity.
  pose proof (length_body otp user_id rnd Hotp) as Hlen.
  rewrite Hrest, slice_otp, slice_peer_id, integer_of_text_str by done.
  repeat split.
  intros Hlong. unfold private_link_verifier.extract_parts.
  rewrite Hstart. fold rest. rewrite Hrest.
  destruct (Nat.ltb_spec (String.length (body otp user_id rnd)) 20);
    [lia|].
  by rewrite slice_otp, slice_peer_id.
Qed.

Lemma connection_token_round_trip_witness :
  String.length "4821" = 4%nat
  /\ private_link_verifier.extract_parts
       (generate_connection_string "4821" 123456789
          {| six_draw := 7; five_draw := 11 |})
     = Some ("4821", "123456789").
Proof.
  split; [reflexivity|].
  destruct (connection_token_round_trip "4821" 123456789
              {| six_draw := 7; five_draw := 11 |} eq_refl)
    as (_ & _ & _ & Hlong).
  apply Hlong. vm_compute. lia.
Defined.

(** The length test refuses the link of an issuer whose id is written with
    fewer than 5 characters, such as user 300. *)
Lemma short_issuer_id_is_refused
    (otp : string) (user_id : Z) (rnd : padding) :
  String.length otp = 4%nat ->
  (String.length (Py.str user_id) < 5)%nat ->
  private_link_verifier.extract_parts
    (generate_connection_string otp user_id rnd) = None.
Proof.
  intros Hotp Hshort.
  pose proof (length_body otp user_id rnd Hotp) as Hlen.
  rewrite generate_connection_string_body.
  unfold private_link_verifier.extract_parts.
  change (Py.startswith "/92" (String "/" (String "9" (String "2" ?b))))
    with true.
  cbn iota. unfold Py.slice_from. cbn [String.length].
  rewrite (bound_in _ 3) by lia. cbn [Py.drop].
  destruct (Nat.ltb_spec (String.length (body otp user_id rnd)) 20);
    [done | lia].
Qed.

Example link_of_user_300 :
  generate_connection_string "4821" 300 {| six_draw := 0; five_draw := 0 |}
  = "/92100000482130010000"
  /\ private_link_verifier.extract_parts "/92100000482130010000" = None.
Proof. vm_compute. by split. Qed.

(** C2, as amended.  For a user who holds a non-blank OTP, two calls of
    [check_user_status] in a row change no row and answer alike: either
    both say [already_connected] and carry no link, or both say
    [otp_exists] with the stored OTP and a link generated from that OTP
    and the user's id.  Each link gets its own random padding, so the two
    strings need not be equal. *)
Theorem issue_private_link_reuses_otp
    (db : users) (user_id : Z) (row : user_row) (rnd1 rnd2 : draws) :
  db !! user_id = Some row ->
  holds_otp row = true ->
  let first := check_user_status db user_id rnd1 in
  let second := check_user_status first.2 user_id rnd2 in
  first.2 = db /\ second.2 = db
  /\ ((status first.1 = "already_connected"
       /\ status second.1 = "already_connected"
       /\ connection_string first.1 = None
       /\ connection_string second.1 = None)
      \/ (exists existing,
           OTP row = Some existing
           /\ status first.1 = "otp_exists"
           /\ status second.1 = "otp_exists"
           /\ otp first.1 = Some existing /\ otp second.1 = Some existing
           /\ connection_string first.1
              = Some (generate_connection_string existing user_id
                        (link_draws rnd1))
           /\ connection_string second.1
              = Some (generate_connection_string existing user_id
                        (link_draws rnd2)))).
Proof.
  intros Hrow Hotp first second. unfold holds_otp in Hotp.
  assert (first.2 = db) as Hfirst.
  { unfold first, check_user_status. rewrite Hrow.
    destruct (Py.truthy (PEER_ID row) && (STATUS row =? "PRIVATE")%string);
      [done|]. by rewrite Hotp. }
  unfold second. rewrite Hfirst. unfold first, check_user_status.
  rewrite Hrow.
  destruct (Py.truthy (PEER_ID row) && (STATUS row =? "PRIVATE")%string).
  - simpl. repeat split; try done. left. done.
  - rewrite Hotp. simpl. repeat split; try done. right.
    destruct (OTP row) as [existing|] eqn:Heq; [|done].
    exists existing. done.
Qed.

Lemma issue_private_link_reuses_otp_witness :
  let row := {| PEER_ID := Some ""; STATUS := "PRIVATE"; TIMER := 5760;
                OTP := Some "4821"; OTP_EXP := None;
                ANONY_NAME := "Hidden7K2Q" |} in
  let db : users := {[ 123456789 := row ]} in
  let rnd1 := {| otp_draw := 0;
                 link_draws := {| six_draw := 1; five_draw := 2 |} |} in
  let rnd2 := {| otp_draw := 0;
                 link_draws := {| six_draw := 3; five_draw := 4 |} |} in
  (check_user_status db 123456789 rnd1).2 = db
  /\ (check_user_status (check_user_status db 123456789 rnd1).2
        123456789 rnd2).2 = db.
Proof.
  intros row db rnd1 rnd2.
  destruct (issue_private_link_reuses_otp db 123456789 row rnd1 rnd2)
    as (H1 & H2 & _); [reflexivity | reflexivity |].
  split; [exact H1 | exact H2].
Defined.

(** C2, as stated, fails: the user holds OTP 4821, nothing changes between
    the two calls, and the two links returned differ (in their padding). *)
Lemma reissued_link_differs :
  let row := {| PEER_ID := Some ""; STATUS := "PRIVATE"; TIMER := 5760;
                OTP := Some "4821"; OTP_EXP := None;
                ANONY_NAME := "Hidden7K2Q" |} in
  let db : users := {[ 123456789 := row ]} in
  let rnd1 := {| otp_draw := 0;
                 link_draws := {| six_draw := 1; five_draw := 2 |} |} in
  let rnd2 := {| otp_draw := 0;
                 link_draws := {| six_draw := 3; five_draw := 4 |} |} in
  let first := check_user_status db 123456789 rnd1 in
  let second := check_user_status first.2 123456789 rnd2 in
  first.2 = db
  /\ connection_string first.1 = Some "/92100001482112345678910002"
  /\ connection_string second.1 = Some "/92100003482112345678910004"
  /\ connection_string first.1 <> connection_string second.1.
Proof. vm_compute. repeat split; discriminate. Qed.

End private_link_claims.

Section verify_claims.

Import private_link_verifier.

Lemma length_drop (n : nat) (s : string) :
  String.length (Py.drop n s) = (String.length s - n)%nat.
Proof.
  revert s. induction n as [|n IH]; intros [|c s]; simpl; done.
Qed.

Lemma length_take (n : nat) (s : string) :
  String.length (Py.take n s) = Nat.min n (String.length s).
Proof.
  revert s. induction n as [|n IH]; intros [|c s]; simpl; try done.
  by rewrite IH.
Qed.

(** A link that passes the length test carries a 4-character OTP. *)
Lemma extract_parts_otp (link_text otp_from_link peer_id_from_link : string) :
  extract_parts link_text = Some (otp_from_link, peer_id_from_link) ->
  String.length otp_from_link = 4%nat.
Proof.
  unfold extract_parts.
  set (rest := if Py.startswith "/92" link_text then _ else _).
  destruct (Nat.ltb_spec (String.length rest) 20) as [|Hlen]; [done|].
  intros [= <- _]. unfold Py.slice.
  rewrite (bound_in _ 6), (bound_in _ 10) by lia.
  rewrite length_take, length_drop. lia.
Qed.

(** [verify_private_link] writes nothing, whatever it answers. *)
Lemma verify_private_link_frame (db : users) (link_text : string)
    (user_id : Z) :
  (verify_private_link db link_text user_id).2 = db.
Proof.
  unfold verify_private_link.
  repeat (case_match; simpl; try done).
Qed.

(** A link that passes the test on its length: when the OTP cut out of it
    equals the OTP stored for the issuer it designates, and the issuer is
    another user than the claimant, [verify_private_link] answers
    [confirmation_needed] with the issuer's id and leaves every row of the
    table as it was. *)
Theorem verify_private_link_only_asks_for_confirmation
    (db : users) (link_text : string) (claimant issuer : Z)
    (otp_from_link peer_id_from_link : string) (issuer_row : user_row) :
  extract_parts link_text = Some (otp_from_link, peer_id_from_link) ->
  Sql.integer_of_text peer_id_from_link = Some issuer ->
  db !! issuer = Some issuer_row ->
  issuer <> claimant ->
  OTP issuer_row = Some otp_from_link ->
  verify_private_link db link_text claimant
  = ({| status := "confirmation_needed";
        peer_id := Some peer_id_from_link |}, db).
Proof.
  intros Hparts Hissuer Hrow Hother Hotp.
  pose proof (extract_parts_otp _ _ _ Hparts) as Hlen.
  unfold verify_private_link, select_where_user_id_text.
  rewrite Hparts.
  destruct (String.eqb_spec (Py.str claimant) peer_id_from_link) as [Heq|_].
  { rewrite <- Heq, integer_of_text_str in Hissuer. congruence. }
  rewrite Hissuer, Hrow, Hotp, String.eqb_refl.
  destruct otp_from_link; [discriminate | reflexivity].
Qed.

Lemma verify_private_link_only_asks_for_confirmation_witness :
  let issuer_row := {| PEER_ID := Some ""; STATUS := "PRIVATE"; TIMER := 5760;
                       OTP := Some "4821"; OTP_EXP := None;
                       ANONY_NAME := "Hidden7K2Q" |} in
  let claimant_row := {| PEER_ID := Some ""; STATUS := "OPEN"; TIMER := 120;
                         OTP := Some ""; OTP_EXP := None;
                         ANONY_NAME := "Secret01AB" |} in
  let db : users := <[ 30000 := issuer_row ]> {[ 40000 := claimant_row ]} in
  verify_private_link db "/9210000148213000010002" 40000
  = ({| status := "confirmation_needed"; peer_id := Some "30000" |}, db).
Proof.
  intros issuer_row claimant_row db.
  apply (verify_private_link_only_asks_for_confirmation
           db "/9210000148213000010002" 40000 30000 "4821" "30000" issuer_row);
    [reflexivity | reflexivity | reflexivity | lia | reflexivity].
Defined.

End verify_claims.

(** ** The broadcast short code *)

Section broadcast_code.

Import create_broadcasting.

(** C3 does not hold of the code.  Two channel ids issued for the same
    user and the same anony name, one with the padding [XYZ] and one with
    the padding [1YZ] after the user id, get different short codes:
    [extract_broadcaster_id] finds no [/BCST:] marker, skips 11 characters
    and so reads the tail of the user id together with the digits the
    padding begins with. *)
Theorem short_code_depends_on_padding :
  let draws1 := fun i => nth i [26; 27]%nat 0%nat in
  let draws3 := fun i => nth i [42; 43; 44; 45]%nat 0%nat in
  let id1 :=
    create_broadcasting_channel_id 123456789 "Hidden7K2Q"
      draws1 (fun i => nth i [49; 50; 51]%nat 0%nat) draws3 in
  let id2 :=
    create_broadcasting_channel_id 123456789 "Hidden7K2Q"
      draws1 (fun i => nth i [53; 50; 51]%nat 0%nat) draws3 in
  id1 = "/BCSTAB123456789XYZHidden7K2QQRST"
  /\ id2 = "/BCSTAB1234567891YZHidden7K2QQRST"
  /\ extract_broadcaster_id id1 = Some "56789"
  /\ extract_broadcaster_id id2 = Some "567891"
  /\ convert_to_fixed_code id1 = "099ebe"
  /\ convert_to_fixed_code id2 = "8f6207"
  /\ convert_to_fixed_code id1 <> convert_to_fixed_code id2.
Proof. vm_compute. repeat split; discriminate. Qed.

End broadcast_code.

(** ** Rows of the table after an update *)

Section updates.

Lemma update_lookup (f : user_row -> user_row) (u v : Z) (db : users) :
  update_where_user_id f u db !! v
  = if decide (u = v) then f <$> db !! u else db !! v.
Proof. unfold update_where_user_id. apply lookup_alter. Qed.

Lemma update_lookup_eq (f : user_row -> user_row) (u : Z) (db : users) :
  update_where_user_id f u db !! u = f <$> db !! u.
Proof. rewrite update_lookup. by case_decide. Qed.

Lemma update_lookup_ne (f : user_row -> user_row) (u v : Z) (db : users) :
  u <> v -> update_where_user_id f u db !! v = db !! v.
Proof. intros. rewrite update_lookup. by case_decide. Qed.

Lemma update_text_lookup (f : user_row -> user_row) (t : string) (v : Z)
    (db : users) :
  update_where_user_id_text f t db !! v
  = if decide (Sql.integer_of_text t = Some v) then f <$> db !! v
    else db !! v.
Proof.
  unfold update_where_user_id_text.
  destruct (Sql.integer_of_text t) as [k|].
  - rewrite lookup_alter. repeat case_decide; congruence.
  - by case_decide.
Qed.

Lemma status_in_spec (s : string) (names : list string) :
  status_in s names = true <-> In s names.
Proof.
  unfold status_in. rewrite existsb_exists. split.
  - intros (x & Hin & Heq). apply String.eqb_eq in Heq. by subst.
  - intros Hin. exists s. split; [done | apply String.eqb_refl].
Qed.

End updates.

(** Reads a row through a stack of updates. *)
Ltac solve_rows :=
  repeat (rewrite update_lookup; case_decide; try congruence).

(** ** Expiry of the OTP *)

Section otp_expiry.

Lemma clean_otp_directly_eq (db : users) (user_id : Z) :
  private_connection.clean_otp_directly db user_id
  = otp_clean.clean_otp db user_id.
Proof. reflexivity. Qed.

(** C4, as amended.  The cleanup task decides on the status alone.  When
    the status is none of RANDOM, PRIVATE, CONNECTED, CLOSED and AI it sets
    the user's OTP (and OTP_EXP) to the empty string and touches nothing
    else; when the status is one of the five, which includes an issuer who
    still waits in PRIVATE for the link to be claimed, it leaves the table
    as it is.  The task of otp_clean.py and the one of
    private_connection.py behave alike. *)
Theorem clean_otp_decides_on_status
    (db : users) (user_id : Z) (row : user_row) :
  db !! user_id = Some row ->
  (In (STATUS row) ["RANDOM"; "PRIVATE"; "CONNECTED"; "CLOSED"; "AI"] ->
   otp_clean.clean_otp db user_id = db
   /\ private_connection.clean_otp_directly db user_id = db)
  /\ (~ In (STATUS row) ["RANDOM"; "PRIVATE"; "CONNECTED"; "CLOSED"; "AI"] ->
      otp_clean.clean_otp db user_id = <[ user_id := cleared row ]> db
      /\ private_connection.clean_otp_directly db user_id
         = <[ user_id := cleared row ]> db
      /\ OTP (cleared row) = Some ""
      /\ PEER_ID (cleared row) = PEER_ID row
      /\ STATUS (cleared row) = STATUS row).
Proof.
  intros Hrow.
  change (private_connection.clean_otp_directly db user_id)
    with (otp_clean.clean_otp db user_id).
  unfold otp_clean.clean_otp.
  rewrite Hrow. split.
  - intros Hin. apply status_in_spec in Hin. by rewrite Hin.
  - intros Hout.
    destruct (status_in (STATUS row) _) eqn:Hs.
    { apply status_in_spec in Hs. contradiction. }
    assert (update_where_user_id cleared user_id db
            = <[ user_id := cleared row ]> db) as Hupd.
    { apply map_eq. intros v. rewrite update_lookup.
      case_decide; subst; [by rewrite lookup_insert_eq, Hrow|].
      by rewrite lookup_insert_ne. }
    unfold cleared in *. by rewrite Hupd.
Qed.

Lemma clean_otp_decides_on_status_witness :
  let row := {| PEER_ID := Some "abc123"; STATUS := "LISTENER"; TIMER := 5760;
                OTP := Some "4821"; OTP_EXP := None;
                ANONY_NAME := "Hidden7K2Q" |} in
  let db : users := {[ 123456789 := row ]} in
  otp_clean.clean_otp db 123456789 = <[ 123456789 := cleared row ]> db.
Proof.
  intros row db.
  destruct (clean_otp_decides_on_status db 123456789 row) as [_ Hclear];
    [reflexivity|].
  apply Hclear. simpl. intros [H|[H|[H|[H|[H|[]]]]]]; discriminate.
Defined.

(** C4, as stated, fails for the very user the task is started for: user
    123456789 is given a link, nobody claims it, the status is still
    PRIVATE with no peer (neither bilateral nor closed nor AI), and the
    task leaves the OTP in place. *)
Lemma unclaimed_link_keeps_otp :
  let row := {| PEER_ID := Some ""; STATUS := "OPEN"; TIMER := 120;
                OTP := Some ""; OTP_EXP := None;
                ANONY_NAME := "Hidden7K2Q" |} in
  let db : users := {[ 123456789 := row ]} in
  let rnd := {| private_connection.otp_draw := 3821;
                private_connection.link_draws :=
                  {| private_connection.six_draw := 1;
                     private_connection.five_draw := 2 |} |} in
  let issued := private_connection.check_user_status db 123456789 rnd in
  let expired := otp_clean.clean_otp issued.2 123456789 in
  private_connection.otp issued.1 = Some "4821"
  /\ (exists waiting,
        issued.2 !! 123456789 = Some waiting
        /\ STATUS waiting = "PRIVATE" /\ PEER_ID waiting = Some ""
        /\ bilateral waiting = false)
  /\ (exists kept,
        expired !! 123456789 = Some kept /\ OTP kept = Some "4821")
  /\ (exists kept,
        private_connection.clean_otp_directly issued.2 123456789
          !! 123456789 = Some kept
        /\ OTP kept = Some "4821").
Proof.
  vm_compute. repeat split; eexists; repeat split; reflexivity.
Qed.

End otp_expiry.

(** ** Forward *)

Section forward.

Import controls_anonybot.



End forward.

(** ** Random match *)

Section random_match.

Import random_connection.

Lemma available_users_spec (db : users) (user_id p : Z) :
  In p (available_users db user_id)
  <-> exists r, db !! p = Some r /\ STATUS r = "OPEN" /\ p <> user_id.
Proof.
  unfold available_users. rewrite filter_In. split.
  - intros [_ Hp]. destruct (db !! p) as [r|]; [|done].
    apply andb_true_iff in Hp as [Hs Hne].
    apply String.eqb_eq in Hs. apply negb_true_iff, Z.eqb_neq in Hne.
    by exists r.
  - intros (r & Hr & Hs & Hne). split.
    + apply list_elem_of_In, list_elem_of_fmap.
      exists (p, r). split; [done|]. by apply elem_of_map_to_list.
    + rewrite Hr, Hs. simpl. by apply negb_true_iff, Z.eqb_neq.
Qed.

Lemma choice_in {A} (l : list A) (first : A) (draw : nat) :
  l <> [] -> In (default first (Random.choice l draw)) l.
Proof.
  intros Hl. unfold Random.choice.
  destruct (lookup_lt_is_Some_2 l (draw mod length l)) as [x Hx].
  { apply Nat.mod_upper_bound. by destruct l. }
  rewrite Hx. simpl. apply list_elem_of_In. by eapply list_elem_of_lookup_2.
Qed.




End random_match.

(** ** Anonymous-number connect *)

Section anonymous_number.

Import anony_number.

Lemma integer_of_text_truthy (t : string) (k : Z) :
  Sql.integer_of_text t = Some k -> Py.truthy (Some t) = true.
Proof. by destruct t. Qed.

Lemma bilateral_status_in (r : user_row) :
  bilateral r = true ->
  status_in (STATUS r) ["CONNECTED"; "PRIVATE"; "RANDOM"] = true.
Proof.
  unfold bilateral, status_in. simpl.
  destruct (String.eqb (STATUS r) "RANDOM"),
           (String.eqb (STATUS r) "CONNECTED"),
           (String.eqb (STATUS r) "PRIVATE"); simpl; done.
Qed.

Lemma disconnect_current_peer_delivered
    (b : bot) (db0 db : users) (u peer : Z) (row : user_row) (t : string) :
  bilateral row = true ->
  PEER_ID row = Some t ->
  Sql.integer_of_text t = Some peer ->
  send_message b t = true ->
  disconnect_current_peer b (Some row) db
  = update_where_user_id closes_peer peer db.
Proof.
  intros Hbil Ht Hpeer Hsend. unfold disconnect_current_peer.
  rewrite (bilateral_status_in _ Hbil), Ht.
  rewrite (integer_of_text_truthy _ _ Hpeer). simpl. rewrite Hsend.
  unfold update_where_user_id_text. by rewrite Hpeer.
Qed.

(** The accept when the client reaches both former peers.  A is connected
    to B and C is connected to D, four different users, and the
    notifications sent to B and to D are delivered.  When A accepts the
    request of C, B and D end with status CLOSED and no PEER_ID, A and C
    end with status CONNECTED and each other's id as PEER_ID, and no other
    row changes. *)
Theorem accept_closes_former_peers
    (b : bot) (db : users) (A B C D : Z) (ra rb rc rd : user_row)
    (ta tc : string) :
  NoDup [A; B; C; D] ->
  db !! A = Some ra -> db !! B = Some rb ->
  db !! C = Some rc -> db !! D = Some rd ->
  bilateral ra = true -> PEER_ID ra = Some ta ->
  Sql.integer_of_text ta = Some B ->
  bilateral rc = true -> PEER_ID rc = Some tc ->
  Sql.integer_of_text tc = Some D ->
  send_message b ta = true -> send_message b tc = true ->
  let db' := handle_an_connection_response b db "accept" C A in
  db' !! B = Some (set_PEER_ID None (set_STATUS "CLOSED" rb))
  /\ db' !! D = Some (set_PEER_ID None (set_STATUS "CLOSED" rd))
  /\ db' !! A
     = Some (set_PEER_ID (Some (Py.str C)) (set_STATUS "CONNECTED" ra))
  /\ db' !! C
     = Some (set_PEER_ID (Some (Py.str A)) (set_STATUS "CONNECTED" rc))
  /\ (forall v, v <> A -> v <> B -> v <> C -> v <> D -> db' !! v = db !! v).
Proof.
  intros Hdup HA HB HC HD Hbila Hta HtaB Hbilc Htc HtcD Hsa Hsc db'.
  assert (A <> B /\ A <> C /\ A <> D /\ B <> C /\ B <> D /\ C <> D)
    as (HAB & HAC & HAD & HBC & HBD & HCD).
  { repeat match goal with
           | H : NoDup (_ :: _) |- _ => apply NoDup_cons in H as [? ?]
           end.
    set_solver. }
  assert (db' = update_where_user_id (connects_to C) A
                  (update_where_user_id (connects_to A) C
                     (update_where_user_id closes_peer D
                        (update_where_user_id closes_peer B db)))) as ->.
  { unfold db', handle_an_connection_response. simpl. rewrite HA, HC.
    rewrite (disconnect_current_peer_delivered b db db A B ra ta) by done.
    by rewrite (disconnect_current_peer_delivered b db _ C D rc tc). }
  repeat split; [solve_rows; by rewrite HB | solve_rows; by rewrite HD
                 | solve_rows; by rewrite HA | solve_rows; by rewrite HC |].
  intros v ? ? ? ?. by solve_rows.
Qed.

Lemma accept_closes_former_peers_witness :
  let row peer name :=
    {| PEER_ID := Some peer; STATUS := "RANDOM"; TIMER := 120;
       OTP := Some ""; OTP_EXP := None; ANONY_NAME := name |} in
  let db : users :=
    <[ 100 := row "200" "Hidden7K2Q" ]>
      (<[ 200 := row "100" "Secret01AB" ]>
         (<[ 300 := row "400" "Unknown9ZZZ" ]>
            {[ 400 := row "300" "Anonymous0000" ]})) in
  let b := {| send_message := fun _ => true; answer_callback_query := true |} in
  handle_an_connection_response b db "accept" 300 100 !! 200
  = Some (set_PEER_ID None (set_STATUS "CLOSED" (row "100" "Secret01AB"))).
Proof.
  intros row db b.
  apply (accept_closes_former_peers b db 100 200 300 400
           (row "200" "Hidden7K2Q") (row "100" "Secret01AB")
           (row "400" "Unknown9ZZZ") (row "300" "Anonymous0000")
           "200" "400"); try reflexivity.
  by apply (bool_decide_unpack _).
Defined.

End anonymous_number.

(** ** The two invariants under the operations *)

(** Splits a hypothesis [db !! u = Some r] on a table written with
    inserts into one case per row. *)
Ltac each_row H :=
  repeat first
    [ apply lookup_singleton_Some in H as [<- <-]
    | apply lookup_insert_Some in H as [[<- <-]|[? H]] ];
  try (by rewrite lookup_empty in H).

Section otp_discipline.

Lemma live_otp_update (f : user_row -> user_row) (u : Z) (db : users) :
  live_otp_is_private db ->
  (forall r, db !! u = Some r ->
             Py.truthy (OTP (f r)) = true -> STATUS (f r) = "PRIVATE") ->
  live_otp_is_private (update_where_user_id f u db).
Proof.
  intros Hinv Hf v r Hv. rewrite update_lookup in Hv.
  case_decide; subst; [|by eapply Hinv].
  destruct (db !! v) as [r0|] eqn:Hr0; [|done].
  injection Hv as <-. by apply Hf.
Qed.

Lemma live_otp_random_match (db : users) (user_id : Z) (draw : nat) :
  live_otp_is_private db ->
  live_otp_is_private (random_connection.find_random_partner db user_id draw).2.
Proof.
  intros Hinv. unfold random_connection.find_random_partner.
  destruct (db !! user_id) as [row|] eqn:Hrow; [|done].
  destruct (status_in (STATUS row) ["OPEN"; "IDLE"]) eqn:Hs; [|done].
  apply status_in_spec in Hs. cbn [negb].
  assert (STATUS row <> "PRIVATE") as Hnp
    by (destruct Hs as [<-|[<-|[]]]; done).
  destruct (random_connection.available_users db user_id)
    as [|first l] eqn:Hav; cbn [snd].
  - destruct (negb (STATUS row =? "OPEN")%string); [|done].
    apply live_otp_update; [done|]. intros r Hr Hotp.
    assert (r = row) as -> by congruence.
    by destruct Hnp; apply (Hinv user_id row).
  - set (partner := default first (Random.choice (first :: l) draw)).
    assert (In partner (random_connection.available_users db user_id))
      as Hin by (rewrite Hav; by apply choice_in).
    apply available_users_spec in Hin as (rp & Hrp & Hsp & Hne).
    apply live_otp_update; [apply live_otp_update; [done|]|].
    + intros r Hr Hotp. assert (r = row) as -> by congruence.
      by destruct Hnp; apply (Hinv user_id row).
    + intros r Hr Hotp. rewrite update_lookup_ne in Hr by done.
      assert (r = rp) as -> by congruence.
      assert (STATUS rp = "PRIVATE") by (by apply (Hinv partner rp)).
      congruence.
Qed.

Lemma live_otp_issue (db : users) (user_id : Z)
    (rnd : private_connection.draws) :
  live_otp_is_private db ->
  live_otp_is_private (private_connection.check_user_status db user_id rnd).2.
Proof.
  intros Hinv. unfold private_connection.check_user_status.
  destruct (db !! user_id) as [row|]; [|done].
  repeat (case_match; cbn [snd]; try done).
  by apply live_otp_update.
Qed.

Lemma live_otp_expire (db : users) (user_id : Z) :
  live_otp_is_private db -> live_otp_is_private (otp_clean.clean_otp db user_id).
Proof.
  intros Hinv. unfold otp_clean.clean_otp.
  repeat (case_match; try done).
  by apply live_otp_update.
Qed.

Lemma live_otp_forward (db : users) (user_id : Z) :
  live_otp_is_private db ->
  live_otp_is_private (controls_anonybot.handle_forward_button db user_id).
Proof.
  intros Hinv.
  unfold controls_anonybot.handle_forward_button,
    controls_anonybot.get_user_status.
  case_bool_decide as Hs; [|done]. cbn.
  apply live_otp_update; [done|]. intros r Hr Hotp.
  rewrite Hr in Hs. injection Hs as Hs.
  assert (STATUS r = "PRIVATE") by (by apply (Hinv user_id r)).
  congruence.
Qed.

(** C5, as amended.  Random match, issuing a private link, verifying one,
    the OTP cleanup, forward and a declined anonymous-number request each
    preserve the rule that a row with a non-empty OTP has status PRIVATE.
    (Accepting an anonymous-number request, joining a broadcast and
    disconnecting change the status and leave the OTP where it is.) *)
Theorem live_otp_rule_preserved (b : bot) (db : users) (o : operation) :
  keeps_otp_rule o = true ->
  live_otp_is_private db ->
  live_otp_is_private (run b db o).
Proof.
  intros Hop Hinv. destruct o; try discriminate; cbn [run].
  - by apply live_otp_random_match.
  - by apply live_otp_issue.
  - by rewrite verify_private_link_frame.
  - by apply live_otp_expire.
  - unfold anony_number.handle_an_connection_response.
    cbn in Hop. by rewrite Hop.
  - by apply live_otp_forward.
Qed.

Lemma live_otp_rule_preserved_witness :
  let b := {| send_message := fun _ => true; answer_callback_query := true |} in
  let row := {| PEER_ID := Some ""; STATUS := "OPEN"; TIMER := 120;
                OTP := Some ""; OTP_EXP := None;
                ANONY_NAME := "Hidden7K2Q" |} in
  let db : users := {[ 123456789 := row ]} in
  let rnd := {| private_connection.otp_draw := 3821;
                private_connection.link_draws :=
                  {| private_connection.six_draw := 1;
                     private_connection.five_draw := 2 |} |} in
  live_otp_is_private (run b db (IssuePrivateLink 123456789 rnd)).
Proof.
  intros b row db rnd.
  apply (live_otp_rule_preserved b db (IssuePrivateLink 123456789 rnd));
    [reflexivity|].
  intros u r Hr. each_row Hr. simpl. discriminate.
Defined.

(** C5, as stated, fails: user 100 holds the OTP of a link nobody claimed
    and accepts the anonymous-number request of user 200; user 100 ends
    with status CONNECTED and the OTP still in place. *)
Lemma accept_leaves_otp_outside_private :
  let b := {| send_message := fun _ => true; answer_callback_query := true |} in
  let issuer := {| PEER_ID := Some ""; STATUS := "PRIVATE"; TIMER := 5760;
                   OTP := Some "4821"; OTP_EXP := None;
                   ANONY_NAME := "Hidden7K2Q" |} in
  let other := {| PEER_ID := Some ""; STATUS := "OPEN"; TIMER := 120;
                  OTP := Some ""; OTP_EXP := None;
                  ANONY_NAME := "Secret01AB" |} in
  let db : users := <[ 100 := issuer ]> {[ 200 := other ]} in
  let db' := run b db (AnswerAnonymousNumberConnect "accept" 200 100) in
  live_otp_is_private db
  /\ db' !! 100
     = Some {| PEER_ID := Some "200"; STATUS := "CONNECTED"; TIMER := 5760;
               OTP := Some "4821"; OTP_EXP := None;
               ANONY_NAME := "Hidden7K2Q" |}
  /\ ~ live_otp_is_private db'.
Proof.
  intros b issuer other db db'.
  assert (db' !! 100
          = Some {| PEER_ID := Some "200"; STATUS := "CONNECTED";
                    TIMER := 5760; OTP := Some "4821"; OTP_EXP := None;
                    ANONY_NAME := "Hidden7K2Q" |}) as Hrow
    by (vm_compute; reflexivity).
  split; [|split; [exact Hrow|]].
  - intros u r Hr. unfold db in Hr. each_row Hr; simpl; done.
  - intros Hinv. specialize (Hinv 100 _ Hrow eq_refl). discriminate.
Qed.

End otp_discipline.

Section symmetry.

Import anony_number.


Lemma peer_of_truthy (r : user_row) (k : Z) :
  peer_of r = Some k -> Py.truthy (PEER_ID r) = true.
Proof.
  unfold peer_of. destruct (PEER_ID r) as [t|]; [|done].
  apply integer_of_text_truthy.
Qed.











(** C1 does not hold of the code.  Users 100 and 200 are matched at
    random, so the table satisfies the symmetric pairing invariant.  After
    user 100 presses forward, and likewise after user 100 joins a
    broadcast, user 200 still has status RANDOM and PEER_ID 100 while user
    100 is OPEN, or a LISTENER pointing at a channel code: the invariant is
    broken. *)
Theorem forward_and_join_break_symmetry :
  let b := {| send_message := fun _ => true; answer_callback_query := true |} in
  let row peer name :=
    {| PEER_ID := Some peer; STATUS := "RANDOM"; TIMER := 120;
       OTP := Some ""; OTP_EXP := None; ANONY_NAME := name |} in
  let db : users :=
    <[ 100 := row "200" "Hidden7K2Q" ]> {[ 200 := row "100" "Secret01AB" ]} in
  let forwarded := run b db (ResumeFromClosed 100) in
  let joined :=
    run b db (JoinBroadcast 100 "/BCSTAB123456789XYZHidden7K2QQRST") in
  symmetric_pairing db
  /\ forwarded !! 100
     = Some (set_STATUS "OPEN" (row "200" "Hidden7K2Q"))
  /\ forwarded !! 200 = Some (row "100" "Secret01AB")
  /\ ~ symmetric_pairing forwarded
  /\ joined !! 100
     = Some (set_STATUS "LISTENER"
               (set_PEER_ID (Some "099ebe") (row "200" "Hidden7K2Q")))
  /\ joined !! 200 = Some (row "100" "Secret01AB")
  /\ ~ symmetric_pairing joined.
Proof.
  intros b row db forwarded joined.
  assert (forwarded !! 100
          = Some (set_STATUS "OPEN" (row "200" "Hidden7K2Q"))) as Hf1
    by (vm_compute; reflexivity).
  assert (forwarded !! 200 = Some (row "100" "Secret01AB")) as Hf2
    by (vm_compute; reflexivity).
  assert (joined !! 100
          = Some (set_STATUS "LISTENER"
                    (set_PEER_ID (Some "099ebe") (row "200" "Hidden7K2Q"))))
    as Hj1 by (vm_compute; reflexivity).
  assert (joined !! 200 = Some (row "100" "Secret01AB")) as Hj2
    by (vm_compute; reflexivity).
  split; [|split; [exact Hf1|split; [exact Hf2|split;
    [|split; [exact Hj1|split; [exact Hj2|]]]]]].
  - intros A B ra rb Ha Hb Hbil Hpeer. unfold db in Ha, Hb.
    each_row Ha; each_row Hb; vm_compute in Hpeer;
      first [ discriminate Hpeer | vm_compute; repeat split ].
  - intros Hinv.
    destruct (Hinv 200 100 _ _ Hf2 Hf1 eq_refl eq_refl) as (_ & Hbil & _).
    discriminate.
  - intros Hinv.
    destruct (Hinv 200 100 _ _ Hj2 Hj1 eq_refl eq_refl) as (Hpeer & _).
    discriminate.
Qed.

End symmetry.

(** ** Characters of a text *)

Section characters.

Lemma every_app (p : ascii -> bool) (a b : string) :
  every p (a ++ b) = every p a && every p b.
Proof.
  induction a as [|c a IH]; [reflexivity|].
  change (String c a ++ b) with (String c (a ++ b)).
  unfold every in *. cbn [list_ascii_of_string forallb].
  rewrite IH. by rewrite andb_assoc.
Qed.

Lemma every_impl (p q : ascii -> bool) (s : string) :
  (forall c, p c = true -> q c = true) -> every p s = true -> every q s = true.
Proof.
  intros Hpq. unfold every. induction s as [|c s IH]; [done|].
  cbn [list_ascii_of_string forallb]. rewrite !andb_true_iff.
  intros [Hc Hs]. split; [by apply Hpq | by apply IH].
Qed.

Lemma pretty_N_char_digit (d : N) :
  (d < 10)%N -> Py.isdigit (pretty_N_char d) = true.
Proof.
  intros Hd.
  assert (d = 0 \/ d = 1 \/ d = 2 \/ d = 3 \/ d = 4 \/ d = 5 \/ d = 6
          \/ d = 7 \/ d = 8 \/ d = 9)%N as Hcases by lia.
  destruct Hcases as [->|[->|[->|[->|[->|[->|[->|[->|[->| ->]]]]]]]]];
    reflexivity.
Qed.

Lemma pretty_N_go_digits (x : N) :
  forall s : string,
    every Py.isdigit s = true -> every Py.isdigit (pretty_N_go x s) = true.
Proof.
  induction (N.lt_wf_0 x) as [x _ IH]. intros s Hs.
  destruct (decide (x = 0)%N) as [->|Hx].
  - by rewrite pretty_N_go_0.
  - assert (0 < x)%N as Hpos by lia.
    rewrite pretty_N_go_step by done.
    apply IH; [by apply N.div_lt|].
    unfold every. cbn [list_ascii_of_string forallb].
    rewrite pretty_N_char_digit by (apply N.mod_lt; lia). exact Hs.
Qed.

Lemma pretty_N_go_nonempty (x : N) (s : string) :
  (0 < x)%N -> Py.nonempty (pretty_N_go x s) = true.
Proof.
  revert s. induction (N.lt_wf_0 x) as [x _ IH]. intros s Hpos.
  rewrite pretty_N_go_step by done.
  destruct (decide (x `div` 10 = 0)%N) as [->|Hx].
  - by rewrite pretty_N_go_0.
  - apply IH; [by apply N.div_lt | by apply N.neq_0_lt_0].
Qed.

(** The decimal text of a natural number is a non-empty run of digits. *)
Lemma str_digits (z : Z) :
  0 <= z ->
  every Py.isdigit (Py.str z) = true /\ Py.nonempty (Py.str z) = true.
Proof.
  intros Hz. destruct z as [|p|p]; [done| |lia].
  unfold Py.str, pretty, pretty_Z, pretty, pretty_positive, pretty, pretty_N.
  destruct (decide (N.pos p = 0%N)) as [|_]; [lia|]. split.
  - by apply pretty_N_go_digits.
  - apply pretty_N_go_nonempty. lia.
Qed.

Lemma str_negative (z : Z) :
  z < 0 -> Py.str z = String "-"%char (Py.str (- z)).
Proof. intros Hz. destruct z as [|p|p]; try lia. reflexivity. Qed.

Lemma str_nonempty (z : Z) : Py.nonempty (Py.str z) = true.
Proof.
  destruct (decide (0 <= z)) as [Hz|Hz]; [by apply str_digits|].
  rewrite str_negative by lia. reflexivity.
Qed.

Lemma digit_run_app (a b : string) :
  every Py.isdigit a = true ->
  Py.digit_run b = "" ->
  Py.digit_run (a ++ b) = a.
Proof.
  intros Ha Hb. induction a as [|c a IH]; [exact Hb|].
  change (String c a ++ b) with (String c (a ++ b)).
  unfold every in Ha. cbn [list_ascii_of_string forallb] in Ha.
  apply andb_true_iff in Ha as [Hc Ha].
  cbn [Py.digit_run]. rewrite Hc. f_equal. by apply IH.
Qed.

Lemma startswith_app (p s : string) : Py.startswith p (p ++ s) = true.
Proof.
  induction p as [|c p IH]; [reflexivity|].
  change (String c p ++ s) with (String c (p ++ s)).
  cbn [Py.startswith]. by rewrite Ascii.eqb_refl, IH.
Qed.

(** Reading digits with [int] and with the numeric affinity of SQLite give
    the same number. *)
Lemma int_digits_digits_value (s : string) :
  forall (acc : N) (after_digit : bool),
    every Py.isdigit s = true ->
    (Py.nonempty s = true \/ after_digit = true) ->
    Py.int_digits s acc after_digit = Sql.digits_value s acc.
Proof.
  induction s as [|c s IH]; intros acc flag Hs Hne.
  - destruct Hne as [Hne| ->]; [discriminate|reflexivity].
  - unfold every in Hs. cbn [list_ascii_of_string forallb] in Hs.
    apply andb_true_iff in Hs as [Hc Hs].
    cbn [Py.int_digits Sql.digits_value]. unfold Sql.digit_value.
    rewrite Hc. apply IH; [exact Hs | by right].
Qed.

End characters.

(** ** The broadcast code, for every text *)

Section fixed_code.

Import create_broadcasting.

Lemma le_bytes_bytes (n : nat) :
  forall x : Z,
    length (MD5.le_bytes n x) = n
    /\ Forall (fun b => 0 <= b < 256) (MD5.le_bytes n x).
Proof.
  induction n as [|n IH]; intros x; [by split|].
  destruct (IH (Z.shiftr x 8)) as [Hlen Hall].
  cbn [MD5.le_bytes]. split; [by rewrite length_cons, Hlen|].
  constructor; [|exact Hall].
  change 255 with (Z.ones 8). rewrite Z.land_ones by lia.
  apply Z.mod_pos_bound. lia.
Qed.

Lemma hex_char_hex (nibble : Z) :
  0 <= nibble < 16 -> is_hex_digit (MD5.hex_char nibble) = true.
Proof.
  intros Hrange. destruct nibble as [|p|p]; [reflexivity| |lia].
  do 4 (destruct p as [p|p|]; try reflexivity; try lia).
Qed.

Lemma hex_shape (bytes : list Z) :
  Forall (fun b => 0 <= b < 256) bytes ->
  String.length (MD5.hex bytes) = (2 * length bytes)%nat
  /\ every is_hex_digit (MD5.hex bytes) = true.
Proof.
  induction 1 as [|b bytes Hb _ [IHlen IHall]]; [by split|].
  cbn [MD5.hex String.length length]. split; [lia|].
  unfold every in *. cbn [list_ascii_of_string forallb].
  rewrite IHall, !hex_char_hex; [done| |].
  - change 15 with (Z.ones 4). rewrite Z.land_ones by lia.
    apply Z.mod_pos_bound. lia.
  - rewrite Z.shiftr_div_pow2 by lia. change (2 ^ 4) with 16.
    split; [apply Z.div_pos; lia | apply Z.div_lt_upper_bound; lia].
Qed.

(** A digest is written with 32 digits of lower-case hexadecimal. *)
Lemma hexdigest_shape (s : string) :
  String.length (MD5.hexdigest s) = 32%nat
  /\ every is_hex_digit (MD5.hexdigest s) = true.
Proof.
  unfold MD5.hexdigest, MD5.digest.
  generalize (fold_left MD5.compress (MD5.blocks (MD5.pad (MD5.encode s)))
                MD5.initial).
  intros st.
  destruct (le_bytes_bytes 4 (MD5.wa st)) as [La Fa].
  destruct (le_bytes_bytes 4 (MD5.wb st)) as [Lb Fb].
  destruct (le_bytes_bytes 4 (MD5.wc st)) as [Lc Fc].
  destruct (le_bytes_bytes 4 (MD5.wd st)) as [Ld Fd].
  destruct (hex_shape (MD5.le_bytes 4 (MD5.wa st) ++ MD5.le_bytes 4 (MD5.wb st)
                         ++ MD5.le_bytes 4 (MD5.wc st)
                         ++ MD5.le_bytes 4 (MD5.wd st))) as [Hlen Hall].
  { repeat (apply Forall_app; split); assumption. }
  split; [|exact Hall].
  rewrite Hlen, !List.length_app, La, Lb, Lc, Ld. reflexivity.
Qed.

Lemma fixed_char_hex (c : ascii) :
  is_hex_digit c = true -> fixed_char c = c.
Proof.
  intros Hc. unfold fixed_char.
  assert (Py.isalnum c = true) as ->; [|reflexivity].
  unfold is_hex_digit in Hc. unfold Py.isalnum, Py.islower, Py.isupper.
  apply orb_true_iff in Hc as [->|Hc]; [reflexivity|].
  apply andb_true_iff in Hc as [H1 H2].
  apply N.leb_le in H1, H2.
  rewrite !orb_true_iff, !andb_true_iff, !N.leb_le. right. lia.
Qed.

Lemma map_fixed_char_hex (s : string) :
  every is_hex_digit s = true ->
  string_of_list_ascii (map fixed_char (list_ascii_of_string s)) = s.
Proof.
  unfold every. induction s as [|c s IH]; [reflexivity|].
  cbn [list_ascii_of_string forallb map string_of_list_ascii].
  intros [Hc Hs]%andb_true_iff. by rewrite fixed_char_hex, IH.
Qed.

Lemma every_take (p : ascii -> bool) (n : nat) (s : string) :
  every p s = true -> every p (Py.take n s) = true.
Proof.
  unfold every. revert s. induction n as [|n IH]; intros [|c s]; try done.
  cbn [Py.take list_ascii_of_string forallb].
  intros [Hc Hs]%andb_true_iff. by rewrite Hc, IH.
Qed.

(** The text that [convert_to_fixed_code] hashes. *)
Lemma convert_to_fixed_code_take (channel_id : string) :
  exists hash_input : string,
    convert_to_fixed_code channel_id = Py.take 6 (MD5.hexdigest hash_input)
    /\ (hash_input = channel_id
        \/ extract_broadcaster_id channel_id = Some hash_input).
Proof.
  unfold convert_to_fixed_code.
  destruct (extract_broadcaster_id channel_id) as [broadcaster_id|] eqn:He.
  - destruct (Py.nonempty broadcaster_id).
    + exists broadcaster_id. split; [|by right].
      apply map_fixed_char_hex, every_take, hexdigest_shape.
    + exists channel_id. split; [|by left].
      apply map_fixed_char_hex, every_take, hexdigest_shape.
  - exists channel_id. split; [|by left].
    apply map_fixed_char_hex, every_take, hexdigest_shape.
Qed.

Lemma length_convert_to_fixed_code (channel_id : string) :
  String.length (convert_to_fixed_code channel_id) = 6%nat
  /\ Py.nonempty (convert_to_fixed_code channel_id) = true.
Proof.
  destruct (convert_to_fixed_code_take channel_id) as (input & -> & _).
  destruct (hexdigest_shape input) as [Hlen Hall].
  assert (String.length (Py.take 6 (MD5.hexdigest input)) = 6%nat) as H6.
  { rewrite length_take, Hlen. reflexivity. }
  split; [exact H6|].
  destruct (Py.take 6 (MD5.hexdigest input)); [discriminate H6|reflexivity].
Qed.

(** X1. Whatever the text, [convert_to_fixed_code] returns six digits of
    lower-case hexadecimal: the first six of the digest, none of which the
    loop rewrites.  The result is never empty, so the test [if not
    fixed_code] of its callers never fires. *)
Theorem fixed_code_is_six_hex_digits (channel_id : string) :
  let code := convert_to_fixed_code channel_id in
  String.length code = 6%nat
  /\ every is_hex_digit code = true
  /\ Py.nonempty code = true.
Proof.
  cbv zeta.
  destruct (convert_to_fixed_code_take channel_id) as (input & -> & _).
  destruct (hexdigest_shape input) as [Hlen Hall].
  assert (String.length (Py.take 6 (MD5.hexdigest input)) = 6%nat) as H6.
  { rewrite length_take, Hlen. reflexivity. }
  split; [exact H6|]. split; [by apply every_take|].
  destruct (Py.take 6 (MD5.hexdigest input)); [discriminate H6|reflexivity].
Qed.

End fixed_code.

(** ** Stripping *)

Section stripping.

Lemma rev_onto_app (s acc : string) : Py.rev_onto s acc = Py.rev s ++ acc.
Proof.
  unfold Py.rev. revert acc. induction s as [|c s IH]; intros acc; [done|].
  cbn [Py.rev_onto]. rewrite (IH (String c acc)), (IH (String c "")).
  by rewrite app_assoc.
Qed.

Lemma rev_cons (c : ascii) (s : string) :
  Py.rev (String c s) = Py.rev s ++ String c "".
Proof. unfold Py.rev at 1. cbn [Py.rev_onto]. apply rev_onto_app. Qed.

Lemma app_empty_r (s : string) : s ++ "" = s.
Proof.
  induction s as [|c s IH]; [done|].
  change (String c s ++ "") with (String c (s ++ "")). by rewrite IH.
Qed.

Lemma rev_append (a b : string) : Py.rev (a ++ b) = Py.rev b ++ Py.rev a.
Proof.
  induction a as [|c a IH].
  - change ("" ++ b) with b. change (Py.rev "") with "".
    by rewrite app_empty_r.
  - change (String c a ++ b) with (String c (a ++ b)).
    by rewrite !rev_cons, IH, app_assoc.
Qed.

Lemma rev_rev (s : string) : Py.rev (Py.rev s) = s.
Proof.
  induction s as [|c s IH]; [done|].
  rewrite rev_cons, rev_append, IH. reflexivity.
Qed.

Lemma every_rev (p : ascii -> bool) (s : string) :
  every p (Py.rev s) = every p s.
Proof.
  induction s as [|c s IH]; [done|].
  rewrite rev_cons, every_app, IH. unfold every.
  cbn [list_ascii_of_string forallb]. by rewrite andb_true_r, andb_comm.
Qed.

Lemma nonempty_rev (s : string) : Py.nonempty (Py.rev s) = Py.nonempty s.
Proof.
  destruct s as [|c s]; [done|]. rewrite rev_cons.
  by destruct (Py.rev s).
Qed.

Lemma lstrip_idem (s : string) : Py.lstrip (Py.lstrip s) = Py.lstrip s.
Proof.
  induction s as [|c s IH]; [done|].
  cbn [Py.lstrip]. destruct (Py.isspace c) eqn:Hc; [exact IH|].
  cbn [Py.lstrip]. by rewrite Hc.
Qed.

Lemma lstrip_snoc (a : string) (c : ascii) :
  Py.isspace c = false ->
  exists w, Py.lstrip (a ++ String c "") = w ++ String c "".
Proof.
  intros Hc. induction a as [|d a IH].
  - exists "". change ("" ++ String c "") with (String c "").
    cbn [Py.lstrip]. by rewrite Hc.
  - change (String d a ++ String c "") with (String d (a ++ String c "")).
    cbn [Py.lstrip]. destruct (Py.isspace d); [exact IH|].
    by exists (String d a).
Qed.

Lemma strip_trimmed (s : string) :
  Py.lstrip s = s -> Py.lstrip (Py.rev s) = Py.rev s -> Py.strip s = s.
Proof.
  intros H1 H2. unfold Py.strip. by rewrite H1, H2, rev_rev.
Qed.

Lemma strip_is_trimmed (s : string) :
  Py.lstrip (Py.strip s) = Py.strip s
  /\ Py.lstrip (Py.rev (Py.strip s)) = Py.rev (Py.strip s).
Proof.
  unfold Py.strip. rewrite rev_rev, lstrip_idem. split; [|done].
  pose proof (lstrip_idem s) as Hidem.
  destruct (Py.lstrip s) as [|c t] eqn:Ht; [done|].
  assert (Py.isspace c = false) as Hc.
  { cbn [Py.lstrip] in Hidem. destruct (Py.isspace c) eqn:Hc; [|done].
    exfalso. clear -Hidem.
    assert (forall u, String.length (Py.lstrip u) <= String.length u)%nat as Hle.
    { induction u as [|d u IH]; [done|]. cbn [Py.lstrip].
      destruct (Py.isspace d); cbn [String.length]; lia. }
    pose proof (Hle t) as Ht. rewrite Hidem in Ht.
    cbn [String.length] in Ht. lia. }
  rewrite rev_cons.
  destruct (lstrip_snoc (Py.rev t) c Hc) as [w ->].
  rewrite rev_append. change (Py.rev (String c "")) with (String c "").
  change (String c "" ++ Py.rev w) with (String c (Py.rev w)).
  cbn [Py.lstrip]. by rewrite Hc.
Qed.

(** [strip] is idempotent. *)
Lemma strip_idem (s : string) : Py.strip (Py.strip s) = Py.strip s.
Proof. apply strip_trimmed; apply strip_is_trimmed. Qed.

Lemma lstrip_every_not_space (s : string) :
  every (fun c => negb (Py.isspace c)) s = true -> Py.lstrip s = s.
Proof.
  destruct s as [|c s]; [done|]. unfold every.
  cbn [list_ascii_of_string forallb Py.lstrip].
  intros [Hc _]%andb_true_iff. by destruct (Py.isspace c).
Qed.

Lemma lstrip_app_not_space (a b : string) :
  every (fun c => negb (Py.isspace c)) a = true -> Py.nonempty a = true ->
  Py.lstrip (a ++ b) = a ++ b.
Proof.
  destruct a as [|c a]; [done|]. unfold every.
  cbn [list_ascii_of_string forallb].
  intros [Hc _]%andb_true_iff _.
  change (String c a ++ b) with (String c (a ++ b)).
  cbn [Py.lstrip]. by destruct (Py.isspace c).
Qed.

(** A text that begins and ends with runs free of white space is left as
    it is. *)
Lemma strip_between (a m z : string) :
  every (fun c => negb (Py.isspace c)) a = true -> Py.nonempty a = true ->
  every (fun c => negb (Py.isspace c)) z = true -> Py.nonempty z = true ->
  Py.strip (a ++ m ++ z) = a ++ m ++ z.
Proof.
  intros Ha Hna Hz Hnz. apply strip_trimmed.
  - by apply lstrip_app_not_space.
  - rewrite <- app_assoc, rev_append.
    apply lstrip_app_not_space; [by rewrite every_rev | by rewrite nonempty_rev].
Qed.

End stripping.

(** ** Broadcast channels *)

Section broadcast_channels.

Import create_broadcasting process_broadcasting.

Lemma re_search_here (s group1 : string) :
  match_here s = Some group1 -> re_search s = Some group1.
Proof. intros H. destruct s; cbn [re_search]; by rewrite H. Qed.

(** X2. On a channel id in the format the docstrings describe -- [/BCST:],
    five characters, the user id, then a text that does not begin with a
    digit -- [extract_broadcaster_id] returns the user id, and the short
    code is the start of the digest of that id: the padding has no part in
    it. *)
Theorem documented_format_yields_owner_code
    (user_id : Z) (five rest : string) :
  0 <= user_id ->
  String.length five = 5%nat ->
  every (fun c => negb (Ascii.eqb c "010"%char)) five = true ->
  Py.digit_run rest = "" ->
  let channel_id := "/BCST:" ++ five ++ Py.str user_id ++ rest in
  extract_broadcaster_id channel_id = Some (Py.str user_id)
  /\ convert_to_fixed_code channel_id
     = Py.take 6 (MD5.hexdigest (Py.str user_id)).
Proof.
  intros Hid Hfive Hlf Hrest channel_id.
  destruct (str_digits user_id Hid) as [Hdigits Hne].
  assert (extract_broadcaster_id channel_id = Some (Py.str user_id)) as He.
  { unfold extract_broadcaster_id.
    assert (Py.startswith "/BCST" channel_id = true) as -> by reflexivity.
    cbn [negb].
    rewrite (re_search_here channel_id (Py.str user_id)); [reflexivity|].
    unfold match_here.
    assert (Py.startswith "/BCST:" channel_id = true) as -> by reflexivity.
    change (Py.drop 6 channel_id) with (five ++ Py.str user_id ++ rest).
    rewrite (take_app_length 5) by exact Hfive.
    rewrite (drop_app_length 5) by exact Hfive.
    rewrite Hfive. unfold every in Hlf. rewrite Hlf.
    rewrite digit_run_app by assumption.
    cbn [Nat.eqb andb]. by rewrite Hne. }
  split; [exact He|].
  unfold convert_to_fixed_code. rewrite He, Hne.
  apply map_fixed_char_hex, every_take, hexdigest_shape.
Qed.

Lemma documented_format_yields_owner_code_witness :
  convert_to_fixed_code ("/BCST:" ++ "AB1CD" ++ Py.str 123456789 ++ "XYZHidden7K2QQRST")
  = Py.take 6 (MD5.hexdigest (Py.str 123456789)).
Proof.
  apply (documented_format_yields_owner_code 123456789 "AB1CD"
           "XYZHidden7K2QQRST"); [lia | reflexivity..].
Defined.

(** X3. A text that, once stripped, starts with [/BCST] makes its sender a
    listener whatever the sender's status was and whether or not a
    broadcaster holds the code: STATUS becomes LISTENER and PEER_ID the
    six-character code of the stripped text, the other columns and the
    other rows stay; any other text changes nothing. *)
Theorem join_makes_listener
    (db : users) (text : string) (user_id : Z) :
  let db' := process_broadcasting_channel_id db text user_id in
  let code := convert_to_fixed_code (Py.strip text) in
  (Py.startswith "/BCST" (Py.strip text) = true ->
   String.length code = 6%nat
   /\ db' !! user_id
      = (fun r => set_STATUS "LISTENER" (set_PEER_ID (Some code) r))
          <$> db !! user_id
   /\ (forall v, v <> user_id -> db' !! v = db !! v))
  /\ (Py.startswith "/BCST" (Py.strip text) = false -> db' = db).
Proof.
  cbv zeta. unfold process_broadcasting_channel_id, validate_listener_channel_id.
  rewrite strip_idem.
  destruct (length_convert_to_fixed_code (Py.strip text)) as (H6 & Hne).
  split; intros Hstart; rewrite Hstart.
  - assert (Py.nonempty (Py.strip text) = true) as ->
      by (by destruct (Py.strip text)).
    cbn [negb]. rewrite Hne. cbn [negb].
    split; [exact H6|]. split.
    + apply update_lookup_eq.
    + intros v Hv. by apply update_lookup_ne.
  - by destruct (negb (Py.nonempty (Py.strip text))).
Qed.

Lemma join_makes_listener_witness :
  let row := {| PEER_ID := Some "200"; STATUS := "RANDOM"; TIMER := 120;
                OTP := Some ""; OTP_EXP := None; ANONY_NAME := "Hidden7K2Q" |} in
  let db : users := {[ 100 := row ]} in
  process_broadcasting_channel_id db " /BCSTAB123456789XYZHidden7K2QQRST " 100
    !! 100
  = Some (set_STATUS "LISTENER" (set_PEER_ID (Some "099ebe") row)).
Proof.
  intros row db.
  destruct (join_makes_listener db " /BCSTAB123456789XYZHidden7K2QQRST " 100)
    as [Hjoin _].
  destruct (Hjoin eq_refl) as (_ & Hrow & _).
  rewrite Hrow. reflexivity.
Defined.

Lemma choice_characters {A} (l : list A) (draw : nat) :
  l <> [] -> exists c, Random.choice l draw = Some c /\ In c l.
Proof.
  intros Hl. unfold Random.choice.
  destruct (lookup_lt_is_Some_2 l (draw mod length l)) as [c Hc].
  { apply Nat.mod_upper_bound. by destruct l. }
  exists c. split; [exact Hc|]. apply list_elem_of_In.
  by apply list_elem_of_lookup_2 in Hc.
Qed.

(** The characters drawn from an alphabet pass every test the alphabet
    passes, and as many are drawn as asked for. *)
Lemma drawn_characters (p : ascii -> bool) (alphabet : string)
    (draws : nat -> nat) (indices : list nat) :
  every p alphabet = true -> Py.nonempty alphabet = true ->
  let drawn :=
    string_of_list_ascii
      (omap (fun i => Random.choice (list_ascii_of_string alphabet) (draws i))
            indices) in
  every p drawn = true /\ String.length drawn = length indices.
Proof.
  intros Hp Hne. cbv zeta.
  induction indices as [|i indices [IHp IHlen]]; [by split|].
  cbn [omap list_omap].
  destruct (choice_characters (list_ascii_of_string alphabet) (draws i))
    as (c & -> & Hin); [by destruct alphabet|].
  cbn [string_of_list_ascii String.length length]. split; [|by rewrite IHlen].
  unfold every in *. cbn [list_ascii_of_string forallb].
  rewrite IHp, andb_true_r.
  by apply (proj1 (forallb_forall p (list_ascii_of_string alphabet)) Hp).
Qed.

Lemma upper_shape (s : string) :
  every Py.isalnum s = true ->
  every (fun c => negb (Py.isspace c)) (Py.upper s) = true
  /\ String.length (Py.upper s) = String.length s.
Proof.
  unfold every. induction s as [|c s IH]; [by split|].
  cbn [list_ascii_of_string forallb Py.upper String.length].
  intros [Hc Hs]%andb_true_iff. destruct (IH Hs) as [IHp ->].
  split; [|reflexivity]. rewrite IHp, andb_true_r.
  clear -Hc. revert Hc.
  by destruct c as [[] [] [] [] [] [] [] []]; vm_compute.
Qed.

(** X4. Every id that [create_broadcasting_channel_id] writes passes the
    listener's validation as it stands, whatever the anonymous name holds:
    a listener who sends it ends with the code that [convert_to_fixed_code]
    gives for that very id. *)
Theorem created_channel_id_is_accepted
    (db : users) (owner : Z) (anony_name : string)
    (draws1 draws2 draws3 : nat -> nat) (listener : Z) :
  let channel_id :=
    create_broadcasting_channel_id owner anony_name draws1 draws2 draws3 in
  Py.strip channel_id = channel_id
  /\ validate_listener_channel_id channel_id = true
  /\ process_broadcasting_channel_id db channel_id listener
     = update_where_user_id
         (fun r => set_STATUS "LISTENER"
                     (set_PEER_ID (Some (convert_to_fixed_code channel_id)) r))
         listener db.
Proof.
  cbv zeta.
  assert (Py.strip (create_broadcasting_channel_id owner anony_name
                      draws1 draws2 draws3)
          = create_broadcasting_channel_id owner anony_name
              draws1 draws2 draws3) as Hstrip.
  { unfold create_broadcasting_channel_id.
    destruct (drawn_characters Py.isalnum characters draws3 (seq 0 4))
      as [Hp Hlen]; [reflexivity..|].
    destruct (upper_shape _ Hp) as [Hns Hlen'].
    rewrite <- !app_assoc.
    rewrite !(app_assoc "/BCST").
    apply strip_between; [reflexivity..|exact Hns|].
    unfold generate_random_alphanumeric in *.
    rewrite Hlen in Hlen'.
    by destruct (Py.upper _). }
  assert (Py.startswith "/BCST"
            (create_broadcasting_channel_id owner anony_name
               draws1 draws2 draws3) = true) as Hstart by reflexivity.
  split; [exact Hstrip|].
  assert (validate_listener_channel_id
            (create_broadcasting_channel_id owner anony_name
               draws1 draws2 draws3) = true) as Hvalid.
  { unfold validate_listener_channel_id. by rewrite Hstrip, Hstart. }
  split; [exact Hvalid|].
  unfold process_broadcasting_channel_id. rewrite Hstrip, Hvalid.
  destruct (length_convert_to_fixed_code
              (create_broadcasting_channel_id owner anony_name
                 draws1 draws2 draws3)) as [_ ->].
  reflexivity.
Qed.

End broadcast_channels.

(** ** Stop *)

Section stop.

Import controls_anonybot anony_number.

Lemma set_STATUS_same (r : user_row) (s : string) :
  STATUS r = s -> set_STATUS s r = r.
Proof. intros <-. by destruct r. Qed.

Lemma update_missing (f : user_row -> user_row) (u : Z) (db : users) :
  db !! u = None -> update_where_user_id f u db = db.
Proof.
  intros Hu. apply map_eq. intros v. rewrite update_lookup.
  case_decide; [subst v; by rewrite Hu | done].
Qed.

Lemma update_same (f : user_row -> user_row) (u : Z) (db : users)
    (r : user_row) :
  db !! u = Some r -> f r = r -> update_where_user_id f u db = db.
Proof.
  intros Hu Hf. apply map_eq. intros v. rewrite update_lookup.
  case_decide; [subst v; by rewrite Hu; cbn; rewrite Hf | done].
Qed.

Lemma eqb_status_false (s t : string) : s <> t -> String.eqb s t = false.
Proof. intros H. by apply String.eqb_neq. Qed.

(** The handler up to its first call of the client. *)
Lemma handle_stop_button_open (b : bot) (db : users) (user_id chat_id : Z)
    (row : user_row) :
  db !! user_id = Some row ->
  STATUS row <> "CLOSED" ->
  handle_stop_button b db user_id chat_id
  = let db1 := update_where_user_id (set_STATUS "CLOSED") user_id db in
    if negb (answer_callback_query b) then db1
    else if negb (send_message b (Py.str chat_id)) then db1
    else
      if negb (String.eqb (STATUS row) "BROADCASTER") && Py.truthy (PEER_ID row)
      then
        let peer := default "" (PEER_ID row) in
        let db2 := update_where_user_id_text closes_peer peer db1 in
        if negb (send_message b peer) then db2
        else update_where_user_id (set_PEER_ID None) user_id db2
      else update_where_user_id (set_PEER_ID None) user_id db1.
Proof.
  intros Hrow Hopen. unfold handle_stop_button, get_user_status.
  rewrite Hrow. cbn [fmap option_fmap option_map].
  rewrite bool_decide_eq_false_2 by congruence.
  reflexivity.
Qed.

(** X5. Stop, when every call of the client returns: a caller who is not
    CLOSED and not a broadcaster, and whose PEER_ID designates a user, ends
    CLOSED with PEER_ID NULL, and so does that user; no other row
    changes. *)
Theorem stop_closes_both_sides
    (b : bot) (db : users) (user_id chat_id peer : Z) (row : user_row) :
  db !! user_id = Some row ->
  STATUS row <> "CLOSED" ->
  STATUS row <> "BROADCASTER" ->
  peer_of row = Some peer ->
  answer_callback_query b = true ->
  send_message b (Py.str chat_id) = true ->
  send_message b (default "" (PEER_ID row)) = true ->
  let db' := handle_stop_button b db user_id chat_id in
  db' !! user_id = Some (closes_peer row)
  /\ db' !! peer = closes_peer <$> db !! peer
  /\ (forall v, v <> user_id -> v <> peer -> db' !! v = db !! v).
Proof.
  intros Hrow Hopen Hnb Hpeer Hanswer Hchat Hnotify db'. subst db'.
  rewrite (handle_stop_button_open b db user_id chat_id row) by assumption.
  cbv zeta. rewrite Hanswer, Hchat, Hnotify.
  rewrite (eqb_status_false _ _ Hnb), (peer_of_truthy row peer Hpeer).
  cbn [negb andb].
  assert (Sql.integer_of_text (default "" (PEER_ID row)) = Some peer) as Ht.
  { unfold peer_of in Hpeer. by destruct (PEER_ID row). }
  assert (forall v,
            update_where_user_id (set_PEER_ID None) user_id
              (update_where_user_id_text closes_peer (default "" (PEER_ID row))
                 (update_where_user_id (set_STATUS "CLOSED") user_id db)) !! v
            = if decide (v = user_id) then
                (fun r => set_PEER_ID None
                            (if decide (peer = user_id)
                             then closes_peer (set_STATUS "CLOSED" r)
                             else set_STATUS "CLOSED" r)) <$> db !! v
              else if decide (v = peer) then closes_peer <$> db !! v
              else db !! v) as Hrows.
  { intros v. destruct (decide (v = user_id)) as [->|Hv].
    - rewrite update_lookup_eq, update_text_lookup, Ht, update_lookup_eq.
      destruct (decide (peer = user_id)) as [->|Hp].
      + rewrite decide_True by done. by destruct (db !! user_id).
      + rewrite decide_False by congruence. by destruct (db !! user_id).
    - rewrite update_lookup_ne by done. rewrite update_text_lookup, Ht.
      rewrite update_lookup_ne by done.
      destruct (decide (v = peer)) as [->|Hp].
      + by rewrite decide_True.
      + by rewrite decide_False by congruence. }
  split; [|split].
  - rewrite Hrows. rewrite (decide_True (P := user_id = user_id)) by done.
    rewrite Hrow. cbn. case_decide; by destruct row.
  - rewrite Hrows. destruct (decide (peer = user_id)) as [->|Hne].
    + rewrite Hrow. cbn. by destruct row.
    + by rewrite decide_True.
  - intros v Hv1 Hv2. rewrite Hrows. by rewrite !decide_False.
Qed.

Lemma stop_closes_both_sides_witness :
  let row peer name :=
    {| PEER_ID := Some peer; STATUS := "RANDOM"; TIMER := 120;
       OTP := Some ""; OTP_EXP := None; ANONY_NAME := name |} in
  let db : users :=
    <[ 100 := row "200" "Hidden7K2Q" ]> {[ 200 := row "100" "Secret01AB" ]} in
  let b := {| send_message := fun _ => true; answer_callback_query := true |} in
  handle_stop_button b db 100 100 !! 200
  = closes_peer <$> db !! 200.
Proof.
  intros row db b.
  apply (stop_closes_both_sides b db 100 100 200 (row "200" "Hidden7K2Q"));
    [reflexivity | discriminate | discriminate | reflexivity..].
Defined.

(** X6. Stop, when the answer to the callback or the message to the
    caller's chat raises: the handler has run [UPDATE ... SET STATUS =
    'CLOSED'] on the caller and nothing else.  The caller keeps PEER_ID,
    and the partner is neither told nor closed. *)
Theorem stop_interrupted_closes_caller_only
    (b : bot) (db : users) (user_id chat_id : Z) :
  answer_callback_query b = false \/ send_message b (Py.str chat_id) = false ->
  handle_stop_button b db user_id chat_id
  = update_where_user_id (set_STATUS "CLOSED") user_id db.
Proof.
  intros Hfail.
  destruct (db !! user_id) as [row|] eqn:Hrow.
  - destruct (decide (STATUS row = "CLOSED")) as [Hc|Hc].
    + unfold handle_stop_button, get_user_status. rewrite Hrow. cbn.
      rewrite bool_decide_eq_true_2 by congruence.
      symmetry. apply (update_same _ _ _ row); [done|by apply set_STATUS_same].
    + rewrite (handle_stop_button_open b db user_id chat_id row) by assumption.
      cbv zeta. destruct Hfail as [->| ->]; [reflexivity|].
      by destruct (answer_callback_query b).
  - unfold handle_stop_button, get_user_status. rewrite Hrow. cbn.
    rewrite bool_decide_eq_false_2 by congruence.
    symmetry. by apply update_missing.
Qed.

Lemma stop_interrupted_closes_caller_only_witness :
  let row peer name :=
    {| PEER_ID := Some peer; STATUS := "RANDOM"; TIMER := 120;
       OTP := Some ""; OTP_EXP := None; ANONY_NAME := name |} in
  let db : users :=
    <[ 100 := row "200" "Hidden7K2Q" ]> {[ 200 := row "100" "Secret01AB" ]} in
  let b := {| send_message := fun _ => true; answer_callback_query := false |} in
  handle_stop_button b db 100 100
  = update_where_user_id (set_STATUS "CLOSED") 100 db.
Proof.
  intros row db b.
  apply (stop_interrupted_closes_caller_only b db 100 100). by left.
Defined.

(** X7. Stop, when the notification of the partner raises: the partner's
    row is closed already (the UPDATE comes first), and the caller is CLOSED
    but keeps the PEER_ID of the partner. *)
Theorem stop_with_unreachable_partner
    (b : bot) (db : users) (user_id chat_id peer : Z) (row : user_row) :
  db !! user_id = Some row ->
  STATUS row <> "CLOSED" ->
  STATUS row <> "BROADCASTER" ->
  peer_of row = Some peer ->
  peer <> user_id ->
  answer_callback_query b = true ->
  send_message b (Py.str chat_id) = true ->
  send_message b (default "" (PEER_ID row)) = false ->
  let db' := handle_stop_button b db user_id chat_id in
  db' !! user_id = Some (set_STATUS "CLOSED" row)
  /\ db' !! peer = closes_peer <$> db !! peer
  /\ (forall v, v <> user_id -> v <> peer -> db' !! v = db !! v).
Proof.
  intros Hrow Hopen Hnb Hpeer Hne Hanswer Hchat Hnotify db'. subst db'.
  rewrite (handle_stop_button_open b db user_id chat_id row) by assumption.
  cbv zeta. rewrite Hanswer, Hchat, Hnotify.
  rewrite (eqb_status_false _ _ Hnb), (peer_of_truthy row peer Hpeer).
  cbn [negb andb].
  assert (Sql.integer_of_text (default "" (PEER_ID row)) = Some peer) as Ht.
  { unfold peer_of in Hpeer. by destruct (PEER_ID row). }
  split; [|split].
  - rewrite update_text_lookup, Ht, decide_False by congruence.
    by rewrite update_lookup_eq, Hrow.
  - rewrite update_text_lookup, Ht, decide_True by done.
    by rewrite update_lookup_ne.
  - intros v Hv1 Hv2.
    rewrite update_text_lookup, Ht, decide_False by congruence.
    by rewrite update_lookup_ne.
Qed.

Lemma stop_with_unreachable_partner_witness :
  let row peer name :=
    {| PEER_ID := Some peer; STATUS := "RANDOM"; TIMER := 120;
       OTP := Some ""; OTP_EXP := None; ANONY_NAME := name |} in
  let db : users :=
    <[ 100 := row "200" "Hidden7K2Q" ]> {[ 200 := row "100" "Secret01AB" ]} in
  let b := {| send_message := fun chat => negb (String.eqb chat "200");
              answer_callback_query := true |} in
  handle_stop_button b db 100 100 !! 100
  = Some (set_STATUS "CLOSED" (row "200" "Hidden7K2Q")).
Proof.
  intros row db b.
  apply (stop_with_unreachable_partner b db 100 100 200
           (row "200" "Hidden7K2Q"));
    [reflexivity | discriminate | discriminate | reflexivity | lia
    | reflexivity..].
Defined.

(** X8. Stop by a broadcaster, or by a caller without PEER_ID, when the
    client answers: only the caller's row changes, to CLOSED with PEER_ID
    NULL.  The listeners of a broadcaster are told, and keep STATUS LISTENER
    and the code of the broadcast. *)
Theorem stop_without_partner_closes_caller_only
    (b : bot) (db : users) (user_id chat_id : Z) (row : user_row) :
  db !! user_id = Some row ->
  STATUS row <> "CLOSED" ->
  STATUS row = "BROADCASTER" \/ Py.truthy (PEER_ID row) = false ->
  answer_callback_query b = true ->
  send_message b (Py.str chat_id) = true ->
  handle_stop_button b db user_id chat_id
  = <[ user_id := closes_peer row ]> db.
Proof.
  intros Hrow Hopen Hcase Hanswer Hchat.
  rewrite (handle_stop_button_open b db user_id chat_id row) by assumption.
  cbv zeta. rewrite Hanswer, Hchat. cbn [negb].
  assert (negb (String.eqb (STATUS row) "BROADCASTER")
          && Py.truthy (PEER_ID row) = false) as ->.
  { destruct Hcase as [-> | ->]; [reflexivity|apply andb_false_r]. }
  apply map_eq. intros v.
  destruct (decide (user_id = v)) as [<-|Hv].
  - by rewrite lookup_insert_eq, !update_lookup_eq, Hrow.
  - by rewrite lookup_insert_ne, !update_lookup_ne.
Qed.

Lemma stop_without_partner_closes_caller_only_witness :
  let caster := {| PEER_ID := Some "099ebe"; STATUS := "BROADCASTER";
                   TIMER := 120; OTP := Some ""; OTP_EXP := None;
                   ANONY_NAME := "Hidden7K2Q" |} in
  let listener := {| PEER_ID := Some "099ebe"; STATUS := "LISTENER";
                     TIMER := 120; OTP := Some ""; OTP_EXP := None;
                     ANONY_NAME := "Secret01AB" |} in
  let db : users := <[ 100 := caster ]> {[ 200 := listener ]} in
  let b := {| send_message := fun _ => true; answer_callback_query := true |} in
  handle_stop_button b db 100 100 = <[ 100 := closes_peer caster ]> db.
Proof.
  intros caster listener db b.
  apply (stop_without_partner_closes_caller_only b db 100 100 caster);
    [reflexivity | discriminate | by left | reflexivity..].
Defined.

(** The rows after a stop in which every call of the client returns. *)
Lemma handle_stop_button_delivered
    (b : bot) (db : users) (user_id chat_id : Z) (row : user_row) (v : Z) :
  (forall t, send_message b t = true) ->
  answer_callback_query b = true ->
  db !! user_id = Some row ->
  STATUS row <> "CLOSED" ->
  handle_stop_button b db user_id chat_id !! v
  = if decide (v = user_id \/ stopped_partner row = Some v)
    then closes_peer <$> db !! v else db !! v.
Proof.
  intros Hsend Hanswer Hrow Hopen.
  rewrite (handle_stop_button_open b db user_id chat_id row) by assumption.
  cbv zeta. rewrite Hanswer, !Hsend. cbn [negb]. unfold stopped_partner.
  destruct (negb (String.eqb (STATUS row) "BROADCASTER")
            && Py.truthy (PEER_ID row)) eqn:Hbranch.
  - unfold peer_of.
    assert (Sql.integer_of_text (default "" (PEER_ID row))
            = match PEER_ID row with
              | Some t => Sql.integer_of_text t
              | None => None
              end) as Ht by (by destruct (PEER_ID row)).
    destruct (decide (v = user_id)) as [->|Hv].
    + rewrite decide_True by (by left).
      rewrite update_lookup_eq, update_text_lookup, Ht, update_lookup_eq, Hrow.
      cbn. case_decide; by destruct row.
    + rewrite update_lookup_ne by done.
      rewrite update_text_lookup, Ht, update_lookup_ne by done.
      case_decide as Hp.
      * by rewrite decide_True by (by right).
      * rewrite decide_False; [done|]. intros [?|?]; congruence.
  - destruct (decide (v = user_id)) as [->|Hv].
    + rewrite decide_True by (by left).
      by rewrite !update_lookup_eq, Hrow.
    + rewrite !update_lookup_ne by done.
      rewrite decide_False; [done|]. intros [?|?]; congruence.
Qed.



End stop.

(** ** Private links, from issue to verification *)

Section private_links.

Import private_connection private_link_verifier.

Lemma extract_parts_generated (otp : string) (user_id : Z) (rnd : padding) :
  String.length otp = 4%nat ->
  extract_parts (generate_connection_string otp user_id rnd)
  = if (String.length (Py.str user_id) <? 5)%nat then None
    else Some (otp, Py.str user_id).
Proof.
  intros Hotp.
  pose proof (length_body otp user_id rnd Hotp) as Hlen.
  rewrite generate_connection_string_body.
  unfold extract_parts.
  change (Py.startswith "/92" (String "/" (String "9" (String "2" ?b))))
    with true.
  cbn iota. unfold Py.slice_from. cbn [String.length].
  rewrite (bound_in _ 3) by lia. cbn [Py.drop].
  destruct (Nat.ltb_spec (String.length (body otp user_id rnd)) 20);
    destruct (Nat.ltb_spec (String.length (Py.str user_id)) 5);
    try lia; [done|].
  by rewrite slice_otp, slice_peer_id.
Qed.

Lemma strip_no_space (s : string) :
  every (fun c => negb (Py.isspace c)) s = true -> Py.strip s = s.
Proof.
  intros Hs. apply strip_trimmed.
  - by apply lstrip_every_not_space.
  - apply lstrip_every_not_space. by rewrite every_rev.
Qed.

Lemma digit_not_space (c : ascii) :
  Py.isdigit c = true -> negb (Py.isspace c) = true.
Proof.
  unfold Py.isdigit, Py.isspace.
  intros [H1 H2]%andb_true_iff. apply N.leb_le in H1, H2.
  apply negb_true_iff, orb_false_iff.
  split; apply andb_false_iff; right; apply N.leb_gt; lia.
Qed.

(** A generated OTP is four digits, and truthy also once stripped. *)
Lemma generate_otp_shape (draw : Z) :
  String.length (generate_otp draw) = 4%nat
  /\ every Py.isdigit (generate_otp draw) = true
  /\ Py.nonempty (Py.strip (generate_otp draw)) = true.
Proof.
  pose proof (randint_range 1000 9999 draw ltac:(lia)) as Hrange.
  destruct (str_digits (Random.randint 1000 9999 draw) ltac:(lia))
    as [Hd Hne].
  split; [apply length_generate_otp|]. split; [exact Hd|].
  unfold generate_otp. rewrite strip_no_space; [exact Hne|].
  revert Hd. apply every_impl, digit_not_space.
Qed.

(** The rows after a new OTP is stored. *)
Lemma check_user_status_fresh (db : users) (user_id : Z) (row : user_row)
    (rnd : draws) :
  db !! user_id = Some row ->
  Py.truthy (PEER_ID row) && String.eqb (STATUS row) "PRIVATE" = false ->
  holds_otp row = false ->
  check_user_status db user_id rnd
  = ({| private_connection.status := "success"; otp := Some (generate_otp (otp_draw rnd));
        connection_string :=
          Some (generate_connection_string (generate_otp (otp_draw rnd))
                  user_id (link_draws rnd)) |},
     <[ user_id := set_OTP (Some (generate_otp (otp_draw rnd)))
                     (set_TIMER 5760 (set_STATUS "PRIVATE" row)) ]> db).
Proof.
  intros Hrow Hfree Hotp. unfold check_user_status. rewrite Hrow.
  cbv zeta. rewrite Hfree. unfold holds_otp in Hotp. rewrite Hotp.
  f_equal. apply map_eq. intros v.
  destruct (decide (user_id = v)) as [<-|Hv].
  - by rewrite lookup_insert_eq, update_lookup_eq, Hrow.
  - by rewrite lookup_insert_ne, update_lookup_ne.
Qed.

(** X10. From issue to verification: the link that [check_user_status]
    returns with a new OTP, presented by another user, is answered
    [confirmation_needed] with the issuer's id -- provided the issuer's id
    is written with at least five characters; the link of an issuer with a
    shorter id is refused as an error. *)
Theorem issued_link_is_verified
    (db : users) (issuer claimant : Z) (row : user_row) (rnd : draws) :
  db !! issuer = Some row ->
  Py.truthy (PEER_ID row) && String.eqb (STATUS row) "PRIVATE" = false ->
  holds_otp row = false ->
  claimant <> issuer ->
  let issued := check_user_status db issuer rnd in
  exists link,
    connection_string issued.1 = Some link
    /\ verify_private_link issued.2 link claimant
       = (if (String.length (Py.str issuer) <? 5)%nat then error
          else {| private_link_verifier.status := "confirmation_needed";
                  peer_id := Some (Py.str issuer) |},
          issued.2).
Proof.
  intros Hrow Hfree Hotp Hother issued. subst issued.
  rewrite (check_user_status_fresh db issuer row rnd) by assumption.
  cbn [fst snd connection_string]. eexists. split; [reflexivity|].
  destruct (generate_otp_shape (otp_draw rnd)) as (Hlen & Hdigits & Hne).
  unfold verify_private_link.
  rewrite extract_parts_generated by exact Hlen.
  destruct (String.length (Py.str issuer) <? 5)%nat; [reflexivity|].
  destruct (String.eqb_spec (Py.str claimant) (Py.str issuer)) as [He|_].
  { by apply str_inj in He. }
  unfold select_where_user_id_text.
  rewrite integer_of_text_str, lookup_insert_eq.
  cbn [OTP set_OTP]. rewrite String.eqb_refl.
  assert (Py.nonempty (generate_otp (otp_draw rnd)) = true) as ->.
  { by destruct (generate_otp (otp_draw rnd)). }
  reflexivity.
Qed.

Lemma issued_link_is_verified_witness :
  let row := {| PEER_ID := Some ""; STATUS := "OPEN"; TIMER := 120;
                OTP := Some ""; OTP_EXP := None;
                ANONY_NAME := "Hidden7K2Q" |} in
  let db : users := {[ 123456789 := row ]} in
  let rnd := {| otp_draw := 3821;
                link_draws := {| six_draw := 1; five_draw := 2 |} |} in
  exists link,
    connection_string (check_user_status db 123456789 rnd).1 = Some link
    /\ verify_private_link (check_user_status db 123456789 rnd).2 link 40000
       = ({| private_link_verifier.status := "confirmation_needed";
             peer_id := Some "123456789" |},
          (check_user_status db 123456789 rnd).2).
Proof.
  intros row db rnd.
  apply (issued_link_is_verified db 123456789 40000 row rnd);
    [reflexivity | reflexivity | reflexivity | lia].
Defined.

(** X11. Nobody is paired with themselves through a link as generated:
    the link of a user, presented by that user, is an error whatever the
    table holds. *)
Theorem own_link_is_refused
    (db : users) (otp_ : string) (user_id : Z) (rnd : padding) :
  String.length otp_ = 4%nat ->
  verify_private_link db (generate_connection_string otp_ user_id rnd) user_id
  = (error, db).
Proof.
  intros Hlen. unfold verify_private_link.
  rewrite extract_parts_generated by exact Hlen.
  destruct (String.length (Py.str user_id) <? 5)%nat; [reflexivity|].
  by rewrite String.eqb_refl.
Qed.

Lemma own_link_is_refused_witness :
  let row := {| PEER_ID := Some ""; STATUS := "PRIVATE"; TIMER := 5760;
                OTP := Some "4821"; OTP_EXP := None;
                ANONY_NAME := "Hidden7K2Q" |} in
  let db : users := {[ 123456789 := row ]} in
  verify_private_link db
    (generate_connection_string "4821" 123456789
       {| six_draw := 1; five_draw := 2 |}) 123456789
  = (error, db).
Proof.
  intros row db.
  apply (own_link_is_refused db "4821" 123456789). reflexivity.
Defined.

(** C7 does not hold of the code.  The scenario of the specification:
    user 300 asks for a private link and user 400 presents it.  Whatever
    the random draws, the link carries the OTP now stored for user 300 and
    the id 300, user 300 exists and is another user than the claimant --
    and [verify_private_link] answers with an error, writing nothing: the
    text after the marker has 18 characters, and the test on its length,
    20 at least, comes before the OTP is looked at.
    [generate_connection_string] writes such a link for every issuer whose
    id has fewer than five digits. *)
Theorem issued_link_of_user_300_is_refused (rnd : draws) :
  let issuer := {| PEER_ID := Some ""; STATUS := "OPEN"; TIMER := 120;
                   OTP := Some ""; OTP_EXP := None;
                   ANONY_NAME := "Hidden7K2Q" |} in
  let claimant := {| PEER_ID := Some ""; STATUS := "OPEN"; TIMER := 120;
                     OTP := Some ""; OTP_EXP := None;
                     ANONY_NAME := "Secret01AB" |} in
  let db : users := <[ 300 := issuer ]> {[ 400 := claimant ]} in
  let issued := check_user_status db 300 rnd in
  exists link otp_from_link,
    connection_string issued.1 = Some link
    /\ String.length (Py.slice_from 3 link) = 18%nat
    /\ Py.slice 6 10 (Py.slice_from 3 link) = otp_from_link
    /\ Py.slice 10 (-5) (Py.slice_from 3 link) = "300"
    /\ OTP <$> issued.2 !! 300 = Some (Some otp_from_link)
    /\ verify_private_link issued.2 link 400 = (error, issued.2).
Proof.
  intros issuer claimant db issued. subst issued.
  rewrite (check_user_status_fresh db 300 issuer rnd) by reflexivity.
  cbn [fst snd connection_string].
  destruct (generate_otp_shape (otp_draw rnd)) as (Hlen & _ & _).
  exists (generate_connection_string (generate_otp (otp_draw rnd)) 300
            (link_draws rnd)), (generate_otp (otp_draw rnd)).
  split; [reflexivity|].
  assert (Py.slice_from 3
            (generate_connection_string (generate_otp (otp_draw rnd)) 300
               (link_draws rnd))
          = body (generate_otp (otp_draw rnd)) 300 (link_draws rnd)) as ->.
  { pose proof (length_body _ 300 (link_draws rnd) Hlen) as Hbody.
    rewrite generate_connection_string_body.
    unfold Py.slice_from. cbn [String.length].
    by rewrite (bound_in _ 3) by lia. }
  split; [by rewrite length_body|].
  split; [by apply slice_otp|].
  split; [by rewrite slice_peer_id|].
  split; [by rewrite lookup_insert_eq|].
  unfold verify_private_link.
  by rewrite extract_parts_generated by exact Hlen.
Qed.



(** X13. Asking for a link twice.  A user without a live OTP, and not
    PRIVATE with a peer, gets a new OTP and becomes PRIVATE with TIMER 5760,
    PEER_ID being left as it is.  The second request changes nothing; it is
    answered with the same OTP, unless a PEER_ID was left in the row: then
    the user, now PRIVATE, is told to be connected already and gets no
    link. *)
Theorem second_request_after_new_otp
    (db : users) (user_id : Z) (row : user_row) (rnd1 rnd2 : draws) :
  db !! user_id = Some row ->
  Py.truthy (PEER_ID row) && String.eqb (STATUS row) "PRIVATE" = false ->
  holds_otp row = false ->
  let first := check_user_status db user_id rnd1 in
  let second := check_user_status first.2 user_id rnd2 in
  let new_otp := generate_otp (otp_draw rnd1) in
  private_connection.status first.1 = "success"
  /\ otp first.1 = Some new_otp
  /\ first.2 !! user_id
     = Some (set_OTP (Some new_otp)
               (set_TIMER 5760 (set_STATUS "PRIVATE" row)))
  /\ (forall v, v <> user_id -> first.2 !! v = db !! v)
  /\ second.2 = first.2
  /\ second.1
     = if Py.truthy (PEER_ID row)
       then {| private_connection.status := "already_connected"; otp := None;
               connection_string := None |}
       else {| private_connection.status := "otp_exists"; otp := Some new_otp;
               connection_string :=
                 Some (generate_connection_string new_otp user_id
                         (link_draws rnd2)) |}.
Proof.
  intros Hrow Hfree Hotp first second new_otp. subst first second new_otp.
  rewrite (check_user_status_fresh db user_id row rnd1) by assumption.
  cbn [fst snd private_connection.status otp].
  split; [reflexivity|]. split; [reflexivity|].
  split; [by rewrite lookup_insert_eq|].
  split; [by intros v Hv; rewrite lookup_insert_ne|].
  destruct (generate_otp_shape (otp_draw rnd1)) as (Hlen & _ & Hne).
  unfold check_user_status. rewrite lookup_insert_eq. cbv zeta.
  cbn [PEER_ID STATUS OTP set_OTP set_TIMER set_STATUS].
  change (String.eqb "PRIVATE" "PRIVATE") with true. rewrite andb_true_r.
  destruct (Py.truthy (PEER_ID row)); [by split|].
  change (default "" (Some (generate_otp (otp_draw rnd1))))
    with (generate_otp (otp_draw rnd1)).
  rewrite Hne, andb_true_r.
  assert (Py.truthy (Some (generate_otp (otp_draw rnd1))) = true) as ->.
  { cbn [Py.truthy]. by destruct (generate_otp (otp_draw rnd1)). }
  by split.
Qed.

Lemma second_request_after_new_otp_witness :
  let row := {| PEER_ID := Some "200"; STATUS := "OPEN"; TIMER := 120;
                OTP := Some ""; OTP_EXP := None;
                ANONY_NAME := "Hidden7K2Q" |} in
  let db : users := {[ 123456789 := row ]} in
  let rnd := {| otp_draw := 3821;
                link_draws := {| six_draw := 1; five_draw := 2 |} |} in
  (check_user_status (check_user_status db 123456789 rnd).2 123456789 rnd).1
  = {| private_connection.status := "already_connected"; otp := None;
       connection_string := None |}.
Proof.
  intros row db rnd.
  apply (second_request_after_new_otp db 123456789 row rnd rnd);
    reflexivity.
Defined.

(** X14. [generate_random_number] asked for [k >= 1] digits returns exactly
    [k] digits. *)
Theorem generate_random_number_digits (k : nat) (draw : Z) :
  (0 < k)%nat ->
  String.length (generate_random_number (Z.of_nat k) draw) = k
  /\ every Py.isdigit (generate_random_number (Z.of_nat k) draw) = true.
Proof.
  intros Hk. destruct k as [|k]; [lia|]. unfold generate_random_number.
  cbv zeta.
  replace (Z.of_nat (S k) - 1) with (Z.of_nat k) by lia.
  assert (0 < 10 ^ Z.of_nat k) as Hpos by (apply Z.pow_pos_nonneg; lia).
  assert (10 ^ Z.of_nat (S k) = 10 * 10 ^ Z.of_nat k) as Hsucc.
  { rewrite Nat2Z.inj_succ. apply Z.pow_succ_r. lia. }
  pose proof (randint_range (10 ^ Z.of_nat k) (10 ^ Z.of_nat (S k) - 1) draw
                ltac:(lia)) as Hrange.
  split.
  - apply length_str. lia.
  - apply str_digits. lia.
Qed.

Lemma generate_random_number_digits_witness :
  String.length (generate_random_number (Z.of_nat 6) 123456789) = 6%nat.
Proof. apply (generate_random_number_digits 6 123456789). lia. Defined.

End private_links.

(** ** Every outcome of a random match *)

Section random_match_outcomes.

Import random_connection.

(** The answer and the table, by cases on the answer. *)
Lemma find_random_partner_cases (db : users) (user_id : Z) (draw : nat) :
  let answer := find_random_partner db user_id draw in
  (answer.1 = {| status := "error"; partner_id := None |}
   /\ answer.2 = db
   /\ (forall r, db !! user_id = Some r -> ~ In (STATUS r) ["OPEN"; "IDLE"]))
  \/ (answer.1 = {| status := "waiting"; partner_id := None |}
      /\ answer.2 = update_where_user_id (set_STATUS "OPEN") user_id db
      /\ (exists r, db !! user_id = Some r /\ In (STATUS r) ["OPEN"; "IDLE"])
      /\ (forall v rv, db !! v = Some rv -> v <> user_id ->
                       STATUS rv <> "OPEN"))
  \/ (exists partner r rp,
        answer.1 = {| status := "success"; partner_id := Some partner |}
        /\ partner <> user_id
        /\ db !! user_id = Some r /\ In (STATUS r) ["OPEN"; "IDLE"]
        /\ db !! partner = Some rp /\ STATUS rp = "OPEN"
        /\ answer.2 !! user_id
           = Some (set_STATUS "RANDOM"
                     (set_PEER_ID (Some (Py.str partner)) r))
        /\ answer.2 !! partner
           = Some (set_STATUS "RANDOM"
                     (set_PEER_ID (Some (Py.str user_id)) rp))
        /\ (forall v, v <> user_id -> v <> partner ->
                      answer.2 !! v = db !! v)).
Proof.
  cbv zeta. unfold find_random_partner.
  destruct (db !! user_id) as [row|] eqn:Hrow; [|by left].
  destruct (status_in (STATUS row) ["OPEN"; "IDLE"]) eqn:Hst; cycle 1.
  { left. split; [done|]. split; [done|]. intros r [= <-] Hin.
    apply status_in_spec in Hin. congruence. }
  apply status_in_spec in Hst. cbn [negb].
  destruct (available_users db user_id) as [|first l] eqn:Hav.
  - right. left. split; [done|]. split; [|split].
    + cbn [snd]. destruct (String.eqb_spec (STATUS row) "OPEN") as [Ho|Ho].
      * cbn [negb]. symmetry.
        apply (update_same _ _ _ row); [done|by apply set_STATUS_same].
      * reflexivity.
    + by exists row.
    + intros v rv Hv Hne Ho.
      assert (In v (available_users db user_id)) as Hin
        by (apply available_users_spec; eauto).
      by rewrite Hav in Hin.
  - right. right.
    set (partner := default first (Random.choice (first :: l) draw)).
    assert (In partner (available_users db user_id)) as Hin.
    { rewrite Hav. by apply choice_in. }
    apply available_users_spec in Hin as (rp & Hrp & Hs & Hne).
    exists partner, row, rp. cbn [fst snd].
    split; [done|]. split; [done|]. split; [done|]. split; [done|].
    split; [done|]. split; [done|]. split; [|split].
    + rewrite update_lookup_ne by done. by rewrite update_lookup_eq, Hrow.
    + rewrite update_lookup_eq, update_lookup_ne by done. by rewrite Hrp.
    + intros v Hv1 Hv2. by rewrite !update_lookup_ne.
Qed.

(** X15. The three outcomes of [find_random_partner].  An error, for an
    unknown requester or one who is neither OPEN nor IDLE, changes nothing.
    [waiting] means that no other user is OPEN, and leaves the requester
    OPEN.  [success] names another user, who was OPEN: both rows get STATUS
    RANDOM and the other's id as PEER_ID, and no third row changes. *)
Theorem find_random_partner_outcomes (db : users) (user_id : Z) (draw : nat) :
  let answer := find_random_partner db user_id draw in
  (answer.1 = {| status := "error"; partner_id := None |}
   /\ answer.2 = db
   /\ (forall r, db !! user_id = Some r -> ~ In (STATUS r) ["OPEN"; "IDLE"]))
  \/ (answer.1 = {| status := "waiting"; partner_id := None |}
      /\ answer.2 = update_where_user_id (set_STATUS "OPEN") user_id db
      /\ (exists r, db !! user_id = Some r /\ In (STATUS r) ["OPEN"; "IDLE"])
      /\ (forall v rv, db !! v = Some rv -> v <> user_id ->
                       STATUS rv <> "OPEN"))
  \/ (exists partner r rp,
        answer.1 = {| status := "success"; partner_id := Some partner |}
        /\ partner <> user_id
        /\ db !! user_id = Some r /\ In (STATUS r) ["OPEN"; "IDLE"]
        /\ db !! partner = Some rp /\ STATUS rp = "OPEN"
        /\ answer.2 !! user_id
           = Some (set_STATUS "RANDOM"
                     (set_PEER_ID (Some (Py.str partner)) r))
        /\ answer.2 !! partner
           = Some (set_STATUS "RANDOM"
                     (set_PEER_ID (Some (Py.str user_id)) rp))
        /\ (forall v, v <> user_id -> v <> partner ->
                      answer.2 !! v = db !! v)).
Proof. exact (find_random_partner_cases db user_id draw). Qed.

End random_match_outcomes.

(** ** The columns an operation leaves alone *)

Section columns.

Context {A : Type} (col : user_row -> A).
Hypothesis col_STATUS : forall v r, col (set_STATUS v r) = col r.
Hypothesis col_PEER_ID : forall v r, col (set_PEER_ID v r) = col r.

Lemma keeps_refl (db : users) : keeps col db db.
Proof. by intros v. Qed.

Lemma keeps_trans (db1 db2 db3 : users) :
  keeps col db1 db2 -> keeps col db2 db3 -> keeps col db1 db3.
Proof. intros H12 H23 v. by rewrite H23, H12. Qed.

Lemma keeps_update (f : user_row -> user_row) (u : Z) (db : users) :
  (forall r, col (f r) = col r) ->
  keeps col db (update_where_user_id f u db).
Proof.
  intros Hf v. rewrite update_lookup. case_decide; [subst v|done].
  destruct (db !! u); [cbn; by rewrite Hf | done].
Qed.

Lemma keeps_update_text (f : user_row -> user_row) (t : string) (db : users) :
  (forall r, col (f r) = col r) ->
  keeps col db (update_where_user_id_text f t db).
Proof.
  intros Hf. unfold update_where_user_id_text.
  destruct (Sql.integer_of_text t); [by apply keeps_update | apply keeps_refl].
Qed.

Lemma keeps_closes_peer (r : user_row) : col (anony_number.closes_peer r) = col r.
Proof. unfold anony_number.closes_peer. by rewrite col_PEER_ID, col_STATUS. Qed.

Lemma keeps_random_match (db : users) (user_id : Z) (draw : nat) :
  keeps col db (random_connection.find_random_partner db user_id draw).2.
Proof.
  unfold random_connection.find_random_partner.
  destruct (db !! user_id) as [row|]; [|apply keeps_refl].
  destruct (negb _); [apply keeps_refl|].
  destruct (random_connection.available_users db user_id) as [|first l].
  - cbn [snd]. destruct (negb _); [|apply keeps_refl].
    apply keeps_update. intros r. apply col_STATUS.
  - cbn [snd]. eapply keeps_trans; apply keeps_update; intros r; cbv beta;
      by rewrite col_STATUS, col_PEER_ID.
Qed.

Lemma keeps_disconnect_current_peer (b : bot) (data : option user_row)
    (db : users) :
  keeps col db (anony_number.disconnect_current_peer b data db).
Proof.
  unfold anony_number.disconnect_current_peer.
  destruct data as [row|]; [|apply keeps_refl].
  destruct (_ && _); [|apply keeps_refl].
  destruct (send_message b _); [|apply keeps_refl].
  apply keeps_update_text, keeps_closes_peer.
Qed.

Lemma keeps_accept (b : bot) (db : users) (action : string)
    (requester_id responder_id : Z) :
  keeps col db
    (anony_number.handle_an_connection_response b db action
       requester_id responder_id).
Proof.
  unfold anony_number.handle_an_connection_response.
  destruct (String.eqb action "decline"); [apply keeps_refl|]. cbv zeta.
  eapply keeps_trans; [|apply keeps_update].
  eapply keeps_trans; [|apply keeps_update].
  eapply keeps_trans; apply keeps_disconnect_current_peer.
  all: intros r; cbv beta; by rewrite col_PEER_ID, col_STATUS.
Qed.

Lemma keeps_join (db : users) (text : string) (user_id : Z) :
  keeps col db
    (process_broadcasting.process_broadcasting_channel_id db text user_id).
Proof.
  unfold process_broadcasting.process_broadcasting_channel_id. cbv zeta.
  destruct (negb _); [apply keeps_refl|].
  destruct (negb _); [apply keeps_refl|].
  apply keeps_update. intros r. cbv beta. by rewrite col_STATUS, col_PEER_ID.
Qed.

Lemma keeps_stop (b : bot) (db : users) (user_id chat_id : Z) :
  keeps col db (controls_anonybot.handle_stop_button b db user_id chat_id).
Proof.
  unfold controls_anonybot.handle_stop_button,
    controls_anonybot.update_user_status.
  destruct (bool_decide _); [apply keeps_refl|].
  destruct (db !! user_id) as [row|]; [|apply keeps_refl]. cbv zeta.
  assert (keeps col db
            (update_where_user_id (set_STATUS "CLOSED") user_id db)) as H1
    by (apply keeps_update; intros r; apply col_STATUS).
  destruct (negb (answer_callback_query b)); [exact H1|].
  destruct (negb (send_message b (Py.str chat_id))); [exact H1|].
  destruct (_ && _).
  - assert (keeps col db
              (update_where_user_id_text
                 (fun r => set_PEER_ID None (set_STATUS "CLOSED" r))
                 (default "" (PEER_ID row))
                 (update_where_user_id (set_STATUS "CLOSED") user_id db)))
      as H2.
    { eapply keeps_trans; [exact H1|].
      apply keeps_update_text. intros r. cbv beta. by rewrite col_PEER_ID, col_STATUS. }
    destruct (negb (send_message b _)); [exact H2|].
    eapply keeps_trans; [exact H2|].
    apply keeps_update. intros r. apply col_PEER_ID.
  - eapply keeps_trans; [exact H1|].
    apply keeps_update. intros r. apply col_PEER_ID.
Qed.

Lemma keeps_forward (db : users) (user_id : Z) :
  keeps col db (controls_anonybot.handle_forward_button db user_id).
Proof.
  unfold controls_anonybot.handle_forward_button,
    controls_anonybot.update_user_status.
  destruct (bool_decide _); [|apply keeps_refl].
  apply keeps_update. intros r. apply col_STATUS.
Qed.

Lemma keeps_issue (db : users) (user_id : Z)
    (rnd : private_connection.draws) :
  (forall v r, col (set_TIMER v r) = col r) ->
  (forall v r, col (set_OTP v r) = col r) ->
  keeps col db (private_connection.check_user_status db user_id rnd).2.
Proof.
  intros col_TIMER col_OTP. unfold private_connection.check_user_status.
  destruct (db !! user_id) as [row|]; [|apply keeps_refl]. cbv zeta.
  destruct (_ && _); [apply keeps_refl|].
  destruct (_ && _); [apply keeps_refl|].
  apply keeps_update. intros r. cbv beta. by rewrite col_OTP, col_TIMER, col_STATUS.
Qed.

Lemma keeps_expire (db : users) (user_id : Z) :
  (forall v r, col (set_OTP v r) = col r) ->
  (forall v r, col (set_OTP_EXP v r) = col r) ->
  keeps col db (otp_clean.clean_otp db user_id).
Proof.
  intros col_OTP col_OTP_EXP. unfold otp_clean.clean_otp.
  destruct (db !! user_id) as [row|]; [|apply keeps_refl]. cbv zeta.
  destruct (status_in _ _); [apply keeps_refl|].
  apply keeps_update. intros r. cbv beta. by rewrite col_OTP_EXP, col_OTP.
Qed.

(** The operations that write neither TIMER nor OTP. *)
Lemma keeps_run (b : bot) (db : users) (o : operation) :
  writes_otp o = false -> keeps col db (run b db o).
Proof.
  destruct o; cbn [writes_otp run]; intros Hw; try discriminate Hw.
  - apply keeps_random_match.
  - rewrite verify_private_link_frame. apply keeps_refl.
  - apply keeps_accept.
  - apply keeps_join.
  - apply keeps_stop.
  - apply keeps_forward.
Qed.

End columns.

(** X16. No operation of the engine adds or removes a user, and none
    changes an ANONY_NAME.  TIMER is written by the issue of a private link
    only; OTP and OTP_EXP by the issue of a link and by the OTP cleanup
    only: connecting, joining a broadcast, stopping and resuming leave a
    stored OTP where it is. *)
Theorem columns_left_alone (b : bot) (db : users) (o : operation) :
  (forall v, is_Some (run b db o !! v) <-> is_Some (db !! v))
  /\ keeps ANONY_NAME db (run b db o)
  /\ (writes_timer o = false -> keeps TIMER db (run b db o))
  /\ (writes_otp o = false ->
      keeps OTP db (run b db o) /\ keeps OTP_EXP db (run b db o)).
Proof.
  assert (keeps ANONY_NAME db (run b db o)) as Hnames.
  { destruct (writes_otp o) eqn:Hw; [|by apply keeps_run].
    destruct o; try discriminate Hw; cbn [run].
    - by apply keeps_issue.
    - by apply keeps_expire. }
  split; [|split; [exact Hnames|split]].
  - intros v. rewrite <- !(fmap_is_Some ANONY_NAME). by rewrite Hnames.
  - intros Hw. destruct (writes_otp o) eqn:Hw'; [|by apply keeps_run].
    destruct o; try discriminate Hw; try discriminate Hw'; cbn [run].
    by apply keeps_expire.
  - intros Hw. split; by apply keeps_run.
Qed.

Lemma columns_left_alone_witness :
  let issuer := {| PEER_ID := Some "200"; STATUS := "PRIVATE"; TIMER := 5760;
                   OTP := Some "4821"; OTP_EXP := None;
                   ANONY_NAME := "Hidden7K2Q" |} in
  let other := {| PEER_ID := Some "100"; STATUS := "PRIVATE"; TIMER := 120;
                  OTP := Some ""; OTP_EXP := None;
                  ANONY_NAME := "Secret01AB" |} in
  let db : users := <[ 100 := issuer ]> {[ 200 := other ]} in
  let b := {| send_message := fun _ => true; answer_callback_query := true |} in
  keeps OTP db (run b db (Disconnect 100 100)).
Proof.
  intros issuer other db b.
  destruct (columns_left_alone b db (Disconnect 100 100))
    as (_ & _ & _ & Hotp).
  by destruct (Hotp eq_refl).
Defined.

(** ** An accepted request whose notification is not delivered *)

Section unreachable_peer.

Import anony_number.





(** C6 does not hold of the code.  User 100 is connected to 200 and user
    300 to 400, a table that satisfies the symmetric pairing invariant, and
    the client cannot reach user 200.  User 100 accepts the request of
    user 300: user 400 is closed and users 100 and 300 are connected to
    each other, but the row of user 200 is left as it was, RANDOM with
    PEER_ID 100, and the pairing is no longer symmetric.  In
    [handle_an_connection_response] the UPDATE of the former peer comes
    after its notification inside one [try], and is skipped with it.  With
    the same client [handle_stop_button], which updates before it notifies,
    does close user 200. *)
Theorem unreachable_former_peer_is_not_closed :
  let row peer name :=
    {| PEER_ID := Some peer; STATUS := "RANDOM"; TIMER := 120;
       OTP := Some ""; OTP_EXP := None; ANONY_NAME := name |} in
  let db : users :=
    <[ 100 := row "200" "Hidden7K2Q" ]>
      (<[ 200 := row "100" "Secret01AB" ]>
         (<[ 300 := row "400" "Unknown9ZZZ" ]>
            {[ 400 := row "300" "Anonymous0000" ]})) in
  let b := {| send_message := fun chat => negb (String.eqb chat "200");
              answer_callback_query := true |} in
  let db' := handle_an_connection_response b db "accept" 300 100 in
  symmetric_pairing db
  /\ db' !! 200 = Some (row "100" "Secret01AB")
  /\ db' !! 400 = Some (closes_peer (row "300" "Anonymous0000"))
  /\ db' !! 100 = Some (connects_to 300 (row "200" "Hidden7K2Q"))
  /\ db' !! 300 = Some (connects_to 100 (row "400" "Unknown9ZZZ"))
  /\ ~ symmetric_pairing db'
  /\ controls_anonybot.handle_stop_button b db 100 100 !! 200
     = Some (closes_peer (row "100" "Secret01AB")).
Proof.
  intros row db b db'.
  assert (db' !! 200 = Some (row "100" "Secret01AB")) as H200
    by (by vm_compute).
  assert (db' !! 100 = Some (connects_to 300 (row "200" "Hidden7K2Q")))
    as H100 by (by vm_compute).
  split; [|split; [exact H200|]].
  { intros A B ra rb HA HB Hbil Hpeer. unfold db in HA, HB.
    each_row HA; each_row HB; try discriminate Hpeer; by vm_compute. }
  split; [by vm_compute|]. split; [exact H100|].
  split; [by vm_compute|]. split; [|by vm_compute].
  intros Hsym.
  destruct (Hsym 200 100 _ _ H200 H100 eq_refl eq_refl) as (Hback & _).
  vm_compute in Hback. discriminate Hback.
Qed.

End unreachable_peer.

(** ** Reading back what the handlers write into texts *)

Section reading_back.

Lemma int_str (z : Z) : Py.int (Py.str z) = Some z.
Proof.
  pose proof (integer_of_text_str z) as Hsql.
  destruct (decide (0 <= z)) as [Hz|Hz].
  - destruct (str_digits z Hz) as [Hd Hne].
    unfold Py.int. rewrite strip_no_space
      by (revert Hd; apply every_impl, digit_not_space).
    destruct (Py.str z) as [|c s] eqn:Hs; [discriminate Hne|].
    assert (Py.isdigit c = true) as Hc.
    { unfold every in Hd. cbn [list_ascii_of_string forallb] in Hd.
      by apply andb_true_iff in Hd as [Hc _]. }
    unfold Sql.integer_of_text in Hsql.
    destruct (Ascii.eqb_spec c "-"%char) as [->|_]; [discriminate Hc|].
    destruct (Ascii.eqb_spec c "+"%char) as [->|_]; [discriminate Hc|].
    by rewrite int_digits_digits_value by (done || by left).
  - rewrite str_negative in * by lia.
    destruct (str_digits (- z) ltac:(lia)) as [Hd Hne].
    unfold Py.int. rewrite strip_no_space; cycle 1.
    { unfold every. cbn [list_ascii_of_string forallb].
      apply andb_true_iff. split; [reflexivity|].
      revert Hd. apply every_impl, digit_not_space. }
    unfold Sql.integer_of_text in Hsql.
    change (Ascii.eqb "-" "-") with true in *. cbv iota in *.
    rewrite Hne in Hsql.
    by rewrite int_digits_digits_value by (done || by left).
Qed.

Lemma split_piece (sep : ascii) (s : string) :
  every (fun c => negb (Ascii.eqb c sep)) s = true ->
  Py.split sep s = [s].
Proof.
  unfold every. induction s as [|c s IH]; [done|].
  cbn [list_ascii_of_string forallb Py.split].
  intros [Hc Hs]%andb_true_iff. apply negb_true_iff in Hc.
  by rewrite Hc, IH.
Qed.

Lemma split_app (sep : ascii) (a b : string) :
  every (fun c => negb (Ascii.eqb c sep)) a = true ->
  Py.split sep (a ++ String sep b) = a :: Py.split sep b.
Proof.
  unfold every. induction a as [|c a IH].
  - intros _. change ("" ++ String sep b) with (String sep b).
    cbn [Py.split]. by rewrite Ascii.eqb_refl.
  - cbn [list_ascii_of_string forallb].
    intros [Hc Ha]%andb_true_iff. apply negb_true_iff in Hc.
    change (String c a ++ String sep b) with (String c (a ++ String sep b)).
    cbn [Py.split]. by rewrite Hc, IH.
Qed.

Lemma word_run_words (s : string) :
  every Py.isword s = true -> Py.word_run s = s.
Proof.
  unfold every. induction s as [|c s IH]; [done|].
  cbn [list_ascii_of_string forallb Py.word_run].
  intros [Hc Hs]%andb_true_iff. by rewrite Hc, IH.
Qed.

Lemma alnum_is_word (c : ascii) : Py.isalnum c = true -> Py.isword c = true.
Proof. unfold Py.isword. by intros ->. Qed.

Lemma alnum_is_not_underscore (c : ascii) :
  Py.isalnum c = true -> negb (Ascii.eqb c "_") = true.
Proof.
  destruct (Ascii.eqb_spec c "_"%char) as [->|]; [discriminate|done].
Qed.

Lemma digit_is_not_underscore (c : ascii) :
  Py.isdigit c = true -> negb (Ascii.eqb c "_") = true.
Proof.
  destruct (Ascii.eqb_spec c "_"%char) as [->|]; [discriminate|done].
Qed.

(** The decimal text of an integer holds no underscore. *)
Lemma str_no_underscore (z : Z) :
  every (fun c => negb (Ascii.eqb c "_")) (Py.str z) = true.
Proof.
  assert (forall n, 0 <= n ->
            every (fun c => negb (Ascii.eqb c "_")) (Py.str n) = true) as Hpos.
  { intros n Hn. destruct (str_digits n Hn) as [Hd _]. revert Hd.
    apply every_impl, digit_is_not_underscore. }
  destruct (decide (0 <= z)) as [Hz|Hz]; [by apply Hpos|].
  rewrite str_negative by lia. unfold every.
  cbn [list_ascii_of_string forallb]. apply andb_true_iff.
  split; [reflexivity|]. apply Hpos. lia.
Qed.

End reading_back.

(** ** Registration *)

Section registration.

(** X18. Every name that [ANONY_NAME] generates is one of the five
    telegram_db_manager.prefixes followed by four characters, all of them letters or digits:
    it holds no underscore and no white space. *)
Theorem generated_name_is_alphanumeric (rnd : telegram_db_manager.name_draws) :
  let name := telegram_db_manager.ANONY_NAME rnd in
  every Py.isalnum name = true
  /\ (exists prefix suffix,
        name = prefix ++ suffix /\ In prefix telegram_db_manager.prefixes
        /\ String.length suffix = 4%nat)
  /\ Py.nonempty name = true.
Proof.
  cbv zeta. unfold telegram_db_manager.ANONY_NAME.
  destruct (drawn_characters Py.isalnum telegram_db_manager.suffix_characters (telegram_db_manager.suffix_draws rnd)
              (seq 0 4)) as [Hp Hlen]; [reflexivity..|].
  cbv zeta in Hp, Hlen.
  destruct (choice_characters telegram_db_manager.prefixes (telegram_db_manager.prefix_draw rnd))
    as (prefix & -> & Hin); [done|].
  cbn [default from_option id].
  split; [|split].
  - rewrite every_app, Hp, andb_true_r.
    cbn [telegram_db_manager.prefixes In] in Hin.
    destruct Hin as [<-|[<-|[<-|[<-|[<-|[]]]]]]; reflexivity.
  - by eexists _, _.
  - cbn [telegram_db_manager.prefixes In] in Hin.
    destruct Hin as [<-|[<-|[<-|[<-|[<-|[]]]]]]; reflexivity.
Qed.

(** X19. Registration.  A user who has a row keeps it, as the whole table
    is kept; a new user gets a row with STATUS OPEN, TIMER 120, empty
    PEER_ID and OTP and a generated name, the other rows being kept.  The
    rule that a live OTP means STATUS PRIVATE survives registration. *)
Theorem registration_adds_an_open_row
    (db : users) (user_id : Z) (rnd : telegram_db_manager.name_draws) :
  let answer := telegram_db_manager.add_user_to_users_table db user_id rnd in
  answer.1 = true
  /\ (is_Some (db !! user_id) -> answer.2 = db)
  /\ (db !! user_id = None ->
      answer.2 !! user_id
      = Some {| PEER_ID := Some ""; STATUS := "OPEN"; TIMER := 120;
                OTP := Some ""; OTP_EXP := None;
                ANONY_NAME := telegram_db_manager.ANONY_NAME rnd |}
      /\ (forall v, v <> user_id -> answer.2 !! v = db !! v))
  /\ (live_otp_is_private db -> live_otp_is_private answer.2).
Proof.
  cbv zeta. unfold telegram_db_manager.add_user_to_users_table.
  destruct (db !! user_id) as [row|] eqn:Hrow.
  - split; [done|]. split; [done|]. split; [done|]. done.
  - cbn [fst snd]. split; [done|].
    split; [by intros [? ?]|]. split.
    + intros _. split; [by rewrite lookup_insert_eq|].
      intros v Hv. by rewrite lookup_insert_ne.
    + intros Hlive v r Hv Hotp.
      apply lookup_insert_Some in Hv as [[<- <-]|[_ Hv]];
        [discriminate Hotp | by apply (Hlive v r)].
Qed.

Lemma registration_adds_an_open_row_witness :
  let row := {| PEER_ID := Some ""; STATUS := "IDLE"; TIMER := 120;
                OTP := Some ""; OTP_EXP := None;
                ANONY_NAME := "Hidden7K2Q" |} in
  let db : users := {[ 100 := row ]} in
  let rnd := {| telegram_db_manager.prefix_draw := 3;
                telegram_db_manager.suffix_draws := fun i => i |} in
  (telegram_db_manager.add_user_to_users_table db 200 rnd).2 !! 200
  = Some {| PEER_ID := Some ""; STATUS := "OPEN"; TIMER := 120;
            OTP := Some ""; OTP_EXP := None; ANONY_NAME := "SecretABCD" |}.
Proof.
  intros row db rnd.
  destruct (registration_adds_an_open_row db 200 rnd) as (_ & _ & Hnew & _).
  by destruct (Hnew eq_refl).
Defined.

(** X20. A user who has just been registered can be matched at once: the
    next request for a random match of any other user who is OPEN or IDLE
    succeeds, and both users end RANDOM. *)
Theorem registered_user_can_be_matched
    (db : users) (newcomer requester : Z) (rnd : telegram_db_manager.name_draws)
    (row : user_row) (draw : nat) :
  db !! newcomer = None ->
  db !! requester = Some row ->
  In (STATUS row) ["OPEN"; "IDLE"] ->
  let registered := (telegram_db_manager.add_user_to_users_table db newcomer rnd).2 in
  let answer := random_connection.find_random_partner registered requester draw in
  exists partner,
    answer.1 = {| random_connection.status := "success";
                  random_connection.partner_id := Some partner |}
    /\ partner <> requester
    /\ STATUS <$> answer.2 !! partner = Some "RANDOM"
    /\ STATUS <$> answer.2 !! requester = Some "RANDOM".
Proof.
  intros Hnew Hreq Hst registered answer.
  assert (requester <> newcomer) as Hne by congruence.
  assert (registered !! newcomer
          = Some (Build_user_row (Some "") "OPEN" 120 (Some "") None
                    (telegram_db_manager.ANONY_NAME rnd))) as Hrow.
  { subst registered. unfold telegram_db_manager.add_user_to_users_table. rewrite Hnew.
    cbn [snd]. by rewrite lookup_insert_eq. }
  assert (registered !! requester = Some row) as Hreq'.
  { subst registered. unfold telegram_db_manager.add_user_to_users_table. rewrite Hnew.
    cbn [snd]. by rewrite lookup_insert_ne. }
  destruct (find_random_partner_cases registered requester draw)
    as [(_ & _ & Herr)|[(_ & _ & _ & Hnone)|Hok]].
  - exfalso. by apply (Herr row).
  - exfalso. by apply (Hnone newcomer _ Hrow).
  - destruct Hok as (partner & r & rp & Hans & Hp & _ & _ & _ & _ & Hu & Hpp & _).
    exists partner. subst answer.
    split; [exact Hans|]. split; [exact Hp|].
    by rewrite Hpp, Hu.
Qed.

Lemma registered_user_can_be_matched_witness :
  let row := {| PEER_ID := Some ""; STATUS := "IDLE"; TIMER := 120;
                OTP := Some ""; OTP_EXP := None;
                ANONY_NAME := "Hidden7K2Q" |} in
  let db : users := {[ 100 := row ]} in
  let rnd := {| telegram_db_manager.prefix_draw := 3; telegram_db_manager.suffix_draws := fun i => i |} in
  exists partner,
    (random_connection.find_random_partner
       (telegram_db_manager.add_user_to_users_table db 200 rnd).2 100 0).1
    = {| random_connection.status := "success";
         random_connection.partner_id := Some partner |}
    /\ partner <> 100
    /\ STATUS <$> (random_connection.find_random_partner
                     (telegram_db_manager.add_user_to_users_table db 200 rnd).2 100 0).2
                  !! partner = Some "RANDOM"
    /\ STATUS <$> (random_connection.find_random_partner
                     (telegram_db_manager.add_user_to_users_table db 200 rnd).2 100 0).2
                  !! 100 = Some "RANDOM".
Proof.
  intros row db rnd.
  apply (registered_user_can_be_matched db 200 100 rnd row 0);
    [reflexivity | reflexivity | by right; left].
Defined.

End registration.

(** ** Anonymous numbers: from the number shown to the request *)

Section anonymous_numbers.

Import anony_number.

Lemma match_an_number (name : string) :
  every Py.isword name = true -> Py.nonempty name = true ->
  match_an ("/AN" ++ name) = Some name.
Proof.
  intros Hw Hne. unfold match_an.
  change (Py.startswith "/AN" ("/AN" ++ name)) with true. cbv iota.
  change (Py.drop 3 ("/AN" ++ name)) with name.
  by rewrite word_run_words, Hne.
Qed.

(** X21. Sharing an anonymous number, link by link: the number that
    [show_anony_number] shows, the data of its button "Yes" read by
    [handle_share_decision], the data of the button "View" read by
    [handle_save_decision], and the number shown to the partner read by
    [handle_an_command] all carry the same name and the same user id,
    whenever the name is made of letters and digits. *)
Theorem shared_number_reaches_the_partner
    (db : users) (user_id : Z) (row : user_row) :
  db !! user_id = Some row ->
  Py.startswith "5768243722" (Py.str user_id) = false ->
  every Py.isalnum (ANONY_NAME row) = true ->
  Py.nonempty (ANONY_NAME row) = true ->
  status_in (STATUS row) ["RANDOM"; "PRIVATE"] = true ->
  Py.truthy (PEER_ID row) = true ->
  exists share_data save_data,
    show_anony_number db user_id
    = Some ("/AN" ++ ANONY_NAME row, Some share_data)
    /\ handle_share_decision db share_data user_id
       = Some (default "" (PEER_ID row), save_data)
    /\ handle_save_decision save_data
       = Some (user_id, "/AN" ++ ANONY_NAME row)
    /\ match_an ("/AN" ++ ANONY_NAME row) = Some (ANONY_NAME row).
Proof.
  intros Hrow Hbot Halnum Hne Hst Hpeer.
  assert (Py.split "_" (ANONY_NAME row) = [ANONY_NAME row]) as Hname.
  { apply split_piece. revert Halnum.
    apply every_impl, alnum_is_not_underscore. }
  exists ("share_yes_" ++ ANONY_NAME row),
         ("save_yes_" ++ Py.str user_id ++ "_" ++ ANONY_NAME row).
  split; [|split; [|split]].
  - unfold show_anony_number, get_user_info.
    by rewrite Hbot, Hrow, Hne, Hst.
  - unfold handle_share_decision, get_user_info.
    change (String.eqb ("share_yes_" ++ ANONY_NAME row) "share_no")
      with false. cbv iota.
    change (Py.split "_" ("share_yes_" ++ ANONY_NAME row))
      with ("share" :: "yes" :: Py.split "_" (ANONY_NAME row)).
    rewrite Hname. cbn [lookup list_lookup].
    by rewrite Hrow, Hpeer.
  - unfold handle_save_decision.
    change (String.eqb
              ("save_yes_" ++ Py.str user_id ++ "_" ++ ANONY_NAME row)
              "save_no") with false. cbv iota zeta.
    change (Py.split "_"
              ("save_yes_" ++ Py.str user_id ++ "_" ++ ANONY_NAME row))
      with ("save" :: "yes"
            :: Py.split "_" (Py.str user_id ++ String "_" (ANONY_NAME row))).
    rewrite split_app by apply str_no_underscore. rewrite Hname.
    cbn [lookup list_lookup]. by rewrite int_str.
  - apply match_an_number; [|exact Hne]. revert Halnum.
    apply every_impl, alnum_is_word.
Qed.

Lemma shared_number_reaches_the_partner_witness :
  let row := {| PEER_ID := Some "200"; STATUS := "RANDOM"; TIMER := 120;
                OTP := Some ""; OTP_EXP := None;
                ANONY_NAME := "Hidden7K2Q" |} in
  let db : users := {[ 100 := row ]} in
  exists share_data save_data,
    show_anony_number db 100 = Some ("/AN" ++ "Hidden7K2Q", Some share_data)
    /\ handle_share_decision db share_data 100 = Some ("200", save_data)
    /\ handle_save_decision save_data = Some (100, "/AN" ++ "Hidden7K2Q")
    /\ match_an ("/AN" ++ "Hidden7K2Q") = Some "Hidden7K2Q".
Proof.
  intros row db.
  apply (shared_number_reaches_the_partner db 100 row); reflexivity.
Defined.

Lemma select_where_anony_name_unique (db : users) (target : Z)
    (target_row : user_row) :
  (forall v1 v2 r1 r2, db !! v1 = Some r1 -> db !! v2 = Some r2 ->
                       ANONY_NAME r1 = ANONY_NAME r2 -> v1 = v2) ->
  db !! target = Some target_row ->
  select_where_anony_name (ANONY_NAME target_row) db
  = Some (target, target_row).
Proof.
  intros Huniq Hrow. unfold select_where_anony_name.
  destruct (List.find _ (map_to_list db)) as [[k r]|] eqn:Hfind.
  - apply find_some in Hfind as [Hin Hname].
    apply list_elem_of_In, elem_of_map_to_list in Hin.
    apply String.eqb_eq in Hname. cbn [snd] in Hname.
    assert (k = target) as -> by (by apply (Huniq k target r target_row)).
    congruence.
  - exfalso.
    pose proof (find_none _ _ Hfind (target, target_row)) as Hnone.
    cbn [snd] in Hnone. rewrite String.eqb_refl in Hnone.
    discriminate Hnone.
    by apply list_elem_of_In, elem_of_map_to_list.
Qed.

(** X22. [handle_an_command] on an anonymous number.  When names are
    unique in the table, the number of a user reaches that user: the
    request goes to the owner of the name, with the requester's id in the
    data of both buttons and the requester's own name in the text -- or is
    refused when the owner is the requester.  A name that no row holds is
    answered as unknown.  In no case is a row written: the handler returns
    no table. *)
Theorem an_command_reaches_the_owner
    (db : users) (user_id target : Z) (row target_row : user_row) :
  (forall v1 v2 r1 r2, db !! v1 = Some r1 -> db !! v2 = Some r2 ->
                       ANONY_NAME r1 = ANONY_NAME r2 -> v1 = v2) ->
  db !! user_id = Some row ->
  db !! target = Some target_row ->
  every Py.isword (ANONY_NAME target_row) = true ->
  Py.nonempty (ANONY_NAME target_row) = true ->
  handle_an_command db ("/AN" ++ ANONY_NAME target_row) user_id
  = (if decide (target = user_id) then connect_to_yourself
     else request_sent target ("accept_an_" ++ Py.str user_id)
            ("decline_an_" ++ Py.str user_id) (ANONY_NAME row))
  /\ (forall name,
        every Py.isword name = true -> Py.nonempty name = true ->
        (forall v r, db !! v = Some r -> ANONY_NAME r <> name) ->
        handle_an_command db ("/AN" ++ name) user_id = unknown_number).
Proof.
  intros Huniq Hrow Htarget Hw Hne. split.
  - unfold handle_an_command.
    rewrite match_an_number by assumption.
    rewrite (select_where_anony_name_unique db target target_row)
      by assumption.
    case_decide as Hself.
    + subst target. by rewrite Z.eqb_refl.
    + apply Z.eqb_neq in Hself. by rewrite Hself, Hrow.
  - intros name Hwn Hnn Hnone. unfold handle_an_command.
    rewrite match_an_number by assumption.
    unfold select_where_anony_name.
    destruct (List.find _ (map_to_list db)) as [[k r]|] eqn:Hfind; [|done].
    exfalso. apply find_some in Hfind as [Hin Hname].
    apply list_elem_of_In, elem_of_map_to_list in Hin.
    apply String.eqb_eq in Hname. by apply (Hnone k r).
Qed.

Lemma an_command_reaches_the_owner_witness :
  let row peer name :=
    {| PEER_ID := Some peer; STATUS := "RANDOM"; TIMER := 120;
       OTP := Some ""; OTP_EXP := None; ANONY_NAME := name |} in
  let db : users :=
    <[ 100 := row "200" "Hidden7K2Q" ]> {[ 200 := row "100" "Secret01AB" ]} in
  handle_an_command db ("/AN" ++ "Secret01AB") 100
  = request_sent 200 "accept_an_100" "decline_an_100" "Hidden7K2Q".
Proof.
  intros row db.
  apply (an_command_reaches_the_owner db 100 200 (row "200" "Hidden7K2Q")
           (row "100" "Secret01AB")); [|reflexivity..].
  intros v1 v2 r1 r2 H1 H2 Hn. unfold db in H1, H2.
  each_row H1; each_row H2; try done; discriminate Hn.
Defined.

(** X23. The buttons of a request come back as they were sent: the data
    that [handle_an_command] puts on "Accept", pressed by the user the
    request was sent to, runs the accept of [handle_an_connection_response]
    for that requester and that responder; the data on "Decline" changes no
    row. *)
Theorem request_buttons_round_trip
    (db : users) (message_text : string) (user_id target : Z)
    (accept_data decline_data name : string) :
  handle_an_command db message_text user_id
  = request_sent target accept_data decline_data name ->
  forall (b : bot) (db' : users),
    handle_an_connection_response_call b db' accept_data target
    = handle_an_connection_response b db' "accept" user_id target
    /\ handle_an_connection_response_call b db' decline_data target = db'.
Proof.
  unfold handle_an_command.
  destruct (match_an message_text) as [anony_name|]; [|done].
  destruct (select_where_anony_name anony_name db) as [[t rt]|]; [|done].
  destruct (t =? user_id); [done|].
  destruct (db !! user_id) as [row|]; [|done].
  intros [= -> <- <- _] b db'.
  unfold handle_an_connection_response_call.
  change (Py.split "_" ("accept_an_" ++ Py.str user_id))
    with ("accept" :: "an" :: Py.split "_" (Py.str user_id)).
  change (Py.split "_" ("decline_an_" ++ Py.str user_id))
    with ("decline" :: "an" :: Py.split "_" (Py.str user_id)).
  rewrite split_piece by apply str_no_underscore.
  cbn [lookup list_lookup]. rewrite int_str. by split.
Qed.

Lemma request_buttons_round_trip_witness :
  let row peer name :=
    {| PEER_ID := Some peer; STATUS := "IDLE"; TIMER := 120;
       OTP := Some ""; OTP_EXP := None; ANONY_NAME := name |} in
  let db : users :=
    <[ 100 := row "" "Hidden7K2Q" ]> {[ 200 := row "" "Secret01AB" ]} in
  let b := {| send_message := fun _ => true; answer_callback_query := true |} in
  handle_an_connection_response_call b db "accept_an_100" 200
  = handle_an_connection_response b db "accept" 100 200.
Proof.
  intros row db b.
  apply (request_buttons_round_trip db "/ANSecret01AB" 100 200
           "accept_an_100" "decline_an_100" "Hidden7K2Q").
  reflexivity.
Defined.

End anonymous_numbers.

(** ** The router *)

Section router.

Import message_sender.

Lemma str_no_space (z : Z) :
  every (fun c => negb (Py.isspace c)) (Py.str z) = true.
Proof.
  assert (forall n, 0 <= n ->
            every (fun c => negb (Py.isspace c)) (Py.str n) = true) as Hpos.
  { intros n Hn. destruct (str_digits n Hn) as [Hd _]. revert Hd.
    apply every_impl, digit_not_space. }
  destruct (decide (0 <= z)) as [Hz|Hz]; [by apply Hpos|].
  rewrite str_negative by lia. unfold every.
  cbn [list_ascii_of_string forallb]. apply andb_true_iff.
  split; [reflexivity|]. apply Hpos. lia.
Qed.

(** The chat of a peer id that the engine wrote is the user of that id. *)
Lemma chat_of_str (k : Z) : chat_of (Py.str k) = Py.str k.
Proof.
  unfold chat_of. rewrite int_str. by destruct (Py.isdigit_str _).
Qed.

Lemma get_peer_info_regular (db : users) (user_id : Z) (row : user_row)
    (p : string) :
  db !! user_id = Some row ->
  In (STATUS row) ["CONNECTED"; "AI"; "PRIVATE"; "RANDOM"] ->
  PEER_ID row = Some p ->
  Py.nonempty (Py.strip p) = true ->
  get_peer_info db user_id
  = Some {| status := STATUS row; peer_id := Some p; listeners := None |}.
Proof.
  intros Hrow Hst Hp Hne. unfold get_peer_info. rewrite Hrow. cbv zeta.
  rewrite Hp, Hne.
  cbn [In] in Hst.
  destruct Hst as [<-|[<-|[<-|[<-|[]]]]]; reflexivity.
Qed.

(** The listeners of a broadcaster. *)
Lemma get_peer_info_broadcaster (db : users) (user_id : Z) (row : user_row) :
  db !! user_id = Some row ->
  STATUS row = "BROADCASTER" ->
  exists heard,
    get_peer_info db user_id
    = Some {| status := "BROADCASTER"; peer_id := PEER_ID row;
              listeners := Some heard |}
    /\ (forall k, In k heard
                  <-> k <> user_id
                      /\ exists rk, db !! k = Some rk
                                    /\ STATUS rk = "LISTENER"
                                    /\ PEER_ID rk = PEER_ID row
                                    /\ PEER_ID row <> None).
Proof.
  intros Hrow Hst. unfold get_peer_info. rewrite Hrow. cbv zeta.
  rewrite Hst.
  cbn [status_in existsb String.eqb Ascii.eqb Bool.eqb orb negb andb].
  eexists. split; [reflexivity|].
  intros k. rewrite filter_In. split.
  - intros [_ Hk]. destruct (db !! k) as [rk|]; [|discriminate Hk].
    apply andb_true_iff in Hk as [Hk Hne].
    apply andb_true_iff in Hk as [Hpeer Hs].
    apply negb_true_iff, Z.eqb_neq in Hne. apply String.eqb_eq in Hs.
    split; [exact Hne|]. exists rk. split; [done|]. split; [done|].
    unfold peer_id_is in Hpeer.
    destruct (PEER_ID rk) as [x|], (PEER_ID row) as [y|];
      try discriminate Hpeer.
    apply String.eqb_eq in Hpeer. by subst.
  - intros (Hne & rk & Hk & Hs & Hpeer & Hsome). split.
    + apply list_elem_of_In, list_elem_of_fmap.
      exists (k, rk). split; [done|]. by apply elem_of_map_to_list.
    + rewrite Hk, Hs, Hpeer. unfold peer_id_is.
      destruct (PEER_ID row) as [y|]; [|done].
      rewrite String.eqb_refl. cbn.
      by apply negb_true_iff, Z.eqb_neq.
Qed.

(** What is sent for a broadcaster. *)
Lemma handle_message_broadcaster
    (b : bot) (db : users) (message_ : message) (user_id : option Z)
    (code : option string) (heard : list Z) :
  get_peer_info db (sender message_ user_id)
  = Some {| status := "BROADCASTER"; peer_id := code;
            listeners := Some heard |} ->
  handle_message b db message_ user_id
  = ((0 <? length (List.filter (fun k => send_message b (Py.str k)) heard))%nat,
     map (fun k => (Py.str k, text message_)) heard).
Proof.
  intros Hinfo. unfold handle_message. fold (sender message_ user_id).
  rewrite Hinfo. cbn [status listeners String.eqb Ascii.eqb Bool.eqb].
  by destruct heard.
Qed.

(** X24. A text message of a broadcaster is sent, as it is -- also when it
    is a reply --, to the users who are LISTENER with the broadcaster's
    PEER_ID, the broadcaster apart, and to nobody else; every listener is
    tried, whether or not an earlier one could be reached, and the answer
    is [True] exactly when one of them was. *)
Theorem broadcast_reaches_the_listeners
    (b : bot) (db : users) (message_ : message) (user_id : option Z)
    (row : user_row) :
  db !! sender message_ user_id = Some row ->
  STATUS row = "BROADCASTER" ->
  let answer := handle_message b db message_ user_id in
  (forall chat text_,
     In (chat, text_) answer.2
     <-> text_ = text message_
         /\ exists k rk,
              chat = Py.str k /\ k <> sender message_ user_id
              /\ db !! k = Some rk /\ STATUS rk = "LISTENER"
              /\ PEER_ID rk = PEER_ID row /\ PEER_ID row <> None)
  /\ (answer.1 = true
      <-> exists chat text_,
            In (chat, text_) answer.2 /\ send_message b chat = true).
Proof.
  intros Hrow Hst answer. subst answer.
  destruct (get_peer_info_broadcaster db _ row Hrow Hst)
    as (heard & Hinfo & Hheard).
  rewrite (handle_message_broadcaster b db message_ user_id _ heard Hinfo).
  cbn [fst snd]. split.
  - intros chat text_. rewrite in_map_iff. split.
    + intros (k & [= <- <-] & Hk). split; [done|].
      apply Hheard in Hk as (Hne & rk & Hrest). by exists k, rk.
    + intros (-> & k & rk & -> & Hne & Hrest).
      exists k. split; [done|]. apply Hheard. split; [done|]. by exists rk.
  - rewrite Nat.ltb_lt. split.
    + intros Hpos.
      destruct (List.filter (fun k => send_message b (Py.str k)) heard)
        as [|k l] eqn:Hf; [cbn in Hpos; lia|].
      assert (In k (List.filter (fun k => send_message b (Py.str k)) heard))
        as Hin by (rewrite Hf; by left).
      apply filter_In in Hin as [Hin Hsend].
      exists (Py.str k), (text message_). split; [|done].
      apply in_map_iff. by exists k.
    + intros (chat & text_ & Hin & Hsend).
      apply in_map_iff in Hin as (k & [= <- <-] & Hk).
      assert (In k (List.filter (fun k => send_message b (Py.str k)) heard))
        as Hin by (by apply filter_In).
      destruct (List.filter _ heard); [done|cbn; lia].
Qed.

Lemma broadcast_reaches_the_listeners_witness :
  let caster := {| PEER_ID := Some "099ebe"; STATUS := "BROADCASTER";
                   TIMER := 120; OTP := Some ""; OTP_EXP := None;
                   ANONY_NAME := "Hidden7K2Q" |} in
  let listener := {| PEER_ID := Some "099ebe"; STATUS := "LISTENER";
                     TIMER := 120; OTP := Some ""; OTP_EXP := None;
                     ANONY_NAME := "Secret01AB" |} in
  let db : users := <[ 100 := caster ]> {[ 200 := listener ]} in
  let b := {| send_message := fun _ => true; answer_callback_query := true |} in
  let m := {| from_user := 100; text := "hello";
              reply_to_message := Some (Some "earlier") |} in
  In ("200", "hello") (handle_message b db m None).2.
Proof.
  intros caster listener db b m.
  destruct (broadcast_reaches_the_listeners b db m None caster eq_refl eq_refl)
    as [Hsent _].
  apply Hsent. split; [reflexivity|].
  exists 200, listener. by repeat split.
Defined.

(** X25. Messages that go nowhere.  The text of a LISTENER is answered
    [True] and sent to nobody.  The text of a user who is unknown, or whose
    status is none of CONNECTED, AI, PRIVATE, RANDOM, BROADCASTER and
    LISTENER, or who has one of the first four with a PEER_ID that is NULL
    or blank, is answered [False] and sent to nobody. *)
Theorem unrouted_messages
    (b : bot) (db : users) (message_ : message) (user_id : option Z) :
  let answer := handle_message b db message_ user_id in
  let row := db !! sender message_ user_id in
  (STATUS <$> row = Some "LISTENER" -> answer = (true, []))
  /\ (row = None -> answer = (false, []))
  /\ (forall r, row = Some r ->
        ~ In (STATUS r) ["CONNECTED"; "AI"; "PRIVATE"; "RANDOM";
                         "BROADCASTER"; "LISTENER"] ->
        answer = (false, []))
  /\ (forall r, row = Some r ->
        In (STATUS r) ["CONNECTED"; "AI"; "PRIVATE"; "RANDOM"] ->
        Py.nonempty (Py.strip (default "" (PEER_ID r))) = false ->
        answer = (false, [])).
Proof.
  cbv zeta. unfold handle_message. fold (sender message_ user_id).
  set (u := sender message_ user_id). unfold get_peer_info.
  destruct (db !! u) as [r|] eqn:Hrow; cycle 1.
  { split; [done|]. split; [done|]. split; intros; done. }
  cbv zeta. split; [|split; [done|split]].
  - cbn. intros [= ->]. reflexivity.
  - intros r' [= <-] Hout.
    destruct (status_in (STATUS r) _) eqn:Hin; [|reflexivity].
    apply status_in_spec in Hin. contradiction.
  - intros r' [= <-] Hin Hblank. cbn [In] in Hin.
    destruct (PEER_ID r) as [p|].
    + change (default "" (Some p)) with p in Hblank.
      destruct Hin as [<-|[<-|[<-|[<-|[]]]]]; cbn; by rewrite Hblank.
    + destruct Hin as [<-|[<-|[<-|[<-|[]]]]]; reflexivity.
Qed.

Lemma unrouted_messages_witness :
  let listener := {| PEER_ID := Some "099ebe"; STATUS := "LISTENER";
                     TIMER := 120; OTP := Some ""; OTP_EXP := None;
                     ANONY_NAME := "Secret01AB" |} in
  let db : users := {[ 200 := listener ]} in
  let b := {| send_message := fun _ => true; answer_callback_query := true |} in
  let m := {| from_user := 200; text := "hello"; reply_to_message := None |} in
  handle_message b db m None = (true, []).
Proof.
  intros listener db b m.
  destruct (unrouted_messages b db m None) as (Hlistener & _).
  exact (Hlistener eq_refl).
Defined.

(** X26. The quotation of a reply: [send_text_message] sends one message,
    to the chat of the peer.  Without a reply to a text it is the text
    itself; with one, the text comes after the quoted text, which is cut
    to its first 47 characters and three dots when it has more than 50, so
    that the quotation never exceeds 50 characters. *)
Theorem reply_quotation_is_bounded
    (b : bot) (peer : string) (text_ : string) (message_ : message) :
  exists body,
    send_text_message b peer text_ message_
    = (send_message b (chat_of peer), [(chat_of peer, body)])
    /\ match reply_to_message message_ with
       | Some (Some reply_text) =>
           exists quotation,
             body = "↩️ Reply to: " ++ quotation_mark ++ quotation
                      ++ quotation_mark ++ line_feed ++ line_feed ++ text_
             /\ (String.length quotation <= 50)%nat
             /\ Py.take 47 quotation = Py.take 47 reply_text
             /\ ((String.length reply_text <= 50)%nat ->
                 quotation = reply_text)
       | _ => body = text_
       end.
Proof.
  unfold send_text_message. eexists. split; [reflexivity|].
  destruct (reply_to_message message_) as [[reply_text|]|]; [|done..].
  exists (quoted reply_text). split; [reflexivity|]. unfold quoted.
  destruct (Nat.ltb_spec 50 (String.length reply_text)) as [Hlong|Hshort].
  - split; [|split; [|lia]].
    + rewrite length_app, length_take. cbn [String.length]. lia.
    + rewrite (take_app_length 47); [done|]. rewrite length_take. lia.
  - by repeat split.
Qed.

(** ** From a pairing to the messages *)

(** X27. After a successful random match the two users talk to each
    other: a text of either one (no reply) is sent once, unchanged, to the
    chat of the other, and the answer tells whether the client took it. *)
Theorem matched_users_talk_to_each_other
    (b : bot) (db : users) (user_id partner : Z) (draw : nat) :
  (random_connection.find_random_partner db user_id draw).1
  = {| random_connection.status := "success";
       random_connection.partner_id := Some partner |} ->
  let db' := (random_connection.find_random_partner db user_id draw).2 in
  forall message_ : message,
    reply_to_message message_ = None ->
    (from_user message_ = user_id ->
     handle_message b db' message_ None
     = (send_message b (Py.str partner),
        [(Py.str partner, text message_)]))
    /\ (from_user message_ = partner ->
        handle_message b db' message_ None
        = (send_message b (Py.str user_id),
           [(Py.str user_id, text message_)])).
Proof.
  intros Hok db' message_ Hreply.
  assert (forall u p r,
            db' !! u = Some (set_STATUS "RANDOM" (set_PEER_ID (Some (Py.str p)) r)) ->
            from_user message_ = u ->
            handle_message b db' message_ None
            = (send_message b (Py.str p), [(Py.str p, text message_)]))
    as Hsend.
  { intros u p r Hrow Hfrom. unfold handle_message. rewrite Hfrom.
    rewrite (get_peer_info_regular db' u _ (Py.str p) Hrow);
      [|cbn; tauto|reflexivity|].
    - cbn [status peer_id STATUS set_STATUS String.eqb Ascii.eqb Bool.eqb].
      change (default "" (Some (Py.str p))) with (Py.str p).
      unfold send_text_message. rewrite Hreply, chat_of_str. reflexivity.
    - rewrite strip_no_space by apply str_no_space. apply str_nonempty. }
  destruct (find_random_partner_cases db user_id draw)
    as [(Herr & _)|[(Hwait & _)|Hsucc]].
  - rewrite Herr in Hok. discriminate Hok.
  - rewrite Hwait in Hok. discriminate Hok.
  - destruct Hsucc as (p & r & rp & Hans & _ & _ & _ & _ & _ & Hu & Hp & _).
    rewrite Hans in Hok. injection Hok as ->.
    split; intros Hfrom; [by apply (Hsend user_id partner r)
                         | by apply (Hsend partner user_id rp)].
Qed.

Lemma matched_users_talk_to_each_other_witness :
  let row status_ name :=
    {| PEER_ID := Some ""; STATUS := status_; TIMER := 120;
       OTP := Some ""; OTP_EXP := None; ANONY_NAME := name |} in
  let db : users :=
    <[ 100 := row "OPEN" "Hidden7K2Q" ]> {[ 200 := row "IDLE" "Secret01AB" ]} in
  let b := {| send_message := fun _ => true; answer_callback_query := true |} in
  let m := {| from_user := 100; text := "hello"; reply_to_message := None |} in
  handle_message b (random_connection.find_random_partner db 200 0).2 m None
  = (true, [("200", "hello")]).
Proof.
  intros row db b m.
  destruct (matched_users_talk_to_each_other b db 200 100 0 eq_refl m eq_refl)
    as [_ Hback].
  exact (Hback eq_refl).
Defined.

(** X28. A listener who joins with the text whose code the broadcaster
    holds is reached by the broadcaster's next text, and the listener's own
    texts are answered [True] without being sent to anybody. *)
Theorem joined_listener_hears_the_broadcast
    (b : bot) (db : users) (text_ : string) (listener caster : Z)
    (caster_row listener_row : user_row) :
  db !! caster = Some caster_row ->
  STATUS caster_row = "BROADCASTER" ->
  db !! listener = Some listener_row ->
  listener <> caster ->
  Py.startswith "/BCST" (Py.strip text_) = true ->
  PEER_ID caster_row
  = Some (create_broadcasting.convert_to_fixed_code (Py.strip text_)) ->
  let db' :=
    process_broadcasting.process_broadcasting_channel_id db text_ listener in
  forall message_ : message,
    (from_user message_ = caster ->
     In (Py.str listener, text message_)
        (handle_message b db' message_ None).2)
    /\ (from_user message_ = listener ->
        handle_message b db' message_ None = (true, [])).
Proof.
  intros Hcaster Hst Hlistener Hne Hstart Hcode db' message_.
  assert (db' = update_where_user_id
                  (fun r => set_STATUS "LISTENER"
                              (set_PEER_ID
                                 (Some (create_broadcasting.convert_to_fixed_code
                                          (Py.strip text_))) r))
                  listener db) as Hdb'.
  { subst db'. unfold process_broadcasting.process_broadcasting_channel_id,
      create_broadcasting.validate_listener_channel_id.
    rewrite strip_idem, Hstart.
    assert (Py.nonempty (Py.strip text_) = true) as ->
      by (by destruct (Py.strip text_)).
    destruct (length_convert_to_fixed_code (Py.strip text_)) as [_ ->].
    reflexivity. }
  assert (db' !! caster = Some caster_row) as Hc'
    by (by rewrite Hdb', update_lookup_ne).
  assert (db' !! listener
          = Some (set_STATUS "LISTENER"
                    (set_PEER_ID
                       (Some (create_broadcasting.convert_to_fixed_code
                                (Py.strip text_))) listener_row))) as Hl'
    by (by rewrite Hdb', update_lookup_eq, Hlistener).
  split; intros Hfrom.
  - destruct (get_peer_info_broadcaster db' caster caster_row Hc' Hst)
      as (heard & Hinfo & Hheard).
    rewrite (handle_message_broadcaster b db' message_ None
               (PEER_ID caster_row) heard)
      by (cbn [sender]; by rewrite Hfrom).
    cbn [snd]. apply in_map_iff. exists listener. split; [done|].
    apply Hheard. split; [done|]. eexists. split; [exact Hl'|].
    rewrite Hcode. by repeat split.
  - unfold handle_message, get_peer_info. rewrite Hfrom, Hl'. reflexivity.
Qed.

Lemma joined_listener_hears_the_broadcast_witness :
  let caster := {| PEER_ID := Some "099ebe"; STATUS := "BROADCASTER";
                   TIMER := 120; OTP := Some ""; OTP_EXP := None;
                   ANONY_NAME := "Hidden7K2Q" |} in
  let other := {| PEER_ID := Some ""; STATUS := "OPEN";
                  TIMER := 120; OTP := Some ""; OTP_EXP := None;
                  ANONY_NAME := "Secret01AB" |} in
  let db : users := <[ 100 := caster ]> {[ 200 := other ]} in
  let b := {| send_message := fun _ => true; answer_callback_query := true |} in
  let m := {| from_user := 100; text := "hello"; reply_to_message := None |} in
  In ("200", "hello")
     (handle_message b
        (process_broadcasting.process_broadcasting_channel_id db
           "/BCSTAB123456789XYZHidden7K2QQRST" 200) m None).2.
Proof.
  intros caster other db b m.
  destruct (joined_listener_hears_the_broadcast b db
              "/BCSTAB123456789XYZHidden7K2QQRST" 200 100 caster other
              eq_refl eq_refl eq_refl ltac:(lia) eq_refl eq_refl m)
    as [Hheard _].
  exact (Hheard eq_refl).
Defined.

(** X29. After a stop that the client delivers, neither side is routed any
    more: a text of the caller or of the partner is answered [False] and
    sent to nobody. *)
Theorem stopped_users_are_not_routed
    (b : bot) (db : users) (user_id chat_id peer : Z) (row : user_row) :
  (forall t, send_message b t = true) ->
  answer_callback_query b = true ->
  db !! user_id = Some row ->
  STATUS row <> "CLOSED" ->
  STATUS row <> "BROADCASTER" ->
  peer_of row = Some peer ->
  let db' := controls_anonybot.handle_stop_button b db user_id chat_id in
  forall (b' : bot) (message_ : message),
    from_user message_ = user_id \/ from_user message_ = peer ->
    handle_message b' db' message_ None = (false, []).
Proof.
  intros Hsend Hanswer Hrow Hopen Hnb Hpeer db' b' message_ Hfrom.
  assert (stopped_partner row = Some peer) as Hpartner.
  { unfold stopped_partner.
    by rewrite (eqb_status_false _ _ Hnb), (peer_of_truthy row peer Hpeer). }
  assert (forall v, v = user_id \/ v = peer ->
            db' !! v = anony_number.closes_peer <$> db !! v) as Hclosed.
  { intros v Hv. subst db'.
    rewrite (handle_stop_button_delivered b db user_id chat_id row v)
      by assumption.
    rewrite decide_True; [done|]. destruct Hv as [->| ->]; [by left|by right]. }
  unfold handle_message, get_peer_info. cbn [sender].
  rewrite (Hclosed (from_user message_) Hfrom).
  by destruct (db !! from_user message_).
Qed.

Lemma stopped_users_are_not_routed_witness :
  let row peer name :=
    {| PEER_ID := Some peer; STATUS := "RANDOM"; TIMER := 120;
       OTP := Some ""; OTP_EXP := None; ANONY_NAME := name |} in
  let db : users :=
    <[ 100 := row "200" "Hidden7K2Q" ]> {[ 200 := row "100" "Secret01AB" ]} in
  let b := {| send_message := fun _ => true; answer_callback_query := true |} in
  let m := {| from_user := 200; text := "hello"; reply_to_message := None |} in
  handle_message b (controls_anonybot.handle_stop_button b db 100 100) m None
  = (false, []).
Proof.
  intros row db b m.
  apply (stopped_users_are_not_routed b db 100 100 200
           (row "200" "Hidden7K2Q"));
    [done | done | reflexivity | discriminate | discriminate | reflexivity
    | by right].
Defined.

End router.

(** ** A witness of the symmetric pairing *)

Section pairing_witness.


End pairing_witness.
